(** * Weather-Station: firmware OTA distribution and telemetry intake

    A shallow embedding of the request handlers of
    [src/server/weather_api_ota.py] and of [get_device_status] of
    [src/dashboard/dashboard.py], with the properties the specification
    states about them.

    Conventions of the embedding:
    - a Python exception is a value of [exn]; a computation that may raise
      returns [result A];
    - a Python [str] is the string of the bytes of its UTF-8 encoding;
    - a [datetime] of the server is an integer number of microseconds since
      the epoch, a [timedelta] a number of microseconds; a [datetime] of the
      dashboard keeps its fields and its [tzinfo] apart, and its [float]s
      are binary64 numbers;
    - tables of the database are lists of rows in insertion order, except
      [device_registry], whose [device_id] column is a unique key and which
      is a finite map from [device_id] to its row;
    - the upload folder is a finite map from file names to contents;
    - what the handlers take from their platform (floating-point
      arithmetic, ISO-8601 parsing and printing, [secure_filename], SHA-256)
      is a parameter, gathered in the class [Platform]; what [int] does
      with a string beyond the ASCII literals is one of the class
      [Interpreter], and the time zone of the dashboard's machine one of
      the class [Dashboard.Host]. *)

From Stdlib Require Import ZArith QArith Lia Ascii SpecFloat.
From stdpp Require Import gmap strings list sorting pretty.

Local Open Scope Z_scope.

(** ** Exceptions *)

Inductive exn : Type :=
  | ValueError
  | TypeError
  | AttributeError
  | KeyError
  | OverflowError
  | IntegrityError
  | DataError.

Inductive result (A : Type) : Type :=
  | Ok (a : A)
  | Raise (e : exn).

Arguments Ok {A} a.
Arguments Raise {A} e.

#[global] Instance result_ret : MRet result := fun _ a => Ok a.

#[global] Instance result_bind : MBind result := fun _ _ k r =>
  match r with
  | Ok a => k a
  | Raise e => Raise e
  end.

(** [[f(x) for x in l]]: the first exception stops the comprehension. *)
Fixpoint comprehension {A B : Type} (f : A -> result B) (l : list A)
  : result (list B) :=
  match l with
  | [] => Ok []
  | x :: l' => y ← f x; ys ← comprehension f l'; Ok (y :: ys)
  end.

(** ** Strings *)

Module Str.

(** [s.split(sep)] for a one-character separator. *)
Fixpoint split (sep : ascii) (s : string) : list string :=
  match s with
  | EmptyString => [EmptyString]
  | String c r =>
      if Ascii.eqb c sep then EmptyString :: split sep r
      else match split sep r with
           | [] => [String c EmptyString]
           | h :: t => String c h :: t
           end
  end.

(** [s.replace(c, by)] for a one-character pattern. *)
Fixpoint replace (c : ascii) (by_ : string) (s : string) : string :=
  match s with
  | EmptyString => EmptyString
  | String d r =>
      if Ascii.eqb d c then by_ +:+ replace c by_ r
      else String d (replace c by_ r)
  end.

(** [c in s] for a character [c]. *)
Fixpoint contains (c : ascii) (s : string) : bool :=
  match s with
  | EmptyString => false
  | String d r => Ascii.eqb d c || contains c r
  end.

(** ASCII white space, as [str.split] sees it. *)
Definition is_space (c : ascii) : bool :=
  let n := nat_of_ascii c in
  ((9 <=? n) && (n <=? 13) || (28 <=? n) && (n <=? 32))%nat.

(** White space as C's [isspace] sees it in the "C" locale, which is what
    [int] skips around a numeral. *)
Definition is_c_space (c : ascii) : bool :=
  let n := nat_of_ascii c in
  ((9 <=? n) && (n <=? 13) || (n =? 32))%nat.

(** Dropping leading and trailing characters of a class. *)
Fixpoint lstrip (p : ascii -> bool) (s : string) : string :=
  match s with
  | EmptyString => EmptyString
  | String c r => if p c then lstrip p r else s
  end.

Fixpoint rstrip (p : ascii -> bool) (s : string) : string :=
  match s with
  | EmptyString => EmptyString
  | String c r =>
      match rstrip p r with
      | EmptyString => if p c then EmptyString else String c EmptyString
      | r' => String c r'
      end
  end.

Definition strip (p : ascii -> bool) (s : string) : string :=
  rstrip p (lstrip p s).

(** [all(p(c) for c in s)] *)
Fixpoint all_chars (p : ascii -> bool) (s : string) : bool :=
  match s with
  | EmptyString => true
  | String c r => p c && all_chars p r
  end.

(** The number of characters of [s] that are in the class [p]. *)
Fixpoint count_chars (p : ascii -> bool) (s : string) : nat :=
  match s with
  | EmptyString => O
  | String c r => if p c then S (count_chars p r) else count_chars p r
  end.

(** A byte below 128 is an ASCII character; the others are parts of the
    encoding of a character that is not. *)
Definition is_ascii (c : ascii) : bool := (nat_of_ascii c <? 128)%nat.

Definition is_digit (c : ascii) : bool :=
  let n := nat_of_ascii c in ((48 <=? n) && (n <=? 57))%nat.

Definition digit_value (c : ascii) : Z := Z.of_nat (nat_of_ascii c) - 48.

(** [c.lower()] on ASCII *)
Definition lower_ascii (c : ascii) : ascii :=
  let n := nat_of_ascii c in
  if ((65 <=? n) && (n <=? 90))%nat then ascii_of_nat (n + 32) else c.

(** [s.lower()] *)
Fixpoint lower (s : string) : string :=
  match s with
  | EmptyString => EmptyString
  | String c r => String (lower_ascii c) (lower r)
  end.

(** [str(n)] for an integer *)
Definition of_Z (n : Z) : string := pretty n.

End Str.

(** ** The interpreter

    What [int] takes from the interpreter that runs the server: the limit
    on the number of digits of an integer string
    ([sys.get_int_max_str_digits()], 4300 unless configured, 0 for no limit,
    and no limit at all on interpreters that have none), and its reading of
    strings with characters outside ASCII, which goes by the Unicode database
    of the interpreter. *)

Class Interpreter : Type := {
  int_max_str_digits : nat;
  (** [int(x)] for a string with a character outside ASCII and no ASCII
      character that [int] refuses; [None] is [ValueError] *)
  int_non_ascii : string -> option Z;
}.

(** ** [int(x)] on a string

    On ASCII the grammar is: white space, an optional sign, decimal digits
    where single underscores may separate digits, white space.  A numeral of
    more than 640 digits that exceeds the limit of the interpreter raises
    [ValueError], as does anything outside the grammar. *)

Fixpoint int_digits (acc : Z) (after_digit : bool) (s : string) : option Z :=
  match s with
  | EmptyString => if after_digit then Some acc else None
  | String c r =>
      if Str.is_digit c then int_digits (10 * acc + Str.digit_value c) true r
      else if Ascii.eqb c "_" then
             (if after_digit then int_digits acc false r else None)
      else None
  end.

(** The characters an integer string may hold: whatever is not ASCII is
    left to the Unicode database. *)
Definition int_char (c : ascii) : bool :=
  negb (Str.is_ascii c) || Str.is_digit c || Str.is_c_space c
  || Ascii.eqb c "+" || Ascii.eqb c "-" || Ascii.eqb c "_".

(** The check against long numerals, for a limit of [max_digits]. *)
Definition exceeds_limit (max_digits digits : nat) : bool :=
  ((640 <? digits) && (0 <? max_digits) && (max_digits <? digits))%nat.

(** [int(x)] for an ASCII string [x] under the limit [max_digits]. *)
Definition int_ascii_with (max_digits : nat) (x : string) : option Z :=
  let literal := Str.strip Str.is_c_space x in
  if exceeds_limit max_digits (Str.count_chars Str.is_digit literal) then None
  else
    match literal with
    | String "+" r => int_digits 0 false r
    | String "-" r => option_map Z.opp (int_digits 0 false r)
    | r => int_digits 0 false r
    end.

Section Int.

Context `{Interpreter}.

Definition too_many_digits (digits : nat) : bool :=
  exceeds_limit int_max_str_digits digits.

Definition int_ascii (x : string) : option Z :=
  int_ascii_with int_max_str_digits x.

Definition py_int (x : string) : result Z :=
  let value :=
    if negb (Str.all_chars int_char x) then None
    else if Str.all_chars Str.is_ascii x then int_ascii x
    else int_non_ascii x in
  match value with
  | Some n => Ok n
  | None => Raise ValueError
  end.

(** ** The version comparator *)

(** [[int(x) for x in v.split('.')]] *)
Definition version_parts (v : string) : result (list Z) :=
  comprehension py_int (Str.split "." v).

(** The body of the [for i in range(...)] loop of [version_compare], with
    its early returns. *)
Fixpoint compare_parts (v1_parts v2_parts : list Z) (range : list nat) : Z :=
  match range with
  | [] => 0
  | i :: rest =>
      let v1_part := if (i <? length v1_parts)%nat then nth i v1_parts 0 else 0 in
      let v2_part := if (i <? length v2_parts)%nat then nth i v2_parts 0 else 0 in
      if v1_part >? v2_part then 1
      else if v1_part <? v2_part then -1
      else compare_parts v1_parts v2_parts rest
  end.

Definition version_compare (v1 v2 : string) : result Z :=
  v1_parts ← version_parts v1;
  v2_parts ← version_parts v2;
  Ok (compare_parts v1_parts v2_parts
        (seq 0 (Nat.max (length v1_parts) (length v2_parts)))).

End Int.

(** The three answers of the comparator. *)
Definition GREATER : Z := 1.
Definition EQUAL : Z := 0.
Definition LESS : Z := -1.

(** *** The comparison the specification describes

    "Lexicographic over the integer sequence, positionally, treating a
    missing trailing component as 0": pad the shorter sequence with zeros and
    compare position by position. *)

Definition pad_to (n : nat) (l : list Z) : list Z :=
  l ++ repeat 0 (n - length l)%nat.

Fixpoint lex_compare (l1 l2 : list Z) : comparison :=
  match l1, l2 with
  | [], [] => Eq
  | [], _ :: _ => Lt
  | _ :: _, [] => Gt
  | x :: l1', y :: l2' =>
      match x ?= y with
      | Eq => lex_compare l1' l2'
      | c => c
      end
  end.

Definition answer_of (c : comparison) : Z :=
  match c with
  | Gt => GREATER
  | Eq => EQUAL
  | Lt => LESS
  end.

Definition spec_compare (a b : list Z) : Z :=
  let n := Nat.max (length a) (length b) in
  answer_of (lex_compare (pad_to n a) (pad_to n b)).

(** The domain of the contract, in the specification's words: the
    components between the dots are non-negative integers, that is
    non-empty runs of decimal digits. *)

Fixpoint all_digits (s : string) : bool :=
  match s with
  | EmptyString => true
  | String c r => Str.is_digit c && all_digits r
  end.

Definition is_natural (s : string) : bool :=
  match s with
  | EmptyString => false
  | String _ _ => all_digits s
  end.

Definition natural_version (v : string) : bool :=
  forallb is_natural (Str.split "." v).

(** The integer a run of decimal digits denotes: each digit counts for its
    value times the power of ten of its position. *)
Fixpoint decimal_of (s : string) : Z :=
  match s with
  | EmptyString => 0
  | String c r => Str.digit_value c * 10 ^ Z.of_nat (String.length r) + decimal_of r
  end.

(** The sequence of integers of a version string. *)
Definition numbers (v : string) : list Z := decimal_of <$> Str.split "." v.

(** The versions the interpreter can read: those of the domain whose
    components have at most 640 digits, or no more digits than its limit
    allows. *)
Definition valid_version `{Interpreter} (v : string) : bool :=
  forallb (fun s => is_natural s && negb (too_many_digits (String.length s)))
    (Str.split "." v).

(** A run of [n] digits 1. *)
Fixpoint ones (n : nat) : string :=
  match n with
  | O => EmptyString
  | S n' => String "1" (ones n')
  end.

(** The sequence an index loop over [range(k, k + n)] reads from [l]: reading
    past the end gives 0. *)
Definition view (k n : nat) (l : list Z) : list Z :=
  map (fun i => nth i l 0) (seq k n).

(** ** The platform

    What the handlers take from the Python runtime, the libraries and the
    database driver.  The properties below hold for every platform.  The
    only laws asked of one are that [<] on floats is irreflexive and
    transitive, as it is in IEEE arithmetic, NaN included. *)

Definition datetime : Type := Z.
Definition timedelta : Type := Z.

Class Platform : Type := {
  (** Python's [float], IEEE binary64 *)
  float : Type;
  (** [float(n)] for an integer [n]; [None] is [OverflowError] *)
  float_of_int : Z -> option float;
  (** [float(s)] for a string [s]; [None] is [ValueError] *)
  float_of_string : string -> option float;
  (** [n <= x] and [x <= n] for an integer [n] and a float [x] *)
  int_le_float : Z -> float -> bool;
  float_le_int : float -> Z -> bool;
  (** [x < y] on floats *)
  flt : float -> float -> bool;
  flt_irrefl : forall x, flt x x = false;
  flt_trans : forall x y z, flt x y = true -> flt y z = true -> flt x z = true;
  (** [sum(xs)] for a list of floats and [x / n] for an integer [n] *)
  fsum : list float -> float;
  fdiv : float -> Z -> float;
  (** [datetime.fromisoformat(s)]; [None] is [ValueError] *)
  fromisoformat : string -> option datetime;
  (** [d.isoformat()] *)
  isoformat : datetime -> string;
  (** [werkzeug.utils.secure_filename] *)
  secure_filename : string -> string;
  (** [hashlib.sha256(bytes).hexdigest()] *)
  sha256_hexdigest : list Byte.byte -> string;
  (** what the driver stores in a VARCHAR column for a bound value that is
      neither a string nor [None]; [None] when the statement fails *)
  sql_varchar_of_float : float -> option string;
}.

Section Server.

Context `{Platform} `{Interpreter}.

(** ** JSON values, as Python objects *)

#[local] Set Warnings "-register-all".

Inductive json : Type :=
  | JNull
  | JBool (b : bool)
  | JInt (n : Z)
  | JFloat (x : float)
  | JStr (s : string)
  | JArr (items : list json)
  | JObj (fields : list (string * json)).

#[local] Set Warnings "register-all".

(** [float(v)] *)
Definition py_float (v : json) : result float :=
  match v with
  | JFloat x => Ok x
  | JInt n =>
      match float_of_int n with Some x => Ok x | None => Raise OverflowError end
  | JBool b =>
      match float_of_int (if b then 1 else 0) with
      | Some x => Ok x
      | None => Raise OverflowError
      end
  | JStr s =>
      match float_of_string s with Some x => Ok x | None => Raise ValueError end
  | JNull | JArr _ | JObj _ => Raise TypeError
  end.

(** [v.replace('Z', '+00:00')]: only a string has the method. *)
Definition py_replace_Z (v : json) : result string :=
  match v with
  | JStr s => Ok (Str.replace "Z" "+00:00" s)
  | _ => Raise AttributeError
  end.

(** The value a VARCHAR column takes from a bound Python value: [Ok None]
    is SQL NULL. *)
Definition varchar (v : json) : result (option string) :=
  match v with
  | JStr s => Ok (Some s)
  | JNull => Ok None
  | JInt n => Ok (Some (Str.of_Z n))
  | JBool b => Ok (Some (if b then "1" else "0"))
  | JFloat x =>
      match sql_varchar_of_float x with
      | Some s => Ok (Some s)
      | None => Raise DataError
      end
  | JArr _ | JObj _ => Raise DataError
  end.

(** A column declared [nullable=False]. *)
Definition not_null (v : result (option string)) : result string :=
  o ← v;
  match o with
  | Some s => Ok s
  | None => Raise IntegrityError
  end.

(** ** The tables *)

Record SensorData : Type := {
  sd_id : Z;
  sd_device_id : string;
  sd_temperature : float;
  sd_humidity : float;
  sd_firmware_version : option string;
  sd_timestamp : datetime;
  sd_created_at : datetime;
}.

Record FirmwareVersion : Type := {
  fw_id : Z;
  fw_version : string;
  fw_filename : string;
  fw_description : option string;
  fw_release_date : datetime;
  fw_is_stable : bool;
  fw_min_hardware_version : option string;
  fw_checksum : option string;
}.

Record DeviceRegistry : Type := {
  dev_id : Z;
  dev_device_id : string;
  dev_hardware_version : option string;
  dev_current_firmware : option string;
  dev_last_seen : option datetime;
  dev_last_ip : option string;
  dev_registered_at : datetime;
  dev_auto_update : bool;
}.

(** The persisted state: the three tables and the upload folder. *)
Record Server : Type := {
  sensor_data : list SensorData;
  firmware_versions : list FirmwareVersion;
  device_registry : gmap string DeviceRegistry;
  upload_folder : gmap string (list Byte.byte);
}.

(** ** Responses *)

Record Response : Type := {
  status_code : Z;
  body : gmap string json;
}.

(** [jsonify(d)] and [jsonify(d), code] *)
Definition jsonify (d : list (string * json)) : Response :=
  {| status_code := 200; body := list_to_map d |}.

Definition with_code (r : Response) (code : Z) : Response :=
  {| status_code := code; body := body r |}.

Definition error_response (code : Z) (message : string) : Response :=
  with_code (jsonify [("status", JStr "error"); ("message", JStr message)]) code.

(** An exception that leaves a view function: Flask answers 500. *)
Definition internal_server_error : Response :=
  {| status_code := 500; body := ∅ |}.

Definition json_opt_str (o : option string) : json :=
  match o with
  | Some s => JStr s
  | None => JNull
  end.

Definition SensorData_to_dict (r : SensorData) : json :=
  JObj [("id", JInt (sd_id r));
        ("device_id", JStr (sd_device_id r));
        ("temperature", JFloat (sd_temperature r));
        ("humidity", JFloat (sd_humidity r));
        ("firmware_version", json_opt_str (sd_firmware_version r));
        ("timestamp", JStr (isoformat (sd_timestamp r)));
        ("created_at", JStr (isoformat (sd_created_at r)))].

Definition FirmwareVersion_to_dict (r : FirmwareVersion) : json :=
  JObj [("id", JInt (fw_id r));
        ("version", JStr (fw_version r));
        ("filename", JStr (fw_filename r));
        ("description", json_opt_str (fw_description r));
        ("release_date", JStr (isoformat (fw_release_date r)));
        ("is_stable", JBool (fw_is_stable r));
        ("min_hardware_version", json_opt_str (fw_min_hardware_version r));
        ("checksum", json_opt_str (fw_checksum r))].

(** ** POST /api/v1/sensor/data *)

(** What the outside world supplies while one telemetry request is handled:
    the peer address, the readings of the clock and the keys the storage
    engine assigns. *)
Record IngestEnv : Type := {
  remote_addr : string;
  (** [datetime.utcnow()] of the line that initialises [timestamp] *)
  utcnow_receipt : datetime;
  (** [datetime.utcnow()] of the registry update *)
  utcnow_seen : datetime;
  (** [datetime.utcnow] as column default, evaluated when rows are inserted *)
  utcnow_insert : datetime;
  new_sensor_data_id : Z;
  new_device_registry_id : Z;
}.

(** [d[key]] *)
Definition getitem (d : gmap string json) (key : string) : result json :=
  match d !! key with
  | Some v => Ok v
  | None => Raise KeyError
  end.

(** The loop over [required_fields]: the first field that is not in
    [data]. *)
Fixpoint first_missing (required_fields : list string) (data : gmap string json)
  : option string :=
  match required_fields with
  | [] => None
  | field :: rest =>
      match data !! field with
      | None => Some field
      | Some _ => first_missing rest data
      end
  end.

Definition temperature_in_range (temperature : float) : bool :=
  int_le_float (-50) temperature && float_le_int temperature 100.

Definition humidity_in_range (humidity : float) : bool :=
  int_le_float 0 humidity && float_le_int humidity 100.

(** "Parse timestamp if provided": a string that does not parse keeps the
    server time (and is logged); [replace] on anything but a string
    raises. *)
Definition parse_timestamp (env : IngestEnv) (data : gmap string json)
  : result datetime :=
  match data !! "timestamp" with
  | None => Ok (utcnow_receipt env)
  | Some v =>
      s ← py_replace_Z v;
      match fromisoformat s with
      | Some t => Ok t
      | None => Ok (utcnow_receipt env)
      end
  end.

(** "Update device registry": the row of the device after the request. *)
Definition touch (env : IngestEnv) (device_id : string)
    (firmware_version : option string) (device : option DeviceRegistry)
  : DeviceRegistry :=
  match device with
  | Some device =>
      {| dev_id := dev_id device;
         dev_device_id := dev_device_id device;
         dev_hardware_version := dev_hardware_version device;
         dev_current_firmware := firmware_version;
         dev_last_seen := Some (utcnow_seen env);
         dev_last_ip := Some (remote_addr env);
         dev_registered_at := dev_registered_at device;
         dev_auto_update := dev_auto_update device |}
  | None =>
      {| dev_id := new_device_registry_id env;
         dev_device_id := device_id;
         dev_hardware_version := None;
         dev_current_firmware := firmware_version;
         dev_last_seen := Some (utcnow_seen env);
         dev_last_ip := Some (remote_addr env);
         dev_registered_at := utcnow_insert env;
         dev_auto_update := true |}
  end.

(** The part of the handler after the range checks: build the reading,
    update the registry, commit. *)
Definition store_reading (env : IngestEnv) (data : gmap string json)
    (temperature humidity : float) (db : Server) : result (Response * Server) :=
  timestamp ← parse_timestamp env data;
  let firmware_version := default (JStr "unknown") (data !! "firmware_version") in
  device_id_value ← getitem data "device_id";
  device_id ← not_null (varchar device_id_value);
  firmware_version ← varchar firmware_version;
  let sensor_data_row :=
    {| sd_id := new_sensor_data_id env;
       sd_device_id := device_id;
       sd_temperature := temperature;
       sd_humidity := humidity;
       sd_firmware_version := firmware_version;
       sd_timestamp := timestamp;
       sd_created_at := utcnow_insert env |} in
  let device :=
    touch env device_id firmware_version (device_registry db !! device_id) in
  Ok (with_code
        (jsonify [("status", JStr "success");
                  ("message", JStr "Data received successfully");
                  ("data", SensorData_to_dict sensor_data_row)]) 201,
      {| sensor_data := sensor_data db ++ [sensor_data_row];
         firmware_versions := firmware_versions db;
         device_registry := <[device_id := device]> (device_registry db);
         upload_folder := upload_folder db |}).

(** The body of the outer [try]. *)
Definition receive_sensor_data_body (env : IngestEnv) (data : gmap string json)
    (db : Server) : result (Response * Server) :=
  match first_missing ["device_id"; "temperature"; "humidity"] data with
  | Some field =>
      Ok (error_response 400 ("Missing required field: " +:+ field), db)
  | None =>
      let floats :=
        temperature_value ← getitem data "temperature";
        temperature ← py_float temperature_value;
        humidity_value ← getitem data "humidity";
        humidity ← py_float humidity_value;
        Ok (temperature, humidity) in
      match floats with
      | Raise ValueError =>
          Ok (error_response 400
                "Invalid data type for temperature or humidity", db)
      | Raise e => Raise e
      | Ok (temperature, humidity) =>
          if negb (temperature_in_range temperature) then
            Ok (error_response 400 "Temperature out of reasonable range", db)
          else if negb (humidity_in_range humidity) then
            Ok (error_response 400 "Humidity out of reasonable range", db)
          else store_reading env data temperature humidity db
      end
  end.

(** [except Exception]: answer 500; nothing was committed. *)
Definition receive_sensor_data (env : IngestEnv) (data : gmap string json)
    (db : Server) : Response * Server :=
  match receive_sensor_data_body env data db with
  | Ok r => r
  | Raise _ => (error_response 500 "Internal server error", db)
  end.

(** ** GET /api/v1/firmware/check *)

(** [not x] for a query or form parameter: absent or empty. *)
Definition falsy (x : option string) : bool :=
  match x with
  | None => true
  | Some s => bool_decide (s = "")
  end.

(** [order_by(FirmwareVersion.release_date.desc())].  Which of several rows
    of equal release date comes first is left to the storage engine; what
    the properties below say of the result holds whichever comes first. *)
Definition release_date_desc (r1 r2 : FirmwareVersion) : Prop :=
  fw_release_date r2 <= fw_release_date r1.

#[global] Instance release_date_desc_dec r1 r2 : Decision (release_date_desc r1 r2).
Proof. unfold release_date_desc. apply _. Defined.

(** [FirmwareVersion.query.filter_by(is_stable=True)
      .order_by(FirmwareVersion.release_date.desc()).first()] *)
Definition latest_stable (rows : list FirmwareVersion) : option FirmwareVersion :=
  head (merge_sort release_date_desc
          (filter (fun r => fw_is_stable r = true) rows)).

Definition firmware_url (host_url version : string) : string :=
  host_url +:+ "api/v1/firmware/download/" +:+ version.

(** The view function; an exception leaves it. *)
Definition check_firmware_update_view (device_id current_version : option string)
    (host_url : string) (db : Server) : result Response :=
  if falsy device_id || falsy current_version then
    Ok (error_response 400 "Missing device_id or current_version")
  else
    let current_version := default "" current_version in
    match latest_stable (firmware_versions db) with
    | None =>
        Ok (jsonify [("status", JStr "success");
                     ("update_available", JBool false);
                     ("message", JStr "No firmware available")])
    | Some latest_firmware =>
        c ← version_compare (fw_version latest_firmware) current_version;
        let update_available := c >? 0 in
        let response : gmap string json :=
          list_to_map [("status", JStr "success");
                       ("update_available", JBool update_available);
                       ("current_version", JStr current_version);
                       ("latest_version", JStr (fw_version latest_firmware))] in
        let response :=
          if update_available then
            list_to_map
              [("new_version", JStr (fw_version latest_firmware));
               ("description", json_opt_str (fw_description latest_firmware));
               ("release_date",
                 JStr (isoformat (fw_release_date latest_firmware)));
               ("firmware_url",
                 JStr (firmware_url host_url (fw_version latest_firmware)));
               ("checksum", json_opt_str (fw_checksum latest_firmware))]
            ∪ response
          else response in
        Ok {| status_code := 200; body := response |}
    end.

(** What the client receives: Flask turns an exception that leaves a view
    into a 500 response. *)
Definition flask (r : result Response) : Response :=
  match r with
  | Ok response => response
  | Raise _ => internal_server_error
  end.

Definition check_firmware_update (device_id current_version : option string)
    (host_url : string) (db : Server) : Response :=
  flask (check_firmware_update_view device_id current_version host_url db).

(** ** POST /api/v1/firmware/upload *)

(** An uploaded file of [request.files]. *)
Record FileStorage : Type := {
  filename : string;
  stream : list Byte.byte;
}.

Record UploadRequest : Type := {
  files_file : option FileStorage;
  form_version : option string;
  form_description : option string;
  form_is_stable : option string;
}.

Record UploadEnv : Type := {
  (** [datetime.utcnow], the default of [release_date] *)
  utcnow_release : datetime;
  new_firmware_id : Z;
}.

Definition UPLOAD_FOLDER : string := "firmware".

(** [os.path.join(app.config['UPLOAD_FOLDER'], filename)] *)
Definition upload_path (filename : string) : string :=
  UPLOAD_FOLDER +:+ "/" +:+ filename.

(** [calculate_file_hash]: the digest of the bytes of the file, which the
    source feeds to the hash in blocks of 4096. *)
Definition calculate_file_hash (folder : gmap string (list Byte.byte))
    (filepath : string) : option string :=
  sha256_hexdigest <$> folder !! filepath.

(** [FirmwareVersion.query.filter_by(version=version).first()] *)
Definition find_version (version : string) (rows : list FirmwareVersion)
  : option FirmwareVersion :=
  head (filter (fun r => fw_version r = version) rows).

Definition upload_firmware (env : UploadEnv) (req : UploadRequest) (db : Server)
  : Response * Server :=
  match files_file req with
  | None => (error_response 400 "No file provided", db)
  | Some file =>
      if bool_decide (filename file = "") then
        (error_response 400 "No file selected", db)
      else
        let version := form_version req in
        let description := default "" (form_description req) in
        let is_stable :=
          bool_decide (Str.lower (default "true" (form_is_stable req)) = "true") in
        if falsy version then (error_response 400 "Version is required", db)
        else
          let version := default "" version in
          match find_version version (firmware_versions db) with
          | Some existing => (error_response 400 "Version already exists", db)
          | None =>
              let filename := secure_filename ("firmware_v" +:+ version +:+ ".bin") in
              let filepath := upload_path filename in
              let folder := <[filepath := stream file]> (upload_folder db) in
              let checksum := calculate_file_hash folder filepath in
              let firmware :=
                {| fw_id := new_firmware_id env;
                   fw_version := version;
                   fw_filename := filename;
                   fw_description := Some description;
                   fw_release_date := utcnow_release env;
                   fw_is_stable := is_stable;
                   fw_min_hardware_version := None;
                   fw_checksum := checksum |} in
              (with_code
                 (jsonify [("status", JStr "success");
                           ("message", JStr "Firmware uploaded successfully");
                           ("firmware", FirmwareVersion_to_dict firmware)]) 201,
               {| sensor_data := sensor_data db;
                  firmware_versions := firmware_versions db ++ [firmware];
                  device_registry := device_registry db;
                  upload_folder := folder |})
          end
  end.

(** A sequence of upload requests, handled one after the other. *)
Fixpoint upload_all (reqs : list (UploadEnv * UploadRequest)) (db : Server)
  : Server :=
  match reqs with
  | [] => db
  | (env, req) :: rest => upload_all rest (upload_firmware env req db).2
  end.

(** ** GET /api/v1/sensor/stats *)

Definition hours (n : Z) : timedelta := n * 3600 * 1000000.
Definition days (n : Z) : timedelta := n * 24 * 3600 * 1000000.

(** [time_ranges.get(period, timedelta(hours=24))] *)
Definition time_range_of (period : string) : timedelta :=
  default (hours 24)
    ((list_to_map [("1h", hours 1); ("24h", hours 24);
                   ("7d", days 7); ("30d", days 30)] : gmap string timedelta)
       !! period).

(** [SensorData.query.filter(SensorData.device_id == device_id,
                             SensorData.timestamp >= start_time).all()] *)
Definition readings_since (device_id : string) (start_time : datetime)
    (rows : list SensorData) : list SensorData :=
  filter (fun d => sd_device_id d = device_id /\ start_time <= sd_timestamp d)
    rows.

(** [min(xs)] and [max(xs)]: the first smallest and the first largest
    element; on an empty list they raise. *)
Definition py_min (xs : list float) : result float :=
  match xs with
  | [] => Raise ValueError
  | x :: rest => Ok (foldl (fun m y => if flt y m then y else m) x rest)
  end.

Definition py_max (xs : list float) : result float :=
  match xs with
  | [] => Raise ValueError
  | x :: rest => Ok (foldl (fun m y => if flt m y then y else m) x rest)
  end.

Definition stats_of (xs : list float) : result json :=
  lo ← py_min xs;
  hi ← py_max xs;
  Ok (JObj [("min", JFloat lo); ("max", JFloat hi);
            ("avg", JFloat (fdiv (fsum xs) (Z.of_nat (length xs))))]).

Definition zero_stats : json :=
  JObj [("min", JInt 0); ("max", JInt 0); ("avg", JInt 0)].

Definition get_sensor_stats_body (device_id period : option string)
    (utcnow : datetime) (db : Server) : result Response :=
  let period := default "24h" period in
  if falsy device_id then Ok (error_response 400 "Missing device_id parameter")
  else
    let device_id := default "" device_id in
    let time_range := time_range_of period in
    let start_time := utcnow - time_range in
    let data := readings_since device_id start_time (sensor_data db) in
    match data with
    | [] =>
        Ok (jsonify [("status", JStr "success");
                     ("stats", JObj [("temperature", zero_stats);
                                     ("humidity", zero_stats);
                                     ("data_points", JInt 0)])])
    | _ :: _ =>
        let temperatures := sd_temperature <$> data in
        let humidities := sd_humidity <$> data in
        temperature_stats ← stats_of temperatures;
        humidity_stats ← stats_of humidities;
        Ok (jsonify [("status", JStr "success");
                     ("stats", JObj [("temperature", temperature_stats);
                                     ("humidity", humidity_stats);
                                     ("data_points",
                                       JInt (Z.of_nat (length data)))])])
    end.

Definition get_sensor_stats (device_id period : option string)
    (utcnow : datetime) (db : Server) : Response :=
  match get_sensor_stats_body device_id period utcnow db with
  | Ok response => response
  | Raise _ => error_response 500 "Error calculating statistics"
  end.

(** ** Vocabulary of the properties *)

(** The response carries the details of the release [L]: its version,
    description, release date and checksum, and the download URL made from
    its version. *)
Definition advertises (r : Response) (host_url : string) (L : FirmwareVersion)
  : Prop :=
  body r !! "new_version" = Some (JStr (fw_version L)) /\
  body r !! "description" = Some (json_opt_str (fw_description L)) /\
  body r !! "release_date" = Some (JStr (isoformat (fw_release_date L))) /\
  body r !! "checksum" = Some (json_opt_str (fw_checksum L)) /\
  body r !! "firmware_url"
  = Some (JStr (host_url +:+ "api/v1/firmware/download/" +:+ fw_version L)).

(** A server with empty tables and an empty upload folder. *)
Definition empty_server : Server :=
  {| sensor_data := [];
     firmware_versions := [];
     device_registry := ∅;
     upload_folder := ∅ |}.

(** A stable release with the given version and release date. *)
Definition stable_release (version : string) (release_date : datetime)
  : FirmwareVersion :=
  {| fw_id := 1;
     fw_version := version;
     fw_filename := "firmware_v" +:+ version +:+ ".bin";
     fw_description := Some "";
     fw_release_date := release_date;
     fw_is_stable := true;
     fw_min_hardware_version := None;
     fw_checksum := None |}.

Definition with_catalog (rows : list FirmwareVersion) (db : Server) : Server :=
  {| sensor_data := sensor_data db;
     firmware_versions := rows;
     device_registry := device_registry db;
     upload_folder := upload_folder db |}.

Definition with_registry (registry : gmap string DeviceRegistry) (db : Server)
  : Server :=
  {| sensor_data := sensor_data db;
     firmware_versions := firmware_versions db;
     device_registry := registry;
     upload_folder := upload_folder db |}.

(** A registry row of a device seen once, with the given [auto_update]. *)
Definition device_row (device_id : string) (auto_update : bool) : DeviceRegistry :=
  {| dev_id := 1;
     dev_device_id := device_id;
     dev_hardware_version := None;
     dev_current_firmware := Some "1.5.0";
     dev_last_seen := Some 0;
     dev_last_ip := Some "10.0.0.7";
     dev_registered_at := 0;
     dev_auto_update := auto_update |}.

(** The JSON body of a telemetry request: a device id, a temperature, a
    humidity and, when [ts] is given, a timestamp. *)
Definition reading_body (device_id : string) (temperature humidity : json)
    (ts : option json) : gmap string json :=
  let fields : gmap string json :=
    list_to_map [("device_id", JStr device_id);
                 ("temperature", temperature);
                 ("humidity", humidity)] in
  match ts with
  | Some v => <["timestamp" := v]> fields
  | None => fields
  end.

(** The rolling window the specification names for a period: one of
    1h, 24h, 7d, 30d, and 24h for anything else or nothing. *)
Definition window_of (period : option string) : timedelta :=
  match period with
  | Some p =>
      if bool_decide (p = "1h") then 3600 * 1000000
      else if bool_decide (p = "7d") then 7 * 86400 * 1000000
      else if bool_decide (p = "30d") then 30 * 86400 * 1000000
      else 24 * 3600 * 1000000
  | None => 24 * 3600 * 1000000
  end.

(** A reading of the device stamped inside the window that ends at [now]. *)
Definition in_window (device_id : string) (period : option string)
    (now : datetime) (d : SensorData) : Prop :=
  sd_device_id d = device_id /\
  now - window_of period <= sd_timestamp d /\ sd_timestamp d <= now.

(** A reading of the device stamped at or after the start of the window. *)
Definition since_window (device_id : string) (period : option string)
    (now : datetime) (d : SensorData) : Prop :=
  sd_device_id d = device_id /\ now - window_of period <= sd_timestamp d.

#[global] Instance since_window_dec device_id period now d :
  Decision (since_window device_id period now d).
Proof. unfold since_window. apply _. Defined.

(** [lo] is a least and [hi] a greatest element of [xs]. *)
Definition is_min (lo : float) (xs : list float) : Prop :=
  lo ∈ xs /\ forall x, x ∈ xs -> flt x lo = false.

Definition is_max (hi : float) (xs : list float) : Prop :=
  hi ∈ xs /\ forall x, x ∈ xs -> flt hi x = false.

(** The statistics of one quantity in a response. *)
Definition stats_entry (lo hi avg : json) : json :=
  JObj [("min", lo); ("max", hi); ("avg", avg)].

Definition stats_body (temperature humidity : json) (count : Z) : json :=
  JObj [("temperature", temperature); ("humidity", humidity);
        ("data_points", JInt count)].

(** ** GET /api/v1/firmware/download/<version> *)

(** What the view returns: the file as an attachment ([send_file]), or a
    JSON response. *)
Inductive Download : Type :=
  | Attachment (download_name : string) (content : list Byte.byte)
  | NotSent (r : Response).

Definition download_firmware (version : string) (db : Server) : Download :=
  match find_version version (firmware_versions db) with
  | None => NotSent (error_response 404 "Firmware version not found")
  | Some firmware =>
      let filepath := upload_path (fw_filename firmware) in
      match upload_folder db !! filepath with
      | None => NotSent (error_response 404 "Firmware file not found")
      | Some content => Attachment (fw_filename firmware) content
      end
  end.

(** ** GET /api/v1/firmware/list *)

Definition list_firmware_versions (db : Server) : Response :=
  let versions := merge_sort release_date_desc (firmware_versions db) in
  jsonify [("status", JStr "success");
           ("count", JInt (Z.of_nat (length versions)));
           ("versions", JArr (FirmwareVersion_to_dict <$> versions))].

(** ** GET /api/v1/devices *)

Definition DeviceRegistry_to_dict (r : DeviceRegistry) : json :=
  JObj [("id", JInt (dev_id r));
        ("device_id", JStr (dev_device_id r));
        ("hardware_version", json_opt_str (dev_hardware_version r));
        ("current_firmware", json_opt_str (dev_current_firmware r));
        ("last_seen",
          match dev_last_seen r with
          | Some t => JStr (isoformat t)
          | None => JNull
          end);
        ("last_ip", json_opt_str (dev_last_ip r));
        ("registered_at", JStr (isoformat (dev_registered_at r)));
        ("auto_update", JBool (dev_auto_update r))].

(** [DeviceRegistry.query.all()]: the rows, in the order the engine lists
    them. *)
Definition all_devices (db : Server) : list DeviceRegistry :=
  (map_to_list (device_registry db)).*2.

Definition list_devices (db : Server) : Response :=
  let devices := all_devices db in
  jsonify [("status", JStr "success");
           ("count", JInt (Z.of_nat (length devices)));
           ("devices", JArr (DeviceRegistry_to_dict <$> devices))].

(** ** GET and POST /api/v1/devices/<device_id>/config *)

Inductive Method : Type := GET | POST.

Definition set_auto_update (auto_update : bool) (device : DeviceRegistry)
  : DeviceRegistry :=
  {| dev_id := dev_id device;
     dev_device_id := dev_device_id device;
     dev_hardware_version := dev_hardware_version device;
     dev_current_firmware := dev_current_firmware device;
     dev_last_seen := dev_last_seen device;
     dev_last_ip := dev_last_ip device;
     dev_registered_at := dev_registered_at device;
     dev_auto_update := auto_update |}.

(** The body of a POST is a JSON object whose [auto_update], when it is
    there, is [true] or [false]: [auto_update] is [None] when the key is not
    in the body. *)
Definition device_config (device_id : string) (method : Method)
    (auto_update : option bool) (db : Server) : Response * Server :=
  match device_registry db !! device_id with
  | None => (error_response 404 "Device not found", db)
  | Some device =>
      match method with
      | GET =>
          (jsonify [("status", JStr "success");
                    ("device", DeviceRegistry_to_dict device)], db)
      | POST =>
          let device :=
            match auto_update with
            | Some b => set_auto_update b device
            | None => device
            end in
          (jsonify [("status", JStr "success");
                    ("message", JStr "Device configuration updated");
                    ("device", DeviceRegistry_to_dict device)],
           with_registry (<[device_id := device]> (device_registry db)) db)
      end
  end.

(** ** GET /api/v1/sensor/latest *)

(** [order_by(SensorData.timestamp.desc())]; as for releases, the order of
    readings of equal timestamp is the engine's. *)
Definition timestamp_desc (r1 r2 : SensorData) : Prop :=
  sd_timestamp r2 <= sd_timestamp r1.

#[global] Instance timestamp_desc_dec r1 r2 : Decision (timestamp_desc r1 r2).
Proof. unfold timestamp_desc. apply _. Defined.

(** [if device_id: query = query.filter_by(device_id=device_id)] *)
Definition of_device (device_id : option string) (rows : list SensorData)
  : list SensorData :=
  if falsy device_id then rows
  else filter (fun r => sd_device_id r = default "" device_id) rows.

Definition get_latest_data (device_id : option string) (db : Server) : Response :=
  let query := merge_sort timestamp_desc (of_device device_id (sensor_data db)) in
  match head query with
  | None => error_response 404 "No data available"
  | Some latest_data =>
      jsonify [("status", JStr "success");
               ("data", SensorData_to_dict latest_data)]
  end.

(** ** GET /api/v1/sensor/history *)

(** [request.args.get('limit', 100, type=int)]: the default when the
    parameter is absent or is not an integer. *)
Definition limit_arg (limit : option string) : Z :=
  match limit with
  | None => 100
  | Some s =>
      match py_int s with
      | Ok n => n
      | Raise _ => 100
      end
  end.

(** [query.limit(limit).all()]: a LIMIT that is negative or does not fit an
    unsigned 64-bit integer is refused. *)
Definition limit_rows (limit : Z) (rows : list SensorData)
  : result (list SensorData) :=
  if (limit <? 0) || (2 ^ 64 <=? limit) then Raise DataError
  else Ok (take (Z.to_nat limit) rows).

Definition get_historical_data_body
    (device_id start_date end_date limit : option string) (db : Server)
  : result Response :=
  let limit := limit_arg limit in
  let query := of_device device_id (sensor_data db) in
  let filtered : Response + list SensorData :=
    match
      (if falsy start_date then Some query
       else match fromisoformat (default "" start_date) with
            | Some start =>
                Some (filter (fun r => start <= sd_timestamp r) query)
            | None => None
            end)
    with
    | None => inl (error_response 400 "Invalid start_date format")
    | Some query =>
        if falsy end_date then inr query
        else match fromisoformat (default "" end_date) with
             | Some end_ =>
                 inr (filter (fun r => sd_timestamp r <= end_) query)
             | None => inl (error_response 400 "Invalid end_date format")
             end
    end in
  match filtered with
  | inl response => Ok response
  | inr query =>
      data ← limit_rows limit (merge_sort timestamp_desc query);
      Ok (jsonify [("status", JStr "success");
                   ("count", JInt (Z.of_nat (length data)));
                   ("data", JArr (SensorData_to_dict <$> data))])
  end.

Definition get_historical_data
    (device_id start_date end_date limit : option string) (db : Server)
  : Response :=
  match get_historical_data_body device_id start_date end_date limit db with
  | Ok response => response
  | Raise _ => error_response 500 "Internal server error"
  end.

(** ** The firmware manager: the request of [upload_firmware]

    [files = {'file': file}] and the [data] dictionary that the dashboard
    posts to /firmware/upload. *)

(** [str(b)] *)
Definition py_str_bool (b : bool) : string := if b then "True" else "False".

Definition manager_upload_request (file : FileStorage)
    (version description : string) (is_stable : bool) : UploadRequest :=
  {| files_file := Some file;
     form_version := Some version;
     form_description := Some description;
     form_is_stable := Some (Str.lower (py_str_bool is_stable)) |}.

(** ** The dashboard: [get_comfort_level] *)

Section Comfort.

(** [x < n] for a float [x] and an integer [n] *)
Variable float_lt_int : float -> Z -> bool.

Definition get_comfort_level (temperature humidity : float) : string :=
  if float_lt_int temperature 15 then "Cold"
  else if float_lt_int temperature 20 then
    (if float_lt_int humidity 40 then "Cool & Dry"
     else if float_lt_int humidity 60 then "Cool & Comfortable"
     else "Cool & Humid")
  else if float_lt_int temperature 26 then
    (if float_lt_int humidity 40 then "Comfortable & Dry"
     else if float_lt_int humidity 60 then "Ideal Comfort"
     else "Comfortable but Humid")
  else if float_lt_int temperature 30 then
    (if float_lt_int humidity 40 then "Warm & Dry"
     else if float_lt_int humidity 60 then "Warm & Comfortable"
     else "Warm & Humid")
  else
    (if float_lt_int humidity 40 then "Hot & Dry"
     else if float_lt_int humidity 60 then "Hot"
     else "Hot & Sticky").

End Comfort.

(** ** Vocabulary of the further properties *)

(** The name under which the binary of a version is stored. *)
Definition firmware_file_name (version : string) : string :=
  secure_filename ("firmware_v" +:+ version +:+ ".bin").

(** The stability flag an upload request asks for. *)
Definition wants_stable (req : UploadRequest) : bool :=
  bool_decide (Str.lower (default "true" (form_is_stable req)) = "true").

(** The catalog row a successful upload of [file] as [version] creates. *)
Definition new_release (env : UploadEnv) (req : UploadRequest)
    (version : string) (file : FileStorage) : FirmwareVersion :=
  {| fw_id := new_firmware_id env;
     fw_version := version;
     fw_filename := firmware_file_name version;
     fw_description := Some (default "" (form_description req));
     fw_release_date := utcnow_release env;
     fw_is_stable := wants_stable req;
     fw_min_hardware_version := None;
     fw_checksum := Some (sha256_hexdigest (stream file)) |}.

(** Every release of the catalog has its file in the upload folder, and
    the checksum of the release is the digest of that file. *)
Definition stored_intact (db : Server) : Prop :=
  forall f, f ∈ firmware_versions db ->
    exists content,
      upload_folder db !! upload_path (fw_filename f) = Some content /\
      fw_checksum f = Some (sha256_hexdigest content).

(** The readings a query for [device_id] looks at. *)
Definition matches_device (device_id : option string) (r : SensorData) : Prop :=
  falsy device_id = true \/ device_id = Some (sd_device_id r).

(** A sequence of telemetry requests, handled one after the other. *)
Fixpoint receive_all (reqs : list (IngestEnv * gmap string json)) (db : Server)
  : Server :=
  match reqs with
  | [] => db
  | (env, data) :: rest =>
      receive_all rest (receive_sensor_data env data db).2
  end.

#[global] Instance matches_device_dec device_id r :
  Decision (matches_device device_id r).
Proof. unfold matches_device. apply _. Defined.

(** The bound a date parameter of the history query sets: none when the
    parameter is absent or empty, the parsed date otherwise. *)
Definition parsed_bound (arg : option string) (bound : option datetime) : Prop :=
  (falsy arg = true /\ bound = None) \/
  (falsy arg = false /\ is_Some bound /\
   fromisoformat (default "" arg) = bound).

(** [t] is not before [lo] and not after [hi], where they are set. *)
Definition within (lo hi : option datetime) (t : datetime) : Prop :=
  match lo with Some s => s <= t | None => True end /\
  match hi with Some e => t <= e | None => True end.

#[global] Instance within_dec lo hi t : Decision (within lo hi t).
Proof. unfold within. destruct lo, hi; apply _. Defined.

(** The readings a history query selects from. *)
Definition eligible (device_id : option string) (lo hi : option datetime)
    (rows : list SensorData) : list SensorData :=
  filter (fun r => matches_device device_id r /\ within lo hi (sd_timestamp r))
    rows.

(** A reading whose temperature and humidity pass the range checks of the
    intake. *)
Definition plausible (r : SensorData) : Prop :=
  temperature_in_range (sd_temperature r) = true /\
  humidity_in_range (sd_humidity r) = true.
End Server.

(** * The dashboard: [get_device_status] of [src/dashboard/dashboard.py] *)

(** ** Floats

    A Python [float] is an IEEE 754 binary64 number, and every operation
    rounds its exact result to the nearest one, ties to even. *)

Module Float64.

Definition prec : Z := 53.
Definition emax : Z := 1024.

(** [float(n)] *)
Definition of_int (n : Z) : spec_float := binary_normalize prec emax n 0 false.

(** An [int] of any size, as a significand with exponent 0. *)
Definition exact (n : Z) : spec_float :=
  match n with
  | 0 => S754_zero false
  | Z.pos p => S754_finite false p 0
  | Z.neg p => S754_finite true p 0
  end.

(** [a / b] on two [int]s, [b] not 0: the quotient of the integers, rounded
    once. *)
Definition int_true_divide (a b : Z) : spec_float :=
  SFdiv prec emax (exact a) (exact b).

Definition add : spec_float -> spec_float -> spec_float := SFadd prec emax.
Definition sub : spec_float -> spec_float -> spec_float := SFsub prec emax.
Definition div : spec_float -> spec_float -> spec_float := SFdiv prec emax.
Definition abs : spec_float -> spec_float := SFabs.

(** [x > n] for an [int] that is a [float] *)
Definition gt_int (x : spec_float) (n : Z) : bool := SFltb (of_int n) x.

(** [int(x)] raises on an infinity and on a NaN. *)
Definition is_finite (x : spec_float) : bool :=
  match x with
  | S754_zero _ | S754_finite _ _ _ => true
  | S754_infinity _ | S754_nan => false
  end.

End Float64.

Module Dashboard.

(** ** [datetime] values

    The fields year to second are held as the number of seconds from
    1970-01-01T00:00:00 to them, read as they stand, on the proleptic
    Gregorian calendar.  [utcoffset] is [tzinfo.utcoffset(None)] in
    microseconds on an aware value, [None] on a naive one. *)
Record DateTime : Type := {
  seconds : Z;
  microsecond : Z;
  utcoffset : option Z;
}.

(** What the function takes from the machine the dashboard runs on. *)
Class Host : Type := {
  (** [datetime.fromisoformat]; [None] where it raises [ValueError] *)
  fromisoformat : string -> option DateTime;
  (** [localtime] of the C library in the time zone of the machine: the
      wall clock, counted as the fields of a [DateTime] are, at the instant
      [u] seconds after the epoch; [None] where it fails *)
  localtime : Z -> option Z;
}.

Section Status.

Context `{Host}.

Definition ONLINE_TIMEOUT_SECONDS : Z := 180.

Definition max_fold_seconds : Z := 24 * 3600.

(** [local_to_seconds] of [_datetimemodule.c], with [fold] 0: the instant at
    which the local wall clock shows [t]. *)
Definition local_to_seconds (t : Z) : option Z :=
  lt ← localtime t;
  let a := lt - t in
  let u1 := t - a in
  t1 ← localtime u1;
  let other (b : Z) : option Z :=
    let u2 := t - b in
    t2 ← localtime u2;
    Some (if t2 =? t then u2 else if t1 =? t then u1 else Z.max u1 u2) in
  if t1 =? t then
    let u2 := u1 - max_fold_seconds in
    lt ← localtime u2;
    let b := lt - u2 in
    if a =? b then Some u1 else other b
  else other (t1 - u1).

(** [d.timestamp()].  An aware value gives
    [(d - EPOCH).total_seconds()], the microseconds between the two instants
    divided by [10**6]; a naive one is read as the wall clock of the
    machine and gives [seconds + d.microsecond / 1e6].  [None] where it
    raises. *)
Definition timestamp (d : DateTime) : option spec_float :=
  match utcoffset d with
  | Some offset =>
      Some (Float64.int_true_divide
              (seconds d * 1000000 + microsecond d - offset) 1000000)
  | None =>
      s ← local_to_seconds (seconds d);
      Some (Float64.add (Float64.of_int s)
              (Float64.div (Float64.of_int (microsecond d))
                 (Float64.of_int 1000000)))
  end.

(** [datetime.now(timezone.utc)] when the clock shows [now] microseconds
    since the epoch. *)
Definition utc_now (now : Z) : DateTime :=
  {| seconds := now / 1000000;
     microsecond := now mod 1000000;
     utcoffset := Some 0 |}.

(** The [time_diff] that [get_device_status(last_update)] computes when the
    clock shows [now]; [None] where an exception is raised on the way. *)
Definition time_diff (last_update : string) (now : Z) : option spec_float :=
  last_update_time ←
    (if Str.contains "Z" last_update
     then fromisoformat (Str.replace "Z" "+00:00" last_update)
     else fromisoformat last_update);
  let current_time := utc_now now in
  last_update_unix ← timestamp last_update_time;
  current_unix ← timestamp current_time;
  Some (Float64.abs (Float64.sub current_unix last_update_unix)).

(** [get_device_status(last_update)], called when the clock shows [now]; an
    exception inside the [try], among them the one [int(time_diff)] raises
    on a value that is not finite, makes the handler answer [False]. *)
Definition get_device_status (last_update : option string) (now : Z) : bool :=
  if falsy last_update then false
  else
    match time_diff (default "" last_update) now with
    | None => false
    | Some time_diff =>
        if negb (Float64.is_finite time_diff) then false
        else if Float64.gt_int time_diff ONLINE_TIMEOUT_SECONDS then false
        else true
    end.

End Status.

End Dashboard.

(** ** A platform for the examples

    Floats are rationals with exact arithmetic; [float] reads integer
    numerals only; [int] is that of CPython 3.11; dates are read and printed in the format
    [YYYY-MM-DDTHH:MM:SS[.ffffff][+HH:MM]]; [secure_filename] is the ASCII
    part of werkzeug's; the digest prints the bytes in hexadecimal and stands
    in for SHA-256.  The examples use these functions only where they agree
    with the real ones. *)

Module Ref.

(** The interpreter of the examples: CPython 3.11 with its default limit of
    4300 digits and the decimal digits and white space of Unicode 14. *)

(** The code points of a UTF-8 string. *)
Fixpoint code_points (s : string) : option (list Z) :=
  match s with
  | EmptyString => Some []
  | String b0 r0 =>
      let n0 := Z.of_nat (nat_of_ascii b0) in
      let continuation b := Z.of_nat (nat_of_ascii b) - 128 in
      if n0 <? 128 then cons n0 <$> code_points r0
      else
        match r0 with
        | EmptyString => None
        | String b1 r1 =>
            if n0 <? 224 then
              cons ((n0 - 192) * 64 + continuation b1) <$> code_points r1
            else
              match r1 with
              | EmptyString => None
              | String b2 r2 =>
                  if n0 <? 240 then
                    cons ((n0 - 224) * 4096 + continuation b1 * 64
                          + continuation b2) <$> code_points r2
                  else
                    match r2 with
                    | EmptyString => None
                    | String b3 r3 =>
                        cons ((n0 - 240) * 262144 + continuation b1 * 4096
                              + continuation b2 * 64 + continuation b3)
                          <$> code_points r3
                    end
              end
        end
  end.

(** The digits 0 of the decimal digit characters outside ASCII; the nine
    code points after each are its digits 1 to 9. *)
Definition decimal_zeros : list Z :=
  [
    1632; 1776; 1984; 2406; 2534; 2662; 2790; 2918; 3046; 3174; 3302; 3430;
    3558; 3664; 3792; 3872; 4160; 4240; 6112; 6160; 6470; 6608; 6784; 6800;
    6992; 7088; 7232; 7248; 42528; 43216; 43264; 43472; 43504; 43600; 44016;
    65296; 66720; 68912; 69734; 69872; 69942; 70096; 70384; 70736; 70864;
    71248; 71360; 71472; 71904; 72016; 72784; 73040; 73120; 92768; 92864;
    93008; 120782; 120792; 120802; 120812; 120822; 123200; 123632; 125264;
    130032
  ].

(** The white space characters outside ASCII. *)
Definition unicode_spaces : list Z :=
  [
    133; 160; 5760; 8192; 8193; 8194; 8195; 8196; 8197; 8198; 8199; 8200;
    8201; 8202; 8232; 8233; 8239; 8287; 12288
  ].

(** The ASCII character [int] reads for a code point: itself below 127, a
    space for white space, the ASCII digit for a decimal digit. *)
Definition ascii_image (cp : Z) : option ascii :=
  if cp <? 127 then Some (ascii_of_nat (Z.to_nat cp))
  else if bool_decide (cp ∈ unicode_spaces) then Some " "%char
  else
    match filter (fun z => z <= cp < z + 10) decimal_zeros with
    | z :: _ => Some (ascii_of_nat (Z.to_nat (48 + (cp - z))))
    | [] => None
    end.

Fixpoint images (cps : list Z) : option string :=
  match cps with
  | [] => Some EmptyString
  | cp :: rest => c ← ascii_image cp; r ← images rest; Some (String c r)
  end.

Definition int_unicode (max_digits : nat) (x : string) : option Z :=
  cps ← code_points x;
  literal ← images cps;
  int_ascii_with max_digits literal.

#[global] Instance interpreter : Interpreter :=
  {| int_max_str_digits := 4300;
     int_non_ascii := int_unicode 4300 |}.

(** Days since 1970-01-01 of a date of the proleptic Gregorian calendar, and
    back. *)
Definition days_from_civil (y m d : Z) : Z :=
  let y := if m <=? 2 then y - 1 else y in
  let era := y / 400 in
  let yoe := y - era * 400 in
  let mp := if m >? 2 then m - 3 else m + 9 in
  let doy := (153 * mp + 2) / 5 + d - 1 in
  let doe := yoe * 365 + yoe / 4 - yoe / 100 + doy in
  era * 146097 + doe - 719468.

Definition civil_from_days (z : Z) : Z * Z * Z :=
  let z := z + 719468 in
  let era := z / 146097 in
  let doe := z - era * 146097 in
  let yoe := (doe - doe / 1460 + doe / 36524 - doe / 146096) / 365 in
  let doy := doe - (365 * yoe + yoe / 4 - yoe / 100) in
  let mp := (5 * doy + 2) / 153 in
  let d := doy - (153 * mp + 2) / 5 + 1 in
  let m := if mp <? 10 then mp + 3 else mp - 9 in
  (yoe + era * 400 + (if m <=? 2 then 1 else 0), m, d).

Definition days_in_month (y m : Z) : Z :=
  if m =? 2 then
    (if ((y mod 4 =? 0) && negb (y mod 100 =? 0)) || (y mod 400 =? 0)
     then 29 else 28)
  else if (m =? 4) || (m =? 6) || (m =? 9) || (m =? 11) then 30
  else 31.

Fixpoint take_digits (n : nat) (acc : Z) (s : string) : option (Z * string) :=
  match n with
  | O => Some (acc, s)
  | S n' =>
      match s with
      | String c r =>
          if Str.is_digit c
          then take_digits n' (10 * acc + Str.digit_value c) r
          else None
      | EmptyString => None
      end
  end.

Definition expect (c : ascii) (s : string) : option string :=
  match s with
  | String d r => if Ascii.eqb d c then Some r else None
  | EmptyString => None
  end.

Definition parse_fraction (s : string) : option (Z * string) :=
  match expect "." s with
  | Some r => take_digits 6 0 r
  | None => Some (0, s)
  end.

(** The offset from UTC, in microseconds; nothing after it. *)
Definition parse_offset (s : string) : option Z :=
  match s with
  | EmptyString => Some 0
  | String sign r =>
      '(hh, r) ← take_digits 2 0 r;
      r ← expect ":" r;
      '(mm, r) ← take_digits 2 0 r;
      let offset := (hh * 3600 + mm * 60) * 1000000 in
      if negb (bool_decide (r = "")) then None
      else if Ascii.eqb sign "+" then Some offset
      else if Ascii.eqb sign "-" then Some (- offset)
      else None
  end.

Definition read_iso (s : string) : option datetime :=
  '(y, r) ← take_digits 4 0 s;
  r ← expect "-" r;
  '(mo, r) ← take_digits 2 0 r;
  r ← expect "-" r;
  '(d, r) ← take_digits 2 0 r;
  r ← expect "T" r;
  '(h, r) ← take_digits 2 0 r;
  r ← expect ":" r;
  '(mi, r) ← take_digits 2 0 r;
  r ← expect ":" r;
  '(sec, r) ← take_digits 2 0 r;
  '(us, r) ← parse_fraction r;
  offset ← parse_offset r;
  if (1 <=? y) && (1 <=? mo) && (mo <=? 12) && (1 <=? d)
     && (d <=? days_in_month y mo) && (h <? 24) && (mi <? 60) && (sec <? 60)
  then Some (((days_from_civil y mo d * 24 + h) * 60 + mi) * 60 * 1000000
             + sec * 1000000 + us - offset)
  else None.

Fixpoint zeros (n : nat) : string :=
  match n with
  | O => EmptyString
  | S n' => String "0" (zeros n')
  end.

Definition pad (width : nat) (n : Z) : string :=
  let s := pretty n in zeros (width - String.length s) +:+ s.

Definition print_iso (t : datetime) : string :=
  let seconds := t / 1000000 in
  let us := t mod 1000000 in
  let '(y, m, d) := civil_from_days (seconds / 86400) in
  let rest := seconds mod 86400 in
  pad 4 y +:+ "-" +:+ pad 2 m +:+ "-" +:+ pad 2 d +:+ "T" +:+
  pad 2 (rest / 3600) +:+ ":" +:+ pad 2 (rest mod 3600 / 60) +:+ ":" +:+
  pad 2 (rest mod 60) +:+ (if us =? 0 then "" else "." +:+ pad 6 us).

(** [secure_filename] on ASCII names: path separators become white space,
    the words are joined by underscores, characters outside
    [A-Za-z0-9_.-] are dropped, dots and underscores are stripped from both
    ends. *)
Definition is_name_char (c : ascii) : bool :=
  let n := nat_of_ascii c in
  ((48 <=? n) && (n <=? 57) || (65 <=? n) && (n <=? 90)
   || (97 <=? n) && (n <=? 122) || (n =? 95) || (n =? 46) || (n =? 45))%nat.

Fixpoint join_words (started gap : bool) (s : string) : string :=
  match s with
  | EmptyString => EmptyString
  | String c r =>
      if Str.is_space c || Ascii.eqb c "/" then join_words started started r
      else if gap then String "_" (String c (join_words true false r))
      else String c (join_words true false r)
  end.

Fixpoint keep (p : ascii -> bool) (s : string) : string :=
  match s with
  | EmptyString => EmptyString
  | String c r => if p c then String c (keep p r) else keep p r
  end.

Fixpoint lstrip_chars (p : ascii -> bool) (s : string) : string :=
  match s with
  | EmptyString => EmptyString
  | String c r => if p c then lstrip_chars p r else s
  end.

Fixpoint rstrip_chars (p : ascii -> bool) (s : string) : string :=
  match s with
  | EmptyString => EmptyString
  | String c r =>
      match rstrip_chars p r with
      | EmptyString => if p c then EmptyString else String c EmptyString
      | r' => String c r'
      end
  end.

Definition safe_filename (filename : string) : string :=
  let dot_or_underscore c := Ascii.eqb c "." || Ascii.eqb c "_" in
  rstrip_chars dot_or_underscore
    (lstrip_chars dot_or_underscore
       (keep is_name_char (join_words false false filename))).

Definition hex_digit (n : nat) : ascii :=
  ascii_of_nat (if (n <? 10)%nat then 48 + n else 87 + n).

Fixpoint hexdigest (bytes : list Byte.byte) : string :=
  match bytes with
  | [] => EmptyString
  | b :: rest =>
      let n := Byte.to_nat b in
      String (hex_digit (n / 16)) (String (hex_digit (n mod 16)) (hexdigest rest))
  end.

Definition lt (x y : Q) : bool := negb (Qle_bool y x).

#[global] Instance platform : Platform.
Proof.
  refine {|
    float := Q;
    float_of_int := fun n => Some (inject_Z n);
    float_of_string := fun s =>
      match py_int s with
      | Ok n => Some (inject_Z n)
      | Raise _ => None
      end;
    int_le_float := fun n x => Qle_bool (inject_Z n) x;
    float_le_int := fun x n => Qle_bool x (inject_Z n);
    flt := lt;
    fsum := fun xs => foldr Qplus 0%Q xs;
    fdiv := fun x n => (x / inject_Z n)%Q;
    fromisoformat := read_iso;
    isoformat := print_iso;
    secure_filename := safe_filename;
    sha256_hexdigest := hexdigest;
    sql_varchar_of_float := fun _ => None
  |}.
  - intros x. unfold lt.
    now rewrite (proj2 (Qle_bool_iff x x) (Qle_refl x)).
  - intros x y z. unfold lt. intros Hxy Hyz.
    destruct (Qle_bool z x) eqn:Hzx; [|reflexivity].
    apply Qle_bool_iff in Hzx.
    apply negb_true_iff in Hxy. apply negb_true_iff in Hyz.
    assert (Hlt1 : (x < y)%Q).
    { apply Qnot_le_lt. intros Hle. apply Qle_bool_iff in Hle. congruence. }
    assert (Hlt2 : (y < z)%Q).
    { apply Qnot_le_lt. intros Hle. apply Qle_bool_iff in Hle. congruence. }
    exfalso. apply (Qlt_irrefl x).
    apply Qlt_le_trans with z; [|exact Hzx]. now apply Qlt_trans with y.
Defined.

(** [datetime.fromisoformat] of the dashboard, on the strings [isoformat]
    prints: the fields as they stand, and the offset when one is written. *)
Definition parse_tzinfo (s : string) : option (option Z) :=
  match s with
  | EmptyString => Some None
  | _ => Some <$> parse_offset s
  end.

Definition read_iso_fields (s : string) : option Dashboard.DateTime :=
  '(y, r) ← take_digits 4 0 s;
  r ← expect "-" r;
  '(mo, r) ← take_digits 2 0 r;
  r ← expect "-" r;
  '(d, r) ← take_digits 2 0 r;
  r ← expect "T" r;
  '(h, r) ← take_digits 2 0 r;
  r ← expect ":" r;
  '(mi, r) ← take_digits 2 0 r;
  r ← expect ":" r;
  '(sec, r) ← take_digits 2 0 r;
  '(us, r) ← parse_fraction r;
  tz ← parse_tzinfo r;
  if (1 <=? y) && (1 <=? mo) && (mo <=? 12) && (1 <=? d)
     && (d <=? days_in_month y mo) && (h <? 24) && (mi <? 60) && (sec <? 60)
  then Some {| Dashboard.seconds :=
                 ((days_from_civil y mo d * 24 + h) * 60 + mi) * 60 + sec;
               Dashboard.microsecond := us;
               Dashboard.utcoffset := tz |}
  else None.

(** A machine whose time zone keeps one offset from UTC, in seconds, all
    year. *)
Definition fixed_zone (offset : Z) : Dashboard.Host :=
  {| Dashboard.fromisoformat := read_iso_fields;
     Dashboard.localtime := fun u => Some (u + offset) |}.

End Ref.

(** ** Inputs of the examples, on the platform [Ref.platform] *)

Module Example.

Definition host_url : string := "http://192.168.170.145:5000/".

(** 2023-11-14 22:13:20 UTC *)
Definition now : datetime := 1700000000000000.

(** A server whose catalog holds the stable release "2.0.0". *)
Definition db_2_0_0 : Server :=
  with_catalog [stable_release "2.0.0" now] empty_server.

(** The same server with a registry row for the device, holding the given
    [auto_update] flag. *)
Definition db_registered (auto_update : bool) : Server :=
  with_registry {["ESP32_001" := device_row "ESP32_001" auto_update]} db_2_0_0.

Definition ingest_env : IngestEnv :=
  {| remote_addr := "192.168.170.20";
     utcnow_receipt := now;
     utcnow_seen := now + 1500;
     utcnow_insert := now + 2000;
     new_sensor_data_id := 1;
     new_device_registry_id := 2 |}.

(** temperature 23.5, humidity 41.0 *)
Definition reading (ts : option json) : gmap string json :=
  reading_body "ESP32_001" (JFloat (47 # 2)%Q) (JFloat 41%Q) ts.

Definition upload_env : UploadEnv :=
  {| utcnow_release := now; new_firmware_id := 1 |}.

Definition upload (version : string) (bytes : list Byte.byte) : UploadRequest :=
  {| files_file := Some {| filename := "build.bin"; stream := bytes |};
     form_version := Some version;
     form_description := Some "first release";
     form_is_stable := None |}.

(** A reading of the device stamped one hour after [now]. *)
Definition db_future_reading : Server :=
  {| sensor_data :=
       [{| sd_id := 1;
           sd_device_id := "ESP32_001";
           sd_temperature := 20%Q;
           sd_humidity := 40%Q;
           sd_firmware_version := Some "1.5.0";
           sd_timestamp := now + 3600 * 1000000;
           sd_created_at := now - 60 * 1000000 |}];
     firmware_versions := [];
     device_registry := ∅;
     upload_folder := ∅ |}.

(** The dashboard on a machine that keeps UTC, and on one that is five
    hours ahead of UTC all year, as Asia/Karachi is. *)
Definition utc_host : Dashboard.Host := Ref.fixed_zone 0.
Definition karachi_host : Dashboard.Host := Ref.fixed_zone (5 * 3600).

(** 1970-01-01T00:02:04.732948 UTC *)
Definition early : Z := 124732948.

End Example.

(** ** Inputs of the further examples, on the platform [Ref.platform] *)

Module Scenario.

Import Example.

Definition first_bytes : list Byte.byte := [Byte.x01; Byte.x02].
Definition other_bytes : list Byte.byte := [Byte.xff].

(** The first upload of "1.0.0" into an empty server. *)
Definition after_upload : Response * Server :=
  upload_firmware upload_env (upload "1.0.0" first_bytes) empty_server.

Definition later_env : UploadEnv :=
  {| utcnow_release := now + 60 * 1000000; new_firmware_id := 2 |}.

(** An upload that asks for a release that is not stable. *)
Definition beta_upload : UploadRequest :=
  {| files_file := Some {| filename := "beta.bin"; stream := other_bytes |};
     form_version := Some "3.0.0";
     form_description := None;
     form_is_stable := Some "False" |}.

Definition manager_file : FileStorage :=
  {| filename := "build.bin"; stream := first_bytes |}.

(** Two readings of one device, a minute apart, and one of another. *)
Definition reading_at (id : Z) (device_id : string) (t : datetime) : SensorData :=
  {| sd_id := id;
     sd_device_id := device_id;
     sd_temperature := 20%Q;
     sd_humidity := 40%Q;
     sd_firmware_version := Some "1.5.0";
     sd_timestamp := t;
     sd_created_at := t |}.

Definition db_readings : Server :=
  {| sensor_data := [reading_at 1 "ESP32_001" (now - 120 * 1000000);
                     reading_at 2 "ESP32_002" (now - 90 * 1000000);
                     reading_at 3 "ESP32_001" (now - 60 * 1000000)];
     firmware_versions := [];
     device_registry := ∅;
     upload_folder := ∅ |}.

(** [x < n] on the floats of [Ref.platform] *)
Definition lt_int (x : Q) (n : Z) : bool := negb (Qle_bool (inject_Z n) x).

End Scenario.

(** * Properties *)

(** ** The version comparator (C2) *)

Section VersionOrder.

Implicit Types (l p : list Z) (i k n : nat).

Lemma compare_parts_view p1 p2 k n :
  compare_parts p1 p2 (seq k n)
  = answer_of (lex_compare (view k n p1) (view k n p2)).
Proof.
  revert k. induction n as [|n IH]; intros k; [reflexivity|].
  cbn [seq compare_parts view map lex_compare].
  fold (view (S k) n p1) (view (S k) n p2).
  replace (if (k <? length p1)%nat then nth k p1 0 else 0) with (nth k p1 0)
    by (destruct (Nat.ltb_spec k (length p1)); [easy | now rewrite nth_overflow]).
  replace (if (k <? length p2)%nat then nth k p2 0 else 0) with (nth k p2 0)
    by (destruct (Nat.ltb_spec k (length p2)); [easy | now rewrite nth_overflow]).
  rewrite Z.gtb_ltb, Z.ltb_compare, (Z.ltb_compare (nth k p1 0)).
  rewrite (Z.compare_antisym (nth k p1 0) (nth k p2 0)).
  destruct (nth k p1 0 ?= nth k p2 0); cbn; auto.
Qed.

Lemma view_app k n m l : view k (n + m) l = view k n l ++ view (k + n) m l.
Proof. unfold view. now rewrite seq_app, map_app. Qed.

Lemma view_beyond k n l : (length l <= k)%nat -> view k n l = repeat 0 n.
Proof.
  revert k. induction n as [|n IH]; intros k Hk; [reflexivity|].
  cbn. rewrite nth_overflow by lia. f_equal. apply IH. lia.
Qed.

Lemma view_whole l : view 0 (length l) l = l.
Proof.
  unfold view. apply nth_ext with (d := 0) (d' := 0).
  - now rewrite length_map, length_seq.
  - intros i Hi. rewrite length_map, length_seq in Hi.
    rewrite (nth_indep _ 0 (nth 0 l 0)) by now rewrite length_map, length_seq.
    rewrite (map_nth (fun i => nth i l 0)), seq_nth by easy. reflexivity.
Qed.

Lemma view_pad n l : (length l <= n)%nat -> view 0 n l = pad_to n l.
Proof.
  intros Hn. replace n with (length l + (n - length l))%nat at 1 by lia.
  rewrite view_app, view_whole, (view_beyond (0 + length l)) by (cbn; lia).
  reflexivity.
Qed.

Lemma length_view k n l : length (view k n l) = n.
Proof. unfold view. now rewrite length_map, length_seq. Qed.

Lemma lex_compare_refl l : lex_compare l l = Eq.
Proof. induction l as [|x l IH]; cbn; [easy | now rewrite Z.compare_refl]. Qed.

Lemma lex_compare_opp l1 l2 : lex_compare l2 l1 = CompOpp (lex_compare l1 l2).
Proof.
  revert l2. induction l1 as [|x l1 IH]; intros [|y l2]; cbn; try easy.
  rewrite (Z.compare_antisym x y). destruct (x ?= y); cbn; auto.
Qed.

Lemma lex_compare_Gt_trans l1 l2 l3 :
  lex_compare l1 l2 = Gt -> lex_compare l2 l3 = Gt -> lex_compare l1 l3 = Gt.
Proof.
  revert l2 l3.
  induction l1 as [|x l1 IH]; intros [|y l2] [|z l3]; cbn; try easy.
  destruct (Z.compare_spec x y) as [-> | Hxy | Hxy]; try easy.
  - destruct (z ?= y) eqn:E; rewrite Z.compare_antisym, E; cbn; try easy.
    apply IH.
  - intros _. destruct (Z.compare_spec y z) as [-> | Hyz | Hyz]; try easy.
    + rewrite (proj2 (Z.compare_gt_iff _ _)) by lia. easy.
    + rewrite (proj2 (Z.compare_gt_iff _ _)) by lia. easy.
Qed.

Lemma lex_compare_app l1 l2 t :
  length l1 = length l2 ->
  lex_compare (l1 ++ t) (l2 ++ t) = lex_compare l1 l2.
Proof.
  revert l2. induction l1 as [|x l1 IH]; intros [|y l2] Hlen; try easy.
  - cbn. apply lex_compare_refl.
  - cbn. injection Hlen as Hlen. rewrite IH by easy. reflexivity.
Qed.

(** Looking at more positions than the longer sequence has does not
    change the answer. *)
Lemma lex_compare_view_more n m p1 p2 :
  (length p1 <= n)%nat -> (length p2 <= n)%nat -> (n <= m)%nat ->
  lex_compare (view 0 m p1) (view 0 m p2)
  = lex_compare (view 0 n p1) (view 0 n p2).
Proof.
  intros H1 H2 Hm. replace m with (n + (m - n))%nat by lia.
  rewrite !view_app, !(view_beyond (0 + n)) by (cbn; lia).
  apply lex_compare_app. now rewrite !length_view.
Qed.

Lemma compare_parts_spec p1 p2 :
  compare_parts p1 p2 (seq 0 (Nat.max (length p1) (length p2)))
  = spec_compare p1 p2.
Proof.
  rewrite compare_parts_view. unfold spec_compare.
  rewrite !view_pad by lia. reflexivity.
Qed.

Lemma answer_of_inj c1 c2 : answer_of c1 = answer_of c2 -> c1 = c2.
Proof. now destruct c1, c2. Qed.

End VersionOrder.

(** *** Valid version strings parse *)

Section Parsing.

Context `{Interpreter}.

Lemma digit_not_space c : Str.is_digit c = true -> Str.is_c_space c = false.
Proof.
  unfold Str.is_digit, Str.is_c_space. cbv zeta.
  generalize (nat_of_ascii c) as n. intros n Hd.
  apply andb_prop in Hd as [H1 H2].
  apply Nat.leb_le in H1. apply Nat.leb_le in H2.
  apply orb_false_intro; [apply andb_false_intro2; apply Nat.leb_gt; lia|].
  apply Nat.eqb_neq. lia.
Qed.

Lemma digit_is_ascii c : Str.is_digit c = true -> Str.is_ascii c = true.
Proof.
  unfold Str.is_digit, Str.is_ascii. cbv zeta. intros Hd.
  apply andb_prop in Hd as [_ H2]. apply Nat.leb_le in H2.
  apply Nat.ltb_lt. lia.
Qed.

Lemma digit_is_int_char c : Str.is_digit c = true -> int_char c = true.
Proof.
  intros Hd. unfold int_char. rewrite Hd.
  now rewrite orb_true_r.
Qed.

Lemma digit_value_nonneg c : Str.is_digit c = true -> 0 <= Str.digit_value c.
Proof.
  unfold Str.is_digit, Str.digit_value. cbv zeta. intros Hd.
  apply andb_prop in Hd as [H1 _]. apply Nat.leb_le in H1. lia.
Qed.

(** What the screening of [py_int] sees in a run of digits. *)
Lemma all_digits_chars s :
  all_digits s = true ->
  Str.all_chars int_char s = true /\ Str.all_chars Str.is_ascii s = true /\
  Str.count_chars Str.is_digit s = String.length s.
Proof.
  induction s as [|c r IH]; [easy|].
  cbn [all_digits Str.all_chars Str.count_chars String.length]. intros Hs.
  apply andb_prop in Hs as [Hc Hr]. destruct (IH Hr) as (H1 & H2 & H3).
  now rewrite Hc, (digit_is_int_char c Hc), (digit_is_ascii c Hc), H1, H2, H3.
Qed.

Lemma is_natural_lstrip s :
  is_natural s = true -> Str.lstrip Str.is_c_space s = s.
Proof.
  destruct s as [|c r]; [easy|]. cbn. intros Hs.
  apply andb_prop in Hs as [Hc _]. now rewrite digit_not_space.
Qed.

Lemma all_digits_rstrip s :
  all_digits s = true -> Str.rstrip Str.is_c_space s = s.
Proof.
  induction s as [|c r IH]; [easy|]. cbn. intros Hs.
  apply andb_prop in Hs as [Hc Hr]. rewrite IH by easy.
  destruct r; [now rewrite digit_not_space | reflexivity].
Qed.

Lemma is_natural_strip s :
  is_natural s = true -> Str.strip Str.is_c_space s = s.
Proof.
  intros Hs. unfold Str.strip. rewrite is_natural_lstrip by easy.
  apply all_digits_rstrip. now destruct s.
Qed.

Lemma decimal_of_nonneg s : all_digits s = true -> 0 <= decimal_of s.
Proof.
  induction s as [|c r IH]; [easy|]. cbn [all_digits decimal_of]. intros Hs.
  apply andb_prop in Hs as [Hc Hr].
  pose proof (digit_value_nonneg c Hc). specialize (IH Hr).
  assert (0 <= 10 ^ Z.of_nat (String.length r)) by (apply Z.pow_nonneg; lia).
  nia.
Qed.

(** The left-to-right accumulation of [int] computes the positional
    value. *)
Lemma int_digits_decimal s acc after :
  all_digits s = true -> (s <> EmptyString \/ after = true) ->
  int_digits acc after s
  = Some (acc * 10 ^ Z.of_nat (String.length s) + decimal_of s).
Proof.
  revert acc after. induction s as [|c r IH]; intros acc after Hs Hne.
  - destruct Hne as [Hne | Hne]; [easy|]. subst after. cbn. f_equal. lia.
  - cbn [all_digits] in Hs. apply andb_prop in Hs as [Hc Hr].
    cbn [int_digits decimal_of]. rewrite Hc.
    rewrite (IH _ true Hr) by now right. f_equal.
    change (String.length (String c r)) with (S (String.length r)).
    rewrite Nat2Z.inj_succ, Z.pow_succ_r by lia. ring.
Qed.

Lemma py_int_natural s :
  is_natural s = true -> too_many_digits (String.length s) = false ->
  py_int s = Ok (decimal_of s).
Proof.
  intros Hs Hfits.
  assert (Hd : all_digits s = true) by now destruct s.
  destruct (all_digits_chars s Hd) as (H1 & H2 & H3).
  unfold py_int. rewrite H1, H2. cbn [negb].
  unfold int_ascii, int_ascii_with. rewrite is_natural_strip by easy.
  fold (too_many_digits (Str.count_chars Str.is_digit s)). rewrite H3, Hfits.
  destruct s as [|c r]; [easy|].
  pose proof (int_digits_decimal (String c r) 0 false Hd ltac:(now left)) as Hn.
  rewrite Z.mul_0_l, Z.add_0_l in Hn.
  assert (Hc : Str.is_digit c = true) by (cbn in Hs; now apply andb_prop in Hs).
  destruct c as [[] [] [] [] [] [] [] []]; try discriminate Hc;
    now rewrite Hn.
Qed.

Lemma comprehension_naturals l :
  forallb (fun s => is_natural s && negb (too_many_digits (String.length s))) l
  = true ->
  comprehension py_int l = Ok (decimal_of <$> l) /\
  Forall (fun n => 0 <= n) (decimal_of <$> l).
Proof.
  induction l as [|s l IH]; intros Hl.
  - now split.
  - cbn in Hl. apply andb_prop in Hl as [Hs Hl].
    apply andb_prop in Hs as [Hs Hfits]. apply negb_true_iff in Hfits.
    destruct (IH Hl) as [Hns Hall]. split.
    + cbn. rewrite (py_int_natural s Hs Hfits). cbn. rewrite Hns. reflexivity.
    + cbn. constructor; [|easy]. apply decimal_of_nonneg. now destruct s.
Qed.

Lemma valid_version_parts v :
  valid_version v = true ->
  version_parts v = Ok (numbers v) /\ Forall (fun n => 0 <= n) (numbers v).
Proof. apply comprehension_naturals. Qed.

(** *** The comparator on parsed versions *)

Lemma version_compare_parsed a b pa pb :
  version_parts a = Ok pa -> version_parts b = Ok pb ->
  version_compare a b = Ok (spec_compare pa pb).
Proof.
  intros Ha Hb. unfold version_compare. rewrite Ha. cbn. rewrite Hb. cbn.
  now rewrite compare_parts_spec.
Qed.

Lemma version_compare_valid a b :
  valid_version a = true -> valid_version b = true ->
  version_compare a b = Ok (spec_compare (numbers a) (numbers b)).
Proof.
  intros Va Vb. apply version_compare_parsed; now apply valid_version_parts.
Qed.

End Parsing.

Lemma spec_compare_refl p : spec_compare p p = EQUAL.
Proof. unfold spec_compare. now rewrite lex_compare_refl. Qed.

Lemma spec_compare_antisym p q :
  spec_compare p q = GREATER <-> spec_compare q p = LESS.
Proof.
  unfold spec_compare. rewrite (Nat.max_comm (length q)).
  rewrite (lex_compare_opp (pad_to _ p) (pad_to _ q)).
  destruct (lex_compare (pad_to _ p) (pad_to _ q)); cbn; split; easy.
Qed.

Lemma spec_compare_view n p q :
  (length p <= n)%nat -> (length q <= n)%nat ->
  spec_compare p q = answer_of (lex_compare (view 0 n p) (view 0 n q)).
Proof.
  intros Hp Hq. unfold spec_compare.
  rewrite <- !view_pad by lia.
  now rewrite (lex_compare_view_more (Nat.max (length p) (length q)) n) by lia.
Qed.

Lemma spec_compare_trans p q r :
  spec_compare p q = GREATER -> spec_compare q r = GREATER ->
  spec_compare p r = GREATER.
Proof.
  set (n := Nat.max (length p) (Nat.max (length q) (length r))).
  rewrite (spec_compare_view n p q), (spec_compare_view n q r),
    (spec_compare_view n p r) by lia.
  intros H1 H2.
  apply (answer_of_inj _ Gt) in H1. apply (answer_of_inj _ Gt) in H2.
  now rewrite (lex_compare_Gt_trans _ _ _ H1 H2).
Qed.

(** C2, as the code has it.  On version strings whose dot-separated
    components are non-negative integers that the interpreter reads (of at
    most 640 digits, or within its limit on integer strings),
    [version_compare] returns (it does not raise) the positional
    lexicographic comparison of the two sequences of integers, the shorter
    one padded with 0: "1.2" equals "1.2.0" and "1.10.0" is greater than
    "1.9.0".  It is a total order on such strings: a version equals itself,
    [a] is GREATER than [b] exactly when [b] is LESS than [a], and GREATER is
    transitive. *)
Theorem version_compare_is_padded_lexicographic_order
    `{Interpreter} (a b c : string) :
  valid_version a = true -> valid_version b = true -> valid_version c = true ->
  version_compare a b = Ok (spec_compare (numbers a) (numbers b)) /\
  Forall (fun n => 0 <= n) (numbers a) /\
  version_compare a a = Ok EQUAL /\
  (version_compare a b = Ok GREATER <-> version_compare b a = Ok LESS) /\
  (version_compare a b = Ok GREATER -> version_compare b c = Ok GREATER ->
   version_compare a c = Ok GREATER) /\
  version_compare "1.2" "1.2.0" = Ok EQUAL /\
  version_compare "1.10.0" "1.9.0" = Ok GREATER /\
  version_compare "1.9.0" "1.10.0" = Ok LESS.
Proof.
  intros Va Vb Vc.
  rewrite (version_compare_valid a b), (version_compare_valid a a),
    (version_compare_valid b a), (version_compare_valid b c),
    (version_compare_valid a c) by easy.
  split; [reflexivity|].
  split; [now apply valid_version_parts|].
  split; [now rewrite spec_compare_refl|].
  split.
  { split; intros Hc; injection Hc as Hc; f_equal; now apply spec_compare_antisym. }
  split.
  { intros H1 H2. injection H1 as H1. injection H2 as H2. f_equal.
    now apply (spec_compare_trans (numbers a) (numbers b) (numbers c)). }
  repeat split; reflexivity.
Qed.

Lemma version_compare_is_padded_lexicographic_order_witness :
  valid_version "1.10.0" = true /\ valid_version "1.9" = true /\
  valid_version "1.2.0" = true /\
  numbers "1.10.0" = [1; 10; 0] /\
  version_compare "1.10.0" "1.9" = Ok GREATER /\
  version_compare "1.9" "1.2.0" = Ok GREATER /\
  version_compare "1.10.0" "1.2.0" = Ok GREATER.
Proof.
  destruct (version_compare_is_padded_lexicographic_order
              "1.10.0" "1.9" "1.2.0" eq_refl eq_refl eq_refl)
    as (_ & _ & _ & _ & Htrans & _).
  do 6 (split; [reflexivity|]).
  apply Htrans; reflexivity.
Defined.

(** C2 as stated fails on an interpreter that limits the length of integer
    strings, as CPython does from 3.11 on with its default of 4300 digits:
    a version of one component of 4301 digits 1 has a non-negative integer
    for its only component, and comparing it, even with itself, raises
    [ValueError] where EQUAL is expected. *)
Lemma version_compare_raises_on_long_component :
  natural_version (ones 4301) = true /\
  version_compare (H := Ref.interpreter) (ones 4301) (ones 4301)
  = Raise ValueError /\
  version_compare (H := Ref.interpreter) (ones 4301) (ones 4301)
  <> Ok EQUAL.
Proof.
  split; [now vm_compute|].
  assert (E : version_compare (H := Ref.interpreter) (ones 4301) (ones 4301)
              = Raise ValueError) by now vm_compute.
  split; [exact E|]. rewrite E. discriminate.
Qed.

(** ** Update negotiation (C1, C9, C10) *)

Section Negotiation.

Context `{Platform} `{Interpreter}.

#[local] Instance release_date_desc_trans : Transitive release_date_desc.
Proof. intros x y z. unfold release_date_desc. lia. Qed.

#[local] Instance release_date_desc_total : Total release_date_desc.
Proof. intros x y. unfold release_date_desc. lia. Qed.

(** The query finds nothing exactly when no release is stable. *)
Lemma latest_stable_None rows :
  latest_stable rows = None <->
  (forall f, f ∈ rows -> fw_is_stable f = false).
Proof.
  unfold latest_stable. rewrite head_None. split.
  - intros Hnil f Hf. destruct (fw_is_stable f) eqn:E; [|easy].
    assert (Hin : f ∈ merge_sort release_date_desc
                      (filter (fun r => fw_is_stable r = true) rows)).
    { rewrite merge_sort_Permutation. now apply list_elem_of_filter. }
    rewrite Hnil in Hin. now apply elem_of_nil in Hin.
  - intros Hall.
    destruct (merge_sort release_date_desc
                (filter (fun r => fw_is_stable r = true) rows))
      as [|f l] eqn:E; [easy|].
    assert (Hin : f ∈ filter (fun r => fw_is_stable r = true) rows).
    { rewrite <- (merge_sort_Permutation release_date_desc), E. left. }
    apply list_elem_of_filter in Hin as [Hs Hin].
    rewrite (Hall f Hin) in Hs. discriminate.
Qed.

(** What the query finds is a stable release of the catalog, and no stable
    release is more recent. *)
Lemma latest_stable_Some rows L :
  latest_stable rows = Some L ->
  L ∈ rows /\ fw_is_stable L = true /\
  (forall f, f ∈ rows -> fw_is_stable f = true ->
             fw_release_date f <= fw_release_date L).
Proof.
  unfold latest_stable. intros Hhd.
  pose proof (StronglySorted_merge_sort release_date_desc
                (filter (fun r => fw_is_stable r = true) rows)) as Hsorted.
  pose proof (merge_sort_Permutation release_date_desc
                (filter (fun r => fw_is_stable r = true) rows)) as Hperm.
  destruct (merge_sort release_date_desc
              (filter (fun r => fw_is_stable r = true) rows))
    as [|f l]; [discriminate|].
  injection Hhd as ->.
  assert (HL : L ∈ filter (fun r => fw_is_stable r = true) rows)
    by (rewrite <- Hperm; left).
  apply list_elem_of_filter in HL as [HLs HLin].
  repeat split; [easy | easy |].
  intros f Hf Hfs.
  assert (Hf' : f ∈ L :: l)
    by (rewrite Hperm; now apply list_elem_of_filter).
  apply elem_of_cons in Hf' as [-> | Hf']; [lia|].
  apply StronglySorted_inv in Hsorted as [_ Hall].
  rewrite Forall_forall in Hall. exact (Hall f Hf').
Qed.

Lemma compare_parts_answer p1 p2 range :
  compare_parts p1 p2 range = GREATER \/ compare_parts p1 p2 range = EQUAL \/
  compare_parts p1 p2 range = LESS.
Proof.
  induction range as [|i rest IH]; cbn; [now right; left|].
  destruct (_ >? _); [now left|]. destruct (_ <? _); [now right; right | easy].
Qed.

Lemma version_compare_answer a b c :
  version_compare a b = Ok c -> c = GREATER \/ c = EQUAL \/ c = LESS.
Proof.
  unfold version_compare.
  destruct (version_parts a) as [pa|]; [|discriminate]. cbn.
  destruct (version_parts b) as [pb|]; [|discriminate]. cbn.
  intros [= <-]. apply compare_parts_answer.
Qed.

Lemma falsy_Some s : s <> "" -> falsy (Some s) = false.
Proof. intros Hs. cbn. now apply bool_decide_eq_false. Qed.

Lemma check_with_latest device_id current_version host_url db L :
  device_id <> "" -> current_version <> "" ->
  latest_stable (firmware_versions db) = Some L ->
  let r := check_firmware_update (Some device_id) (Some current_version)
             host_url db in
  (body r !! "update_available" = Some (JBool true) <->
   version_compare (fw_version L) current_version = Ok GREATER) /\
  (body r !! "update_available" = Some (JBool true) ->
   status_code r = 200 /\ advertises r host_url L) /\
  (forall c, version_compare (fw_version L) current_version = Ok c ->
             c <> GREATER ->
             status_code r = 200 /\
             body r !! "update_available" = Some (JBool false)).
Proof.
  intros Hd Hc HL. unfold check_firmware_update, check_firmware_update_view.
  rewrite !falsy_Some by easy. cbn [orb default from_option id]. rewrite HL.
  destruct (version_compare (fw_version L) current_version) as [c|e] eqn:Hcmp.
  - destruct (version_compare_answer _ _ _ Hcmp) as [-> | [-> | ->]].
    + split; [|split].
      * split; reflexivity.
      * intros _. split; [reflexivity|]. repeat split; reflexivity.
      * intros c [= <-] Hne. now destruct Hne.
    + split; [|split].
      * split; [intros [=] | intros [=]].
      * intros [=].
      * intros c [= <-] _. split; reflexivity.
    + split; [|split].
      * split; [intros [=] | intros [=]].
      * intros [=].
      * intros c [= <-] _. split; reflexivity.
  - split; [|split].
    + split; [intros [=] | intros [=]].
    + intros [=].
    + intros c [=].
Qed.

(** C1. An update check that names a device and a current version: when no
    release of the catalog is stable the response has
    [update_available = false]; otherwise there is a stable release [L] of
    the catalog, of maximum release date among the stable ones, such that the
    response has [update_available = true] exactly when the comparator
    reports [L]'s version GREATER than the current version, and then the
    response carries [L]'s version, description, release date, checksum and
    the download URL made from [L]'s version. *)
Theorem check_reports_latest_stable_release
    (device_id current_version host_url : string) (db : Server) :
  device_id <> "" -> current_version <> "" ->
  let r := check_firmware_update (Some device_id) (Some current_version)
             host_url db in
  ((forall f, f ∈ firmware_versions db -> fw_is_stable f = false) ->
   status_code r = 200 /\ body r !! "update_available" = Some (JBool false)) /\
  ((exists f, f ∈ firmware_versions db /\ fw_is_stable f = true) ->
   exists L,
     L ∈ firmware_versions db /\ fw_is_stable L = true /\
     (forall f, f ∈ firmware_versions db -> fw_is_stable f = true ->
                fw_release_date f <= fw_release_date L) /\
     (body r !! "update_available" = Some (JBool true) <->
      version_compare (fw_version L) current_version = Ok GREATER) /\
     (body r !! "update_available" = Some (JBool true) ->
      status_code r = 200 /\ advertises r host_url L)).
Proof.
  intros Hd Hc r. split.
  - intros Hnone. apply latest_stable_None in Hnone.
    subst r. unfold check_firmware_update, check_firmware_update_view.
    rewrite !falsy_Some by easy. cbn [orb]. rewrite Hnone.
    split; reflexivity.
  - intros (f & Hf & Hfs).
    destruct (latest_stable (firmware_versions db)) as [L|] eqn:HL.
    + destruct (latest_stable_Some _ _ HL) as (HLin & HLs & HLmax).
      destruct (check_with_latest device_id current_version host_url db L
                  Hd Hc HL) as (Hiff & Hadv & _).
      exists L. split; [easy|]. split; [easy|]. split; [easy|].
      split; [exact Hiff | exact Hadv].
    + rewrite latest_stable_None in HL. rewrite (HL f Hf) in Hfs. discriminate.
Qed.

(** C9. The response of an update check does not depend on the device
    registry: two servers with the same firmware catalog give the same
    response to the same check, whatever rows (if any) their registries hold
    for the device and whatever the [auto_update] flags of these rows. *)
Theorem check_ignores_device_registry
    (device_id current_version : option string) (host_url : string)
    (db1 db2 : Server) :
  firmware_versions db1 = firmware_versions db2 ->
  check_firmware_update device_id current_version host_url db1
  = check_firmware_update device_id current_version host_url db2.
Proof.
  intros Hcat. unfold check_firmware_update, check_firmware_update_view.
  now rewrite Hcat.
Qed.

(** A comparator that raises leaves the view: the client receives the 500
    response of the framework. *)
Lemma check_malformed_is_500 device_id current_version host_url db L e :
  device_id <> "" -> current_version <> "" ->
  latest_stable (firmware_versions db) = Some L ->
  version_compare (fw_version L) current_version = Raise e ->
  check_firmware_update (Some device_id) (Some current_version) host_url db
  = internal_server_error.
Proof.
  intros Hd Hc HL Hcmp. unfold check_firmware_update, check_firmware_update_view.
  rewrite !falsy_Some by easy. cbn [orb default from_option id].
  now rewrite HL, Hcmp.
Qed.

(** C10 fails on the code.  With the stable release "1.0.0" in the catalog,
    a check whose current version is "abc" or "1.x.0" makes [int] raise
    [ValueError] inside [version_compare]; [check_firmware_update] does not
    catch it, and the client receives a 500 response without a message, not
    a 400. *)
Theorem check_malformed_version_answers_500 :
  let db := with_catalog [stable_release "1.0.0" 0] empty_server in
  version_compare "1.0.0" "abc" = Raise ValueError /\
  version_compare "1.0.0" "1.x.0" = Raise ValueError /\
  status_code (check_firmware_update (Some "ESP32_001") (Some "abc")
                 "http://host/" db) = 500 /\
  status_code (check_firmware_update (Some "ESP32_001") (Some "1.x.0")
                 "http://host/" db) = 500 /\
  body (check_firmware_update (Some "ESP32_001") (Some "abc")
          "http://host/" db) !! "message" = None.
Proof. repeat split; reflexivity. Qed.

End Negotiation.

(** ** Telemetry intake (C4, C5, C6) *)

Section Intake.

Context `{Platform} `{Interpreter}.

Implicit Types (env : IngestEnv) (data : gmap string json) (db : Server).

(** A reading is stored only by [store_reading], which answers 201. *)
Lemma store_reading_Ok env data t h db r db' :
  store_reading env data t h db = Ok (r, db') ->
  exists ts device_id fw,
    parse_timestamp env data = Ok ts /\
    (v ← getitem data "device_id"; not_null (varchar v)) = Ok device_id /\
    varchar (default (JStr "unknown") (data !! "firmware_version")) = Ok fw /\
    status_code r = 201 /\
    sensor_data db' =
      sensor_data db ++
      [{| sd_id := new_sensor_data_id env;
          sd_device_id := device_id;
          sd_temperature := t;
          sd_humidity := h;
          sd_firmware_version := fw;
          sd_timestamp := ts;
          sd_created_at := utcnow_insert env |}] /\
    device_registry db' =
      <[device_id := touch env device_id fw (device_registry db !! device_id)]>
        (device_registry db) /\
    firmware_versions db' = firmware_versions db /\
    upload_folder db' = upload_folder db.
Proof.
  unfold store_reading.
  destruct (parse_timestamp env data) as [ts|]; [|discriminate]. cbn.
  destruct (getitem data "device_id") as [v|]; [|discriminate]. cbn.
  destruct (not_null (varchar v)) as [device_id|]; [|discriminate]. cbn.
  destruct (varchar _) as [fw|]; [|discriminate]. cbn.
  intros [= <- <-]. exists ts, device_id, fw. repeat split; reflexivity.
Qed.

(** The outcomes of the handler: either the reading went through
    [store_reading], or the response is an error and nothing changed. *)
Lemma receive_sensor_data_cases env data db :
  (exists t h,
      getitem data "temperature" ≫= py_float = Ok t /\
      getitem data "humidity" ≫= py_float = Ok h /\
      temperature_in_range t = true /\ humidity_in_range h = true /\
      receive_sensor_data_body env data db = store_reading env data t h db) \/
  (exists code message,
      (code = 400 \/ code = 500) /\
      receive_sensor_data env data db = (error_response code message, db)).
Proof.
  unfold receive_sensor_data, receive_sensor_data_body.
  destruct (first_missing _ data) as [field|]; [right; eauto 6|].
  destruct (getitem data "temperature") as [tv|e]; cbn;
    [|right; destruct e; eauto 6].
  destruct (py_float tv) as [t|e]; cbn; [|right; destruct e; eauto 6].
  destruct (getitem data "humidity") as [hv|e]; cbn;
    [|right; destruct e; eauto 6].
  destruct (py_float hv) as [h|e]; cbn; [|right; destruct e; eauto 6].
  destruct (temperature_in_range t) eqn:Ht; cbn; [|right; eauto 6].
  destruct (humidity_in_range h) eqn:Hh; cbn; [|right; eauto 6].
  left. exists t, h. repeat split; solve [reflexivity | assumption].
Qed.

(** Every response other than 201 leaves the telemetry store and the
    device registry (and the rest of the state) as they were. *)
Lemma receive_sensor_data_rejected_unchanged env data db :
  status_code (receive_sensor_data env data db).1 <> 201 ->
  (receive_sensor_data env data db).2 = db.
Proof.
  intros Hcode.
  destruct (receive_sensor_data_cases env data db)
    as [(t & h & _ & _ & _ & _ & Hbody) | (code & message & _ & ->)]; [|easy].
  revert Hcode. unfold receive_sensor_data. rewrite Hbody.
  destruct (store_reading env data t h db) as [[r db']|e] eqn:Hstore; [|easy].
  destruct (store_reading_Ok _ _ _ _ _ _ _ Hstore)
    as (? & ? & ? & _ & _ & _ & Hc & _).
  cbn. intros Hne. now destruct Hne.
Qed.

(** A missing field is answered 400. *)
Lemma receive_missing_field env data db field :
  first_missing ["device_id"; "temperature"; "humidity"] data = Some field ->
  receive_sensor_data env data db
  = (error_response 400 ("Missing required field: " +:+ field), db).
Proof.
  intros Hm. unfold receive_sensor_data, receive_sensor_data_body.
  now rewrite Hm.
Qed.

(** Values that convert to floats outside the ranges are answered 400. *)
Lemma receive_out_of_range env data db t h :
  first_missing ["device_id"; "temperature"; "humidity"] data = None ->
  getitem data "temperature" ≫= py_float = Ok t ->
  getitem data "humidity" ≫= py_float = Ok h ->
  temperature_in_range t = false \/ humidity_in_range h = false ->
  exists message,
    receive_sensor_data env data db = (error_response 400 message, db).
Proof.
  intros Hm Ht Hh Hrange.
  unfold receive_sensor_data, receive_sensor_data_body. rewrite Hm.
  destruct (getitem data "temperature") as [tv|]; [|discriminate]. cbn in Ht |- *.
  rewrite Ht. cbn.
  destruct (getitem data "humidity") as [hv|]; [|discriminate]. cbn in Hh |- *.
  rewrite Hh. cbn.
  destruct (temperature_in_range t); cbn; [|eauto].
  destruct Hrange as [|Hrange]; [discriminate|]. rewrite Hrange. cbn. eauto.
Qed.

(** A string that [float] does not read is answered 400. *)
Lemma receive_unreadable_string env data db s :
  first_missing ["device_id"; "temperature"; "humidity"] data = None ->
  data !! "temperature" = Some (JStr s) -> float_of_string s = None ->
  receive_sensor_data env data db
  = (error_response 400 "Invalid data type for temperature or humidity", db).
Proof.
  intros Hm Ht Hs. unfold receive_sensor_data, receive_sensor_data_body.
  rewrite Hm. unfold getitem. rewrite Ht. cbn. now rewrite Hs.
Qed.

(** The telemetry body of the examples: a device id, a temperature, a
    humidity, and perhaps a timestamp. *)
Lemma first_missing_reading device_id t h (ts : option json) :
  first_missing ["device_id"; "temperature"; "humidity"]
    (reading_body device_id t h ts) = None.
Proof. destruct ts; reflexivity. Qed.

(** C4 fails on the code.  A body whose temperature is JSON [null] has a
    temperature that is not numeric, yet it is not answered 400: [float(None)]
    raises [TypeError], which the [except ValueError] around the conversions
    does not catch, so the outer handler answers 500.  The state is left
    unchanged. *)
Theorem receive_null_temperature_answers_500 env db device_id h :
  receive_sensor_data env (reading_body device_id JNull h None) db
  = (error_response 500 "Internal server error", db) /\
  status_code (receive_sensor_data env
                 (reading_body device_id JNull h None) db).1 = 500.
Proof. split; reflexivity. Qed.

(** The fallback does work for a timestamp that is absent, or that is
    a string which does not parse: the reading is accepted and stored with
    the server time. *)
Lemma receive_unparseable_string_timestamp env db device_id t h ts :
  temperature_in_range t = true -> humidity_in_range h = true ->
  ts = None \/
  (exists s, ts = Some (JStr s) /\
             fromisoformat (Str.replace "Z" "+00:00" s) = None) ->
  exists r db',
    receive_sensor_data env (reading_body device_id (JFloat t) (JFloat h) ts) db
    = (r, db') /\
    status_code r = 201 /\
    sensor_data db' =
      sensor_data db ++
      [{| sd_id := new_sensor_data_id env;
          sd_device_id := device_id;
          sd_temperature := t;
          sd_humidity := h;
          sd_firmware_version := Some "unknown";
          sd_timestamp := utcnow_receipt env;
          sd_created_at := utcnow_insert env |}].
Proof.
  intros Ht Hh Hts.
  unfold receive_sensor_data, receive_sensor_data_body.
  rewrite first_missing_reading.
  replace (getitem (reading_body device_id (JFloat t) (JFloat h) ts) "temperature")
    with (Ok (JFloat t)) by (destruct ts; reflexivity).
  replace (getitem (reading_body device_id (JFloat t) (JFloat h) ts) "humidity")
    with (Ok (JFloat h)) by (destruct ts; reflexivity).
  cbn. rewrite Ht, Hh. cbn. unfold store_reading, parse_timestamp.
  destruct Hts as [-> | (s & -> & Hs)].
  - eexists _, _. repeat split.
  - replace (reading_body device_id (JFloat t) (JFloat h) (Some (JStr s))
             !! "timestamp") with (Some (JStr s)) by reflexivity.
    cbn. rewrite Hs. eexists _, _. repeat split.
Qed.

(** C5 fails on the code.  A timestamp that is a JSON number (seconds since
    the epoch, say) is not parseable as ISO-8601, yet the reading is not
    accepted: [data['timestamp'].replace] raises [AttributeError] on a value
    that is not a string, the [except ValueError] around the parse does not
    catch it, and the outer handler answers 500 without storing the
    reading. *)
Theorem receive_numeric_timestamp_answers_500 env db device_id t h n :
  temperature_in_range t = true -> humidity_in_range h = true ->
  receive_sensor_data env
    (reading_body device_id (JFloat t) (JFloat h) (Some (JInt n))) db
  = (error_response 500 "Internal server error", db).
Proof.
  intros Ht Hh. unfold receive_sensor_data, receive_sensor_data_body.
  rewrite first_missing_reading.
  replace (getitem _ "temperature") with (Ok (JFloat t)) by reflexivity.
  replace (getitem _ "humidity") with (Ok (JFloat h)) by reflexivity.
  cbn. rewrite Ht, Hh. reflexivity.
Qed.

(** C6. An accepted reading (answered 201) names a device.  If the registry
    has a row for it, the row after the request differs from the row before
    only in [last_seen], [last_ip] and [current_firmware]: [auto_update],
    [registered_at], [hardware_version] and the keys are as before.  If it
    has none, a row is created with [registered_at] the time of creation and
    [auto_update = true].  The rows of other devices are untouched. *)
Theorem ingest_upsert_preserves_identity env data db r db' :
  receive_sensor_data env data db = (r, db') ->
  status_code r = 201 ->
  exists device_id fw row,
    (v ← getitem data "device_id"; not_null (varchar v)) = Ok device_id /\
    varchar (default (JStr "unknown") (data !! "firmware_version")) = Ok fw /\
    device_registry db' !! device_id = Some row /\
    dev_last_seen row = Some (utcnow_seen env) /\
    dev_last_ip row = Some (remote_addr env) /\
    dev_current_firmware row = fw /\
    (forall old, device_registry db !! device_id = Some old ->
       dev_auto_update row = dev_auto_update old /\
       dev_registered_at row = dev_registered_at old /\
       dev_hardware_version row = dev_hardware_version old /\
       dev_id row = dev_id old /\
       dev_device_id row = dev_device_id old) /\
    (device_registry db !! device_id = None ->
       dev_registered_at row = utcnow_insert env /\
       dev_auto_update row = true /\
       dev_device_id row = device_id) /\
    (forall other, other <> device_id ->
       device_registry db' !! other = device_registry db !! other).
Proof.
  intros Hrun Hcode.
  destruct (receive_sensor_data_cases env data db)
    as [(t & h & _ & _ & _ & _ & Hbody) | (code & message & Hc & Herr)].
  - unfold receive_sensor_data in Hrun. rewrite Hbody in Hrun.
    destruct (store_reading env data t h db) as [[r0 db0]|e] eqn:Hstore.
    + injection Hrun as -> ->.
      destruct (store_reading_Ok _ _ _ _ _ _ _ Hstore)
        as (ts & device_id & fw & _ & Hid & Hfw & _ & _ & Hreg & _).
      exists device_id, fw,
        (touch env device_id fw (device_registry db !! device_id)).
      rewrite Hreg. split; [easy|]. split; [easy|].
      split; [apply lookup_insert_eq|].
      destruct (device_registry db !! device_id) as [old|] eqn:Hold; cbn.
      * do 3 (split; [reflexivity|]).
        split; [intros old' [= <-]; now repeat split|].
        split; [intros [=]|].
        intros other Hne. now apply lookup_insert_ne.
      * do 3 (split; [reflexivity|]).
        split; [intros old' [=]|].
        split; [intros _; now repeat split|].
        intros other Hne. now apply lookup_insert_ne.
    + injection Hrun as <- _. cbn in Hcode. discriminate.
  - rewrite Herr in Hrun. injection Hrun as <- _. cbn in Hcode.
    destruct Hc; subst; discriminate.
Qed.

End Intake.

(** ** Firmware upload (C3) *)

Section Upload.

Context `{Platform} `{Interpreter}.

Implicit Types (env : UploadEnv) (req : UploadRequest) (db : Server).

Lemma find_version_Some version rows :
  (exists f, f ∈ rows /\ fw_version f = version) ->
  exists existing, find_version version rows = Some existing.
Proof.
  intros (f & Hf & Hv). unfold find_version.
  destruct (filter (fun r => fw_version r = version) rows) as [|g l] eqn:E.
  - assert (Hin : f ∈ filter (fun r => fw_version r = version) rows)
      by now apply list_elem_of_filter.
    rewrite E in Hin. now apply elem_of_nil in Hin.
  - now exists g.
Qed.

Lemma find_version_None version rows :
  find_version version rows = None ->
  filter (fun r => fw_version r = version) rows = [].
Proof. unfold find_version. now rewrite head_None. Qed.

(** An upload for a version the catalog already has is answered 400 and
    changes nothing; when it carries a named file, the answer is the
    conflict. *)
Lemma upload_existing_version env req db version :
  form_version req = Some version ->
  (exists f, f ∈ firmware_versions db /\ fw_version f = version) ->
  (exists message,
      upload_firmware env req db = (error_response 400 message, db)) /\
  (forall file, files_file req = Some file -> filename file <> "" ->
                version <> "" ->
                upload_firmware env req db
                = (error_response 400 "Version already exists", db)).
Proof.
  intros Hv Hex. destruct (find_version_Some _ _ Hex) as (existing & Hfind).
  unfold upload_firmware. rewrite Hv.
  destruct (files_file req) as [file|]; [|split; [eauto | easy]].
  destruct (bool_decide (filename file = "")) eqn:Hname.
  { split; [eauto|]. intros file' [= <-] Hne.
    apply bool_decide_eq_true in Hname. now destruct Hne. }
  destruct (falsy (Some version)) eqn:Hfalsy.
  { split; [eauto|]. intros _ _ _ Hne. cbn in Hfalsy.
    apply bool_decide_eq_true in Hfalsy. now destruct Hne. }
  cbn [default from_option id]. rewrite Hfind. split; [eauto | easy].
Qed.

(** What a successful upload leaves behind. *)
Lemma upload_success env req db r db1 :
  upload_firmware env req db = (r, db1) -> status_code r = 201 ->
  exists version file release,
    form_version req = Some version /\ files_file req = Some file /\
    filter (fun f => fw_version f = version) (firmware_versions db) = [] /\
    firmware_versions db1 = firmware_versions db ++ [release] /\
    fw_version release = version /\
    fw_checksum release = Some (sha256_hexdigest (stream file)) /\
    upload_folder db1
    = <[upload_path (fw_filename release) := stream file]> (upload_folder db) /\
    sensor_data db1 = sensor_data db /\
    device_registry db1 = device_registry db.
Proof.
  unfold upload_firmware.
  destruct (files_file req) as [file|]; [|now intros [= <- <-]].
  destruct (bool_decide (filename file = "")); [now intros [= <- <-]|].
  destruct (form_version req) as [version|]; [|now intros [= <- <-]].
  destruct (falsy (Some version)); [now intros [= <- <-]|].
  cbn [default from_option id].
  destruct (find_version version (firmware_versions db)) eqn:Hfind;
    [now intros [= <- <-]|].
  intros [= <- <-] _. apply find_version_None in Hfind.
  eexists version, file, _. cbn.
  repeat split; try reflexivity; try assumption.
  unfold calculate_file_hash. now rewrite lookup_insert_eq.
Qed.

Lemma upload_all_rejected version reqs db :
  (exists f, f ∈ firmware_versions db /\ fw_version f = version) ->
  Forall (fun er => form_version er.2 = Some version) reqs ->
  upload_all reqs db = db.
Proof.
  intros Hex Hall. induction Hall as [|[env req] reqs Hv _ IH]; [reflexivity|].
  cbn. destruct (upload_existing_version env req db version Hv Hex)
    as ((message & ->) & _).
  cbn. exact IH.
Qed.

(** C3. After a successful upload of version [v], every further upload for
    [v] is answered 400 (with the conflict message when it carries a named
    file) and leaves the state as it was, so after any number of such
    attempts the catalog has exactly one release for [v], with the checksum
    of the bytes first uploaded, and the stored file still holds these
    bytes. *)
Theorem upload_is_not_overwritable env req db r db1 reqs :
  upload_firmware env req db = (r, db1) -> status_code r = 201 ->
  exists v file release,
    form_version req = Some v /\ files_file req = Some file /\
    (forall env' req',
        form_version req' = Some v ->
        (exists message,
            upload_firmware env' req' db1 = (error_response 400 message, db1)) /\
        (forall file', files_file req' = Some file' -> filename file' <> "" ->
           upload_firmware env' req' db1
           = (error_response 400 "Version already exists", db1))) /\
    (Forall (fun er => form_version er.2 = Some v) reqs ->
     let db2 := upload_all reqs db1 in
     db2 = db1 /\
     filter (fun f => fw_version f = v) (firmware_versions db2) = [release] /\
     fw_checksum release = Some (sha256_hexdigest (stream file)) /\
     upload_folder db2 !! upload_path (fw_filename release)
     = Some (stream file)).
Proof.
  intros Hrun Hcode.
  assert (Hv_ne : forall v, form_version req = Some v -> v <> "").
  { intros v Hv ->. revert Hrun. unfold upload_firmware. rewrite Hv.
    destruct (files_file req); [|intros [= <- _]; discriminate].
    destruct (bool_decide _); intros [= <- _]; discriminate. }
  destruct (upload_success env req db r db1 Hrun Hcode)
    as (v & file & release & Hv & Hfile & Hnew & Hcat & Hrv & Hsum & Hdir & _).
  assert (Hex : exists f, f ∈ firmware_versions db1 /\ fw_version f = v).
  { exists release. split; [|easy]. rewrite Hcat. set_solver. }
  exists v, file, release. split; [easy|]. split; [easy|]. split.
  - intros env' req' Hv'.
    destruct (upload_existing_version env' req' db1 v Hv' Hex) as [Hany Hconf].
    split; [easy|]. intros file' Hf' Hn'. apply (Hconf file'); auto.
  - intros Hall db2. subst db2.
    rewrite (upload_all_rejected v reqs db1 Hex Hall).
    split; [reflexivity|]. split.
    + rewrite Hcat, filter_app, Hnew.
      rewrite filter_cons_True by easy. reflexivity.
    + split; [easy|]. rewrite Hdir. apply lookup_insert_eq.
Qed.

End Upload.

(** ** Online/offline derivation (C7) *)

Section Status.

Context `{Dashboard.Host}.

(** No last update, an empty one, and one that does not parse are
    offline. *)
Lemma get_device_status_without_update now :
  Dashboard.get_device_status None now = false /\
  Dashboard.get_device_status (Some "") now = false.
Proof. split; reflexivity. Qed.

Lemma get_device_status_unparsed last_update now :
  Dashboard.fromisoformat (Str.replace "Z" "+00:00" last_update) = None ->
  Dashboard.fromisoformat last_update = None ->
  Dashboard.get_device_status (Some last_update) now = false.
Proof.
  intros Hz Hp. unfold Dashboard.get_device_status, Dashboard.time_diff.
  destruct (falsy (Some last_update)); [reflexivity|].
  cbn [default from_option id].
  destruct (Str.contains "Z" last_update); [rewrite Hz | rewrite Hp];
    reflexivity.
Qed.

(** The status is decided by [time_diff] alone. *)
Lemma get_device_status_time_diff last_update now d :
  last_update <> "" ->
  Dashboard.time_diff last_update now = Some d ->
  Dashboard.get_device_status (Some last_update) now
  = Float64.is_finite d && negb (Float64.gt_int d 180).
Proof.
  intros Hne Hd. unfold Dashboard.get_device_status.
  rewrite falsy_Some by easy. cbn [default from_option id]. rewrite Hd.
  unfold Dashboard.ONLINE_TIMEOUT_SECONDS.
  destruct (Float64.is_finite d); [|reflexivity].
  now destruct (Float64.gt_int d 180).
Qed.

End Status.

(** On a machine that keeps UTC, at whole seconds: 179 and 180 seconds after
    the last update, and 180 seconds before it, the device is online; 181
    seconds after it, offline. *)
Lemma get_device_status_whole_seconds :
  let status := Dashboard.get_device_status (H := Example.utc_host)
                  (Some "2023-11-14T22:13:20Z") in
  status (Example.now + 179 * 1000000) = true /\
  status (Example.now + 180 * 1000000) = true /\
  status (Example.now - 180 * 1000000) = true /\
  status (Example.now + 181 * 1000000) = false.
Proof. now vm_compute. Qed.

(** C7 fails on the code.  [get_latest_data] sends the time of a reading as
    [isoformat] prints the naive UTC value the server keeps, without an
    offset, and [timestamp()] reads such a value as the wall clock of the
    dashboard's machine.  On a machine five hours ahead of UTC a device seen
    ten seconds ago has a [time_diff] of 18010 seconds and is offline, where
    the same string at the same time is online on a machine that keeps UTC:
    the status is no function of the last update and the current time
    alone.  And the seconds are binary64 numbers: a device seen at
    1970-01-01T00:02:04.732948 UTC is, exactly 180 seconds later, offline,
    for the two timestamps differ by 180.00000000000003. *)
Theorem device_seen_ten_seconds_ago_is_offline :
  isoformat (Example.now - 10 * 1000000) = "2023-11-14T22:13:10" /\
  Dashboard.time_diff (H := Example.karachi_host) "2023-11-14T22:13:10"
    Example.now = Some (Float64.of_int 18010) /\
  Dashboard.get_device_status (H := Example.karachi_host)
    (Some "2023-11-14T22:13:10") Example.now = false /\
  Dashboard.get_device_status (H := Example.utc_host)
    (Some "2023-11-14T22:13:10") Example.now = true /\
  Dashboard.fromisoformat (Host := Example.utc_host)
    "1970-01-01T00:02:04.732948+00:00"
  = Some (Dashboard.utc_now Example.early) /\
  Dashboard.time_diff (H := Example.utc_host)
    "1970-01-01T00:02:04.732948+00:00" (Example.early + 180 * 1000000)
  = Some (S754_finite false (180 * 2 ^ 45 + 1) (-45)) /\
  Dashboard.get_device_status (H := Example.utc_host)
    (Some "1970-01-01T00:02:04.732948+00:00") (Example.early + 180 * 1000000)
  = false.
Proof. now vm_compute. Qed.

(** ** Statistics (C8) *)

Section Stats.

Context `{Platform} `{Interpreter}.

Lemma time_range_of_window period :
  time_range_of (default "24h" period) = window_of period.
Proof.
  destruct period as [s|]; [|reflexivity]. cbn [default from_option id].
  unfold time_range_of, window_of.
  destruct (decide (s = "1h")) as [->|H1]; [reflexivity|].
  destruct (decide (s = "24h")) as [->|H2]; [reflexivity|].
  destruct (decide (s = "7d")) as [->|H3]; [reflexivity|].
  destruct (decide (s = "30d")) as [->|H4]; [reflexivity|].
  cbn [list_to_map foldr fst snd].
  rewrite !lookup_insert_ne by congruence. rewrite lookup_empty.
  rewrite !bool_decide_eq_false_2 by easy. reflexivity.
Qed.

Lemma readings_since_window device_id period now rows :
  readings_since device_id (now - time_range_of (default "24h" period)) rows
  = filter (since_window device_id period now) rows.
Proof. rewrite time_range_of_window. reflexivity. Qed.

(** [min] returns an element that no element is below; [max] one that is
    below no element. *)
Lemma foldl_min_spec (l seen : list float) m :
  m ∈ seen -> (forall x, x ∈ seen -> flt x m = false) ->
  let m' := foldl (fun m y => if flt y m then y else m) m l in
  m' ∈ seen ++ l /\ (forall x, x ∈ seen ++ l -> flt x m' = false).
Proof.
  revert seen m. induction l as [|y l IH]; intros seen m Hin Hlow.
  - cbn. rewrite app_nil_r. now split.
  - cbn [foldl].
    destruct (IH (seen ++ [y]) (if flt y m then y else m)) as [Hin' Hlow'].
    + apply elem_of_app. destruct (flt y m); [right; left | now left].
    + intros x Hx. apply elem_of_app in Hx as [Hx | Hx].
      * destruct (flt y m) eqn:Hym; [|now apply Hlow].
        destruct (flt x y) eqn:Hxy; [|reflexivity].
        rewrite <- (Hlow x Hx). symmetry. now apply (flt_trans x y m).
      * apply list_elem_of_singleton in Hx as ->.
        destruct (flt y m) eqn:Hym; [apply flt_irrefl | exact Hym].
    + rewrite <- app_assoc in Hin', Hlow'. now split.
Qed.

Lemma foldl_max_spec (l seen : list float) m :
  m ∈ seen -> (forall x, x ∈ seen -> flt m x = false) ->
  let m' := foldl (fun m y => if flt m y then y else m) m l in
  m' ∈ seen ++ l /\ (forall x, x ∈ seen ++ l -> flt m' x = false).
Proof.
  revert seen m. induction l as [|y l IH]; intros seen m Hin Hhigh.
  - cbn. rewrite app_nil_r. now split.
  - cbn [foldl].
    destruct (IH (seen ++ [y]) (if flt m y then y else m)) as [Hin' Hhigh'].
    + apply elem_of_app. destruct (flt m y); [right; left | now left].
    + intros x Hx. apply elem_of_app in Hx as [Hx | Hx].
      * destruct (flt m y) eqn:Hmy; [|now apply Hhigh].
        destruct (flt y x) eqn:Hyx; [|reflexivity].
        rewrite <- (Hhigh x Hx). symmetry. now apply (flt_trans m y x).
      * apply list_elem_of_singleton in Hx as ->.
        destruct (flt m y) eqn:Hmy; [apply flt_irrefl | exact Hmy].
    + rewrite <- app_assoc in Hin', Hhigh'. now split.
Qed.

Lemma py_min_spec (xs : list float) :
  xs <> [] -> exists lo, py_min xs = Ok lo /\ is_min lo xs.
Proof.
  destruct xs as [|x rest]; [easy|]. intros _. eexists. split; [reflexivity|].
  apply (foldl_min_spec rest [x] x); [set_solver|].
  intros y Hy. apply list_elem_of_singleton in Hy as ->. apply flt_irrefl.
Qed.

Lemma py_max_spec (xs : list float) :
  xs <> [] -> exists hi, py_max xs = Ok hi /\ is_max hi xs.
Proof.
  destruct xs as [|x rest]; [easy|]. intros _. eexists. split; [reflexivity|].
  apply (foldl_max_spec rest [x] x); [set_solver|].
  intros y Hy. apply list_elem_of_singleton in Hy as ->. apply flt_irrefl.
Qed.

Lemma stats_of_spec (xs : list float) :
  xs <> [] ->
  exists lo hi,
    is_min lo xs /\ is_max hi xs /\
    stats_of xs
    = Ok (stats_entry (JFloat lo) (JFloat hi)
            (JFloat (fdiv (fsum xs) (Z.of_nat (length xs))))).
Proof.
  intros Hne. destruct (py_min_spec xs Hne) as (lo & Hlo & Hmin).
  destruct (py_max_spec xs Hne) as (hi & Hhi & Hmax).
  exists lo, hi. split; [easy|]. split; [easy|].
  unfold stats_of. rewrite Hlo. cbn. rewrite Hhi. reflexivity.
Qed.

(** C8, as the code has it.  A stats query that names a device takes the
    readings of the device stamped at or after the start of the window of
    the period (1h, 24h, 7d or 30d; 24h when the period is anything else or
    absent) that ends at the current server time; there is no upper bound on
    the stamp.  When there are none the query succeeds with a count of 0 and
    min, max and avg 0 for temperature and humidity.  When there are some it
    answers their number and, for each quantity, a least and a greatest of
    their values and the quotient of their sum by their number. *)
Theorem stats_over_readings_since_window_start
    (device_id : string) (period : option string) (now : datetime) (db : Server) :
  device_id <> "" ->
  let data := filter (since_window device_id period now) (sensor_data db) in
  let temperatures := sd_temperature <$> data in
  let humidities := sd_humidity <$> data in
  let count := Z.of_nat (length data) in
  let r := get_sensor_stats (Some device_id) period now db in
  status_code r = 200 /\
  (data = [] ->
   body r !! "stats"
   = Some (stats_body (stats_entry (JInt 0) (JInt 0) (JInt 0))
             (stats_entry (JInt 0) (JInt 0) (JInt 0)) 0)) /\
  (data <> [] ->
   exists tmin tmax hmin hmax,
     is_min tmin temperatures /\ is_max tmax temperatures /\
     is_min hmin humidities /\ is_max hmax humidities /\
     body r !! "stats"
     = Some (stats_body
               (stats_entry (JFloat tmin) (JFloat tmax)
                  (JFloat (fdiv (fsum temperatures) count)))
               (stats_entry (JFloat hmin) (JFloat hmax)
                  (JFloat (fdiv (fsum humidities) count)))
               count)).
Proof.
  intros Hne. cbv zeta.
  unfold get_sensor_stats, get_sensor_stats_body.
  rewrite falsy_Some by easy. cbn [default from_option id].
  rewrite readings_since_window.
  destruct (filter (since_window device_id period now) (sensor_data db))
    as [|d rest]; [now repeat split|].
  set (data := d :: rest).
  destruct (stats_of_spec (sd_temperature <$> data))
    as (tmin & tmax & Htmin & Htmax & Hts); [easy|].
  destruct (stats_of_spec (sd_humidity <$> data))
    as (hmin & hmax & Hhmin & Hhmax & Hhs); [easy|].
  rewrite length_fmap in Hts, Hhs.
  rewrite Hts. cbn [mbind result_bind]. rewrite Hhs. cbn [mbind result_bind].
  split; [reflexivity|]. split; [easy|]. intros _.
  exists tmin, tmax, hmin, hmax.
  split; [exact Htmin|]. split; [exact Htmax|].
  split; [exact Hhmin|]. split; [exact Hhmax|]. reflexivity.
Qed.

End Stats.

(** ** The properties at concrete inputs *)

Section Examples.

Import Example.

Lemma check_reports_latest_stable_release_witness :
  "ESP32_001" <> "" /\ "1.5.0" <> "" /\
  exists L,
    L ∈ firmware_versions db_2_0_0 /\
    (body (check_firmware_update (Some "ESP32_001") (Some "1.5.0")
             host_url db_2_0_0) !! "update_available" = Some (JBool true) <->
     version_compare (fw_version L) "1.5.0" = Ok GREATER).
Proof.
  split; [discriminate|]. split; [discriminate|].
  destruct (check_reports_latest_stable_release
              "ESP32_001" "1.5.0" host_url db_2_0_0) as [_ Hsome];
    [discriminate | discriminate |].
  destruct Hsome as (L & HL & _ & _ & Hiff & _).
  - exists (stable_release "2.0.0" now). split; [left | reflexivity].
  - exists L. split; [exact HL | exact Hiff].
Defined.

Lemma check_ignores_device_registry_witness :
  firmware_versions (db_registered false) = firmware_versions (db_registered true) /\
  check_firmware_update (Some "ESP32_001") (Some "1.5.0") host_url
    (db_registered false)
  = check_firmware_update (Some "ESP32_001") (Some "1.5.0") host_url
      (db_registered true) /\
  check_firmware_update (Some "ESP32_001") (Some "1.5.0") host_url db_2_0_0
  = check_firmware_update (Some "ESP32_001") (Some "1.5.0") host_url
      (db_registered true).
Proof.
  split; [reflexivity|]. split.
  - apply check_ignores_device_registry. reflexivity.
  - apply check_ignores_device_registry. reflexivity.
Defined.

Lemma upload_is_not_overwritable_witness :
  let first := upload_firmware upload_env (upload "1.0.0" [Byte.x01; Byte.x02])
                 empty_server in
  let again := [(upload_env, upload "1.0.0" [Byte.xff]);
                (upload_env, upload "1.0.0" [])] in
  upload_firmware upload_env (upload "1.0.0" [Byte.x01; Byte.x02]) empty_server
  = (first.1, first.2) /\
  status_code first.1 = 201 /\
  upload_all again first.2 = first.2 /\
  exists release,
    filter (fun f => fw_version f = "1.0.0")
      (firmware_versions (upload_all again first.2)) = [release] /\
    fw_checksum release = Some "0102" /\
    upload_folder (upload_all again first.2) !! "firmware/firmware_v1.0.0.bin"
    = Some [Byte.x01; Byte.x02].
Proof.
  intros first again.
  split; [reflexivity|]. split; [reflexivity|].
  destruct (upload_is_not_overwritable upload_env
              (upload "1.0.0" [Byte.x01; Byte.x02]) empty_server
              first.1 first.2 again eq_refl eq_refl)
    as (v & file & release & Hv & Hfile & _ & Hseq).
  injection Hv as <-. injection Hfile as <-.
  destruct Hseq as (Hsame & Hone & Hsum & Hbytes).
  { repeat constructor. }
  split; [exact Hsame|]. exists release.
  split; [exact Hone|]. split; [exact Hsum|].
  rewrite Hsame. reflexivity.
Defined.

Lemma receive_numeric_timestamp_answers_500_witness :
  temperature_in_range (H := Ref.platform) (47 # 2)%Q = true /\
  humidity_in_range (H := Ref.platform) 41%Q = true /\
  receive_sensor_data ingest_env (reading (Some (JInt 1700000000))) empty_server
  = (error_response 500 "Internal server error", empty_server).
Proof.
  split; [reflexivity|]. split; [reflexivity|].
  apply (receive_numeric_timestamp_answers_500 (H := Ref.platform) ingest_env
           empty_server "ESP32_001" (47 # 2)%Q 41%Q 1700000000); reflexivity.
Defined.

Lemma ingest_upsert_preserves_identity_witness :
  let run := receive_sensor_data ingest_env (reading None) (db_registered false) in
  receive_sensor_data ingest_env (reading None) (db_registered false)
  = (run.1, run.2) /\
  status_code run.1 = 201 /\
  exists row,
    device_registry run.2 !! "ESP32_001" = Some row /\
    dev_auto_update row = false /\ dev_registered_at row = 0 /\
    dev_last_seen row = Some (now + 1500).
Proof.
  intros run. split; [reflexivity|]. split; [reflexivity|].
  destruct (ingest_upsert_preserves_identity ingest_env (reading None)
              (db_registered false) run.1 run.2 eq_refl eq_refl)
    as (device_id & fw & row & Hid & _ & Hrow & Hseen & _ & _ & Hold & _).
  injection Hid as <-.
  destruct (Hold (device_row "ESP32_001" false) eq_refl) as (Hauto & Hreg & _).
  exists row. split; [exact Hrow|]. split; [exact Hauto|].
  split; [exact Hreg | exact Hseen].
Defined.


Lemma stats_over_readings_since_window_start_witness :
  "ESP32_001" <> "" /\
  status_code (get_sensor_stats (Some "ESP32_001") (Some "24h") now
                 db_future_reading) = 200 /\
  status_code (get_sensor_stats (Some "ESP32_001") None now empty_server) = 200.
Proof.
  split; [discriminate|]. split.
  - apply (stats_over_readings_since_window_start "ESP32_001" (Some "24h") now
             db_future_reading). discriminate.
  - apply (stats_over_readings_since_window_start "ESP32_001" None now
             empty_server). discriminate.
Defined.

(** C8 as stated fails: the only reading of the device is stamped one hour
    after the current server time, so no reading falls inside the window
    that ends now, yet the query counts it. *)
Lemma stats_counts_reading_stamped_after_now :
  (forall d, d ∈ sensor_data db_future_reading ->
             ~ in_window "ESP32_001" (Some "24h") now d) /\
  body (get_sensor_stats (Some "ESP32_001") (Some "24h") now db_future_reading)
    !! "stats"
  = Some (stats_body (stats_entry (JFloat 20%Q) (JFloat 20%Q) (JFloat 20%Q))
            (stats_entry (JFloat 40%Q) (JFloat 40%Q) (JFloat 40%Q)) 1) /\
  ~ ((forall d, d ∈ sensor_data db_future_reading ->
                ~ in_window "ESP32_001" (Some "24h") now d) ->
     body (get_sensor_stats (Some "ESP32_001") (Some "24h") now
             db_future_reading) !! "stats"
     = Some (stats_body (stats_entry (JInt 0) (JInt 0) (JInt 0))
               (stats_entry (JInt 0) (JInt 0) (JInt 0)) 0)).
Proof.
  assert (Hout : forall d, d ∈ sensor_data db_future_reading ->
                           ~ in_window "ESP32_001" (Some "24h") now d).
  { intros d Hd (_ & _ & Hle).
    apply list_elem_of_singleton in Hd. subst d. cbn in Hle. unfold now in Hle.
    lia. }
  split; [exact Hout|]. split; [reflexivity|].
  intros Hzero. specialize (Hzero Hout). discriminate Hzero.
Qed.

End Examples.

(** * Further properties *)

(** ** The firmware catalog: upload, download, listing, negotiation *)

Section Catalog.

Context `{Platform} `{Interpreter}.

Implicit Types (env : UploadEnv) (req : UploadRequest) (db : Server).

(** The state a successful upload leaves. *)
Lemma upload_201 env req db r db1 :
  upload_firmware env req db = (r, db1) -> status_code r = 201 ->
  exists v file,
    form_version req = Some v /\ v <> "" /\ files_file req = Some file /\
    find_version v (firmware_versions db) = None /\
    db1 = {| sensor_data := sensor_data db;
             firmware_versions :=
               firmware_versions db ++ [new_release env req v file];
             device_registry := device_registry db;
             upload_folder :=
               <[upload_path (firmware_file_name v) := stream file]>
                 (upload_folder db) |}.
Proof.
  unfold upload_firmware.
  destruct (files_file req) as [file|]; [|now intros [= <- <-]].
  destruct (bool_decide (filename file = "")); [now intros [= <- <-]|].
  destruct (form_version req) as [v|]; [|now intros [= <- <-]].
  destruct (falsy (Some v)) eqn:Hfalsy; [now intros [= <- <-]|].
  cbn [default from_option id].
  destruct (find_version v (firmware_versions db)) eqn:Hfind;
    [now intros [= <- <-]|].
  intros [= <- <-] _. exists v, file.
  split; [reflexivity|]. split.
  { intros ->. cbn in Hfalsy. discriminate. }
  split; [reflexivity|]. split; [exact Hfind|].
  unfold new_release, firmware_file_name, wants_stable, calculate_file_hash.
  now rewrite lookup_insert_eq.
Qed.

(** Every other answer of the upload leaves the state as it was. *)
Lemma upload_not_201_unchanged env req db :
  status_code (upload_firmware env req db).1 <> 201 ->
  (upload_firmware env req db).2 = db.
Proof.
  unfold upload_firmware.
  destruct (files_file req) as [file|]; [|reflexivity].
  destruct (bool_decide (filename file = "")); [reflexivity|].
  destruct (falsy (form_version req)); [reflexivity|].
  destruct (find_version _ _); [reflexivity|].
  cbn. intros Hne. now destruct Hne.
Qed.

Lemma find_version_snoc_new v rows release :
  find_version v rows = None -> fw_version release = v ->
  find_version v (rows ++ [release]) = Some release.
Proof.
  intros Hnone Hv. apply find_version_None in Hnone.
  unfold find_version. rewrite filter_app, Hnone.
  now rewrite filter_cons_True by easy.
Qed.

Lemma find_version_elem v rows f :
  find_version v rows = Some f -> f ∈ rows /\ fw_version f = v.
Proof.
  unfold find_version. intros Hhd.
  assert (Hin : f ∈ filter (fun r => fw_version r = v) rows).
  { destruct (filter _ rows) as [|g l]; [discriminate|].
    injection Hhd as ->. left. }
  apply list_elem_of_filter in Hin. tauto.
Qed.

(** X1. What was uploaded can be downloaded: after a successful upload,
    the download of the uploaded version is answered with the uploaded
    bytes, under the stored file name. *)
Theorem download_after_upload env req db r db1 :
  upload_firmware env req db = (r, db1) -> status_code r = 201 ->
  exists v file,
    form_version req = Some v /\ files_file req = Some file /\
    download_firmware v db1
    = Attachment (firmware_file_name v) (stream file).
Proof.
  intros Hrun Hcode.
  destruct (upload_201 env req db r db1 Hrun Hcode)
    as (v & file & Hv & _ & Hfile & Hnone & ->).
  exists v, file. split; [easy|]. split; [easy|].
  unfold download_firmware. cbn [firmware_versions upload_folder].
  rewrite (find_version_snoc_new v _ (new_release env req v file)) by easy.
  cbn [fw_filename new_release]. now rewrite lookup_insert_eq.
Qed.

(** X2. A download serves only what the catalog and the folder hold: it is
    answered with a file exactly when the catalog has a release of that
    version whose file exists, the content served is the content of that
    file, and otherwise the answer is 404. *)
Theorem download_serves_catalogued_files (version : string) db :
  (forall name content,
      download_firmware version db = Attachment name content ->
      exists f, f ∈ firmware_versions db /\ fw_version f = version /\
                name = fw_filename f /\
                upload_folder db !! upload_path name = Some content) /\
  (forall r, download_firmware version db = NotSent r -> status_code r = 404) /\
  ((forall f, f ∈ firmware_versions db -> fw_version f <> version) ->
   download_firmware version db
   = NotSent (error_response 404 "Firmware version not found")).
Proof.
  unfold download_firmware. split; [|split].
  - intros name content.
    destruct (find_version version (firmware_versions db)) as [f|] eqn:Hfind;
      [|discriminate].
    destruct (upload_folder db !! upload_path (fw_filename f)) as [c|] eqn:Hc;
      [|discriminate].
    intros [= <- <-]. destruct (find_version_elem _ _ _ Hfind) as [Hin Hv].
    now exists f.
  - intros r. destruct (find_version _ _) as [f|]; [|now intros [= <-]].
    destruct (_ !! _); [discriminate | now intros [= <-]].
  - intros Hnone.
    destruct (find_version version (firmware_versions db)) as [f|] eqn:Hfind;
      [|reflexivity].
    destruct (find_version_elem _ _ _ Hfind) as [Hin Hv].
    now destruct (Hnone f Hin).
Qed.

Lemma upload_path_inj a b : upload_path a = upload_path b -> a = b.
Proof. unfold upload_path, UPLOAD_FOLDER. cbn. intros [= Heq]. exact Heq. Qed.

(** X3. Two versions whose stored file names coincide share one file: when
    a second version is uploaded under the file name of an earlier one, the
    download of the earlier version is answered with the bytes of the second
    upload, while the catalog still gives the earlier version the checksum of
    its own bytes. *)
Theorem colliding_upload_overwrites_binary
    env1 env2 req1 req2 db r1 db1 r2 db2 v1 v2 file1 file2 :
  upload_firmware env1 req1 db = (r1, db1) -> status_code r1 = 201 ->
  upload_firmware env2 req2 db1 = (r2, db2) -> status_code r2 = 201 ->
  form_version req1 = Some v1 -> files_file req1 = Some file1 ->
  form_version req2 = Some v2 -> files_file req2 = Some file2 ->
  firmware_file_name v1 = firmware_file_name v2 ->
  download_firmware v1 db2 = Attachment (firmware_file_name v1) (stream file2) /\
  exists f, find_version v1 (firmware_versions db2) = Some f /\
            fw_checksum f = Some (sha256_hexdigest (stream file1)).
Proof.
  intros Hrun1 Hc1 Hrun2 Hc2 Hv1 Hf1 Hv2 Hf2 Hname.
  destruct (upload_201 _ _ _ _ _ Hrun1 Hc1)
    as (v1' & file1' & Hv1' & _ & Hf1' & Hnone1 & ->).
  destruct (upload_201 _ _ _ _ _ Hrun2 Hc2)
    as (v2' & file2' & Hv2' & _ & Hf2' & Hnone2 & ->).
  rewrite Hv1 in Hv1'. injection Hv1' as <-.
  rewrite Hf1 in Hf1'. injection Hf1' as <-.
  rewrite Hv2 in Hv2'. injection Hv2' as <-.
  rewrite Hf2 in Hf2'. injection Hf2' as <-.
  cbn [firmware_versions upload_folder] in *.
  assert (Hfind : find_version v1
                    ((firmware_versions db ++ [new_release env1 req1 v1 file1])
                     ++ [new_release env2 req2 v2 file2])
                  = Some (new_release env1 req1 v1 file1)).
  { apply find_version_None in Hnone1.
    unfold find_version. rewrite !filter_app, Hnone1.
    now rewrite filter_cons_True by easy. }
  split.
  - unfold download_firmware. cbn [firmware_versions upload_folder].
    rewrite Hfind. cbn [fw_filename new_release].
    now rewrite Hname, lookup_insert_eq.
  - exists (new_release env1 req1 v1 file1). now split.
Qed.

(** X4. As long as no upload takes the file name of a release already in
    the catalog, every release keeps its file and the checksum of each
    release is the digest of its file: the property is kept by every
    upload request, accepted or not. *)
Theorem upload_keeps_files_intact env req db :
  stored_intact db ->
  (forall v f, form_version req = Some v -> f ∈ firmware_versions db ->
               fw_filename f <> firmware_file_name v) ->
  stored_intact (upload_firmware env req db).2.
Proof.
  intros Hintact Hfresh.
  destruct (upload_firmware env req db) as [r db1] eqn:Hrun.
  destruct (decide (status_code r = 201)) as [Hcode | Hcode].
  - destruct (upload_201 _ _ _ _ _ Hrun Hcode)
      as (v & file & Hv & _ & _ & _ & ->).
    intros f Hf. cbn [fst snd firmware_versions upload_folder] in *.
    apply elem_of_app in Hf as [Hf | Hf].
    + destruct (Hintact f Hf) as (content & Hfile & Hsum).
      exists content. split; [|easy].
      rewrite lookup_insert_ne; [easy|].
      intros Heq. apply upload_path_inj in Heq.
      now apply (Hfresh v f Hv Hf).
    + apply list_elem_of_singleton in Hf as ->.
      exists (stream file). split; [apply lookup_insert_eq | reflexivity].
  - pose proof (upload_not_201_unchanged env req db) as Hsame.
    rewrite Hrun in Hsame. cbn in Hsame |- *. now rewrite Hsame.
Qed.

(** X5. The catalog never holds two releases of one version: if the
    versions of the catalog are pairwise distinct before an upload request,
    they are after it. *)
Theorem upload_keeps_versions_unique env req db :
  NoDup (fw_version <$> firmware_versions db) ->
  NoDup (fw_version <$> firmware_versions (upload_firmware env req db).2).
Proof.
  intros Hnodup.
  destruct (upload_firmware env req db) as [r db1] eqn:Hrun.
  destruct (decide (status_code r = 201)) as [Hcode | Hcode].
  - destruct (upload_201 _ _ _ _ _ Hrun Hcode)
      as (v & file & _ & _ & _ & Hnone & ->).
    cbn [snd firmware_versions]. rewrite fmap_app. apply NoDup_app.
    split; [easy|]. split; [|apply NoDup_singleton].
    intros version Hold Hnew. cbn in Hnew.
    apply list_elem_of_singleton in Hnew. subst version.
    apply list_elem_of_fmap in Hold as (f & Hfv & Hf).
    apply find_version_None in Hnone.
    assert (Hin : f ∈ filter (fun r => fw_version r = v) (firmware_versions db))
      by now apply list_elem_of_filter.
    rewrite Hnone in Hin. now apply elem_of_nil in Hin.
  - pose proof (upload_not_201_unchanged env req db) as Hsame.
    rewrite Hrun in Hsame. cbn in Hsame |- *. now rewrite Hsame.
Qed.

#[local] Instance release_date_desc_transitive : Transitive release_date_desc.
Proof. intros x y z. unfold release_date_desc. lia. Qed.

#[local] Instance release_date_desc_is_total : Total release_date_desc.
Proof. intros x y. unfold release_date_desc. lia. Qed.

(** X6. The firmware listing holds every release of the catalog exactly
    once, newest release date first, and its count is the number of
    releases. *)
Theorem firmware_list_is_catalog_newest_first db :
  exists versions,
    body (list_firmware_versions db) !! "versions"
    = Some (JArr (FirmwareVersion_to_dict <$> versions)) /\
    body (list_firmware_versions db) !! "count"
    = Some (JInt (Z.of_nat (length (firmware_versions db)))) /\
    versions ≡ₚ firmware_versions db /\
    StronglySorted release_date_desc versions /\
    status_code (list_firmware_versions db) = 200.
Proof.
  exists (merge_sort release_date_desc (firmware_versions db)).
  split; [reflexivity|]. split.
  - unfold list_firmware_versions.
    rewrite <- (Permutation_length
                  (merge_sort_Permutation release_date_desc (firmware_versions db))).
    reflexivity.
  - split; [apply merge_sort_Permutation|].
    split; [apply StronglySorted_merge_sort; apply _ | reflexivity].
Qed.

(** After a successful upload of a stable release that is more recent than
    every stable release of the catalog, the negotiation is about that
    release. *)
Lemma latest_stable_after_upload env req db v file :
  wants_stable req = true ->
  (forall f, f ∈ firmware_versions db -> fw_is_stable f = true ->
             fw_release_date f < utcnow_release env) ->
  latest_stable (firmware_versions db ++ [new_release env req v file])
  = Some (new_release env req v file).
Proof.
  intros Hstable Hnewer.
  destruct (latest_stable (firmware_versions db ++ [new_release env req v file]))
    as [L|] eqn:HL.
  - destruct (latest_stable_Some _ _ HL) as (HLin & HLs & HLmax).
    apply elem_of_app in HLin as [HLin | HLin].
    + specialize (Hnewer L HLin HLs).
      assert (Hle : fw_release_date (new_release env req v file)
                    <= fw_release_date L).
      { apply HLmax; [set_solver | exact Hstable]. }
      cbn in Hle. lia.
    + apply list_elem_of_singleton in HLin. now subst L.
  - rewrite latest_stable_None in HL.
    assert (Hs : fw_is_stable (new_release env req v file) = false)
      by (apply HL; set_solver).
    cbn in Hs. congruence.
Qed.

(** X7. From upload to negotiation: after a successful upload of a stable
    release more recent than every stable release of the catalog, a check
    reports an update exactly when the uploaded version is GREATER than the
    device's, and it then advertises the uploaded version, the digest of the
    uploaded bytes as checksum, and the download URL of that version. *)
Theorem check_after_stable_upload
    env req db r db1 (device_id current_version host_url : string) :
  upload_firmware env req db = (r, db1) -> status_code r = 201 ->
  wants_stable req = true ->
  (forall f, f ∈ firmware_versions db -> fw_is_stable f = true ->
             fw_release_date f < utcnow_release env) ->
  device_id <> "" -> current_version <> "" ->
  exists v file,
    form_version req = Some v /\ files_file req = Some file /\
    let c := check_firmware_update (Some device_id) (Some current_version)
               host_url db1 in
    (body c !! "update_available" = Some (JBool true) <->
     version_compare v current_version = Ok GREATER) /\
    (version_compare v current_version = Ok GREATER ->
     body c !! "new_version" = Some (JStr v) /\
     body c !! "checksum" = Some (JStr (sha256_hexdigest (stream file))) /\
     body c !! "firmware_url"
     = Some (JStr (host_url +:+ "api/v1/firmware/download/" +:+ v))).
Proof.
  intros Hrun Hcode Hstable Hnewer Hd Hc.
  destruct (upload_201 _ _ _ _ _ Hrun Hcode)
    as (v & file & Hv & _ & Hfile & _ & ->).
  exists v, file. split; [easy|]. split; [easy|].
  pose proof (latest_stable_after_upload env req db v file Hstable Hnewer) as HL.
  destruct (check_with_latest device_id current_version host_url
              {| sensor_data := sensor_data db;
                 firmware_versions :=
                   firmware_versions db ++ [new_release env req v file];
                 device_registry := device_registry db;
                 upload_folder :=
                   <[upload_path (firmware_file_name v) := stream file]>
                     (upload_folder db) |}
              (new_release env req v file) Hd Hc HL) as (Hiff & Hadv & _).
  cbn [fw_version new_release] in Hiff.
  split; [exact Hiff|]. intros Hgt.
  destruct (Hadv (proj2 Hiff Hgt)) as (_ & Hnew & _ & _ & Hsum & Hurl).
  repeat split; assumption.
Qed.

Lemma latest_stable_snoc_unstable rows f :
  fw_is_stable f = false -> latest_stable (rows ++ [f]) = latest_stable rows.
Proof.
  intros Hf. unfold latest_stable.
  rewrite filter_app, filter_cons_False, filter_nil, app_nil_r by congruence.
  reflexivity.
Qed.

(** X8. A release that is not flagged stable is never offered: whatever an
    upload request with a stability flag other than "true" (in any case of
    letters) does, every update check is answered after it as it was
    before. *)
Theorem unstable_upload_is_not_offered
    env req db (device_id current_version : option string) (host_url : string) :
  wants_stable req = false ->
  check_firmware_update device_id current_version host_url
    (upload_firmware env req db).2
  = check_firmware_update device_id current_version host_url db.
Proof.
  intros Hunstable.
  destruct (upload_firmware env req db) as [r db1] eqn:Hrun.
  destruct (decide (status_code r = 201)) as [Hcode | Hcode].
  - destruct (upload_201 _ _ _ _ _ Hrun Hcode)
      as (v & file & _ & _ & _ & _ & ->).
    unfold check_firmware_update, check_firmware_update_view.
    cbn [snd firmware_versions].
    now rewrite latest_stable_snoc_unstable.
  - pose proof (upload_not_201_unchanged env req db) as Hsame.
    rewrite Hrun in Hsame. cbn in Hsame |- *. now rewrite Hsame.
Qed.

(** X9. The stability flag survives the way from the firmware manager to
    the catalog: the manager prints it with [str(...).lower()], the server
    reads it back with [.lower() == 'true'], and the release created by an
    accepted upload has the flag, the version and the description the manager
    was given. *)
Theorem manager_upload_round_trip
    env (file : FileStorage) (version description : string) (is_stable : bool)
    db r db1 :
  upload_firmware env
    (manager_upload_request file version description is_stable) db = (r, db1) ->
  status_code r = 201 ->
  exists release,
    firmware_versions db1 = firmware_versions db ++ [release] /\
    fw_version release = version /\
    fw_is_stable release = is_stable /\
    fw_description release = Some description /\
    fw_checksum release = Some (sha256_hexdigest (stream file)).
Proof.
  intros Hrun Hcode.
  destruct (upload_201 _ _ _ _ _ Hrun Hcode)
    as (v & file' & Hv & _ & Hfile & _ & ->).
  cbn in Hv, Hfile. injection Hv as <-. injection Hfile as <-.
  eexists. split; [reflexivity|].
  repeat split. now destruct is_stable.
Qed.

(** X10. A check never points a device at a release that is not newer: a
    response that carries a download URL, a new version or a checksum has
    [update_available = true], and the catalog has a stable release whose
    version the comparator reports GREATER than the device's. *)
Theorem check_offers_only_newer_release
    (device_id current_version : option string) (host_url : string) db :
  let r := check_firmware_update device_id current_version host_url db in
  is_Some (body r !! "firmware_url") \/ is_Some (body r !! "new_version") \/
  is_Some (body r !! "checksum") ->
  body r !! "update_available" = Some (JBool true) /\
  exists current L,
    current_version = Some current /\ L ∈ firmware_versions db /\
    fw_is_stable L = true /\
    version_compare (fw_version L) current = Ok GREATER.
Proof.
  cbv zeta. unfold check_firmware_update, check_firmware_update_view.
  assert (Hno : forall m : gmap string json,
             m !! "firmware_url" = None -> m !! "new_version" = None ->
             m !! "checksum" = None ->
             is_Some (m !! "firmware_url") \/ is_Some (m !! "new_version") \/
             is_Some (m !! "checksum") -> False).
  { intros m -> -> ->. intros [[? [=]] | [[? [=]] | [? [=]]]]. }
  destruct (falsy device_id || falsy current_version) eqn:Hfalsy.
  { intros Hsome. now apply Hno in Hsome. }
  destruct current_version as [current|]; [|now rewrite orb_true_r in Hfalsy].
  cbn [default from_option id].
  destruct (latest_stable (firmware_versions db)) as [L|] eqn:HL.
  2: { intros Hsome. now apply Hno in Hsome. }
  destruct (latest_stable_Some _ _ HL) as (HLin & HLs & _).
  destruct (version_compare (fw_version L) current) as [c|e] eqn:Hcmp.
  2: { intros Hsome. now apply Hno in Hsome. }
  destruct (version_compare_answer _ _ _ Hcmp) as [-> | [-> | ->]].
  - intros _. split; [reflexivity|]. now exists current, L.
  - intros Hsome. now apply Hno in Hsome.
  - intros Hsome. now apply Hno in Hsome.
Qed.

End Catalog.

(** ** The device registry: configuration, listing, telemetry *)

Section Registry.

Context `{Platform} `{Interpreter}.

Implicit Types (db : Server) (row : DeviceRegistry).

Lemma with_registry_same db :
  with_registry (device_registry db) db = db.
Proof. now destruct db. Qed.

(** X11. Setting the flag and reading it back: a POST with [auto_update]
    for a registered device is answered 200 and changes that flag of that
    device and nothing else, and the GET that follows shows the device with
    the new flag. *)
Theorem device_config_sets_then_gets (device_id : string) (b : bool) db row :
  device_registry db !! device_id = Some row ->
  let r := (device_config device_id POST (Some b) db).1 in
  let db1 := (device_config device_id POST (Some b) db).2 in
  status_code r = 200 /\
  device_registry db1 !! device_id = Some (set_auto_update b row) /\
  (forall other, other <> device_id ->
                 device_registry db1 !! other = device_registry db !! other) /\
  sensor_data db1 = sensor_data db /\
  firmware_versions db1 = firmware_versions db /\
  upload_folder db1 = upload_folder db /\
  device_config device_id GET None db1
  = (jsonify [("status", JStr "success");
              ("device", DeviceRegistry_to_dict (set_auto_update b row))], db1).
Proof.
  intros Hrow. unfold device_config. rewrite Hrow. cbn [fst snd].
  split; [reflexivity|]. split; [apply lookup_insert_eq|].
  split; [intros other Hne; now apply lookup_insert_ne|].
  do 3 (split; [reflexivity|]).
  cbn [with_registry device_registry]. now rewrite lookup_insert_eq.
Qed.

(** X12. The configuration endpoint changes nothing unless it is a POST
    that carries [auto_update] for a registered device: an unknown device is
    answered 404, and a GET, or a POST without the key, leaves the state as
    it was. *)
Theorem device_config_otherwise_changes_nothing
    (device_id : string) (method : Method) (auto_update : option bool) db :
  (device_registry db !! device_id = None ->
   device_config device_id method auto_update db
   = (error_response 404 "Device not found", db)) /\
  (method = GET \/ auto_update = None ->
   (device_config device_id method auto_update db).2 = db).
Proof.
  unfold device_config. split.
  - now intros ->.
  - intros Hcase.
    destruct (device_registry db !! device_id) as [row|] eqn:Hrow; [|reflexivity].
    destruct method; [reflexivity|].
    destruct Hcase as [Hm | ->]; [discriminate|]. cbn.
    rewrite insert_id by easy. apply with_registry_same.
Qed.

(** One telemetry request keeps the identity fields of every registered
    device. *)
Lemma receive_keeps_identity env data db device_id row :
  device_registry db !! device_id = Some row ->
  exists row',
    device_registry (receive_sensor_data env data db).2 !! device_id = Some row' /\
    dev_auto_update row' = dev_auto_update row /\
    dev_registered_at row' = dev_registered_at row /\
    dev_hardware_version row' = dev_hardware_version row.
Proof.
  intros Hrow.
  destruct (receive_sensor_data_cases env data db)
    as [(t & h & _ & _ & _ & _ & Hbody) | (code & message & _ & ->)];
    [|now exists row].
  unfold receive_sensor_data. rewrite Hbody.
  destruct (store_reading env data t h db) as [[r db1]|e] eqn:Hstore;
    [|now exists row].
  destruct (store_reading_Ok _ _ _ _ _ _ _ Hstore)
    as (ts & d & fw & _ & _ & _ & _ & _ & Hreg & _).
  cbn [snd]. rewrite Hreg.
  destruct (decide (d = device_id)) as [-> | Hne].
  - rewrite lookup_insert_eq, Hrow. eexists. split; [reflexivity|]. now cbn.
  - rewrite lookup_insert_ne by easy. now exists row.
Qed.

(** X13. Telemetry never resets what an operator configured: once
    [auto_update] of a registered device has been set, it has that value
    after any sequence of telemetry requests, from this device or others,
    accepted or not; [registered_at] and [hardware_version] are kept as
    well. *)
Theorem telemetry_keeps_configured_flag
    (reqs : list (IngestEnv * gmap string json)) (device_id : string)
    (b : bool) db row :
  device_registry db !! device_id = Some row ->
  let db1 := (device_config device_id POST (Some b) db).2 in
  exists row',
    device_registry (receive_all reqs db1) !! device_id = Some row' /\
    dev_auto_update row' = b /\
    dev_registered_at row' = dev_registered_at row /\
    dev_hardware_version row' = dev_hardware_version row.
Proof.
  intros Hrow db1.
  assert (Hstart : device_registry db1 !! device_id
                   = Some (set_auto_update b row)).
  { subst db1. unfold device_config. rewrite Hrow. apply lookup_insert_eq. }
  assert (Hinv : forall reqs db0 row0,
             device_registry db0 !! device_id = Some row0 ->
             exists row',
               device_registry (receive_all reqs db0) !! device_id = Some row' /\
               dev_auto_update row' = dev_auto_update row0 /\
               dev_registered_at row' = dev_registered_at row0 /\
               dev_hardware_version row' = dev_hardware_version row0).
  { clear. intros reqs.
    induction reqs as [|[env data] reqs IH]; intros db0 row0 Hrow0.
    - now exists row0.
    - cbn [receive_all].
      destruct (receive_keeps_identity env data db0 device_id row0 Hrow0)
        as (row1 & Hrow1 & Ha & Hr & Hh).
      destruct (IH _ _ Hrow1) as (row' & Hrow' & Ha' & Hr' & Hh').
      exists row'. split; [easy|]. split; [congruence|].
      split; congruence. }
  destruct (Hinv reqs db1 _ Hstart) as (row' & Hrow' & Ha & Hr & Hh).
  exists row'. split; [easy|]. now repeat split.
Qed.

Lemma device_count db :
  body (list_devices db) !! "count"
  = Some (JInt (Z.of_nat (size (device_registry db)))).
Proof.
  unfold list_devices, all_devices.
  rewrite length_fmap, length_map_to_list. reflexivity.
Qed.

(** X14. One row per device: the count of the device listing is the number
    of registered device ids; a telemetry request leaves it as it is or, when
    the reading is accepted and the device was not registered, raises it by
    one; no request ever removes a device. *)
Theorem telemetry_adds_at_most_one_device
    (env : IngestEnv) (data : gmap string json) db :
  let r := (receive_sensor_data env data db).1 in
  let db1 := (receive_sensor_data env data db).2 in
  body (list_devices db) !! "count"
  = Some (JInt (Z.of_nat (size (device_registry db)))) /\
  body (list_devices db1) !! "count"
  = Some (JInt (Z.of_nat (size (device_registry db1)))) /\
  (size (device_registry db1) = size (device_registry db) \/
   size (device_registry db1) = S (size (device_registry db)) /\
   status_code r = 201 /\
   exists device_id,
     device_registry db !! device_id = None /\
     is_Some (device_registry db1 !! device_id)) /\
  (forall device_id, is_Some (device_registry db !! device_id) ->
                     is_Some (device_registry db1 !! device_id)).
Proof.
  cbv zeta. split; [apply device_count|]. split; [apply device_count|].
  destruct (receive_sensor_data_cases env data db)
    as [(t & h & _ & _ & _ & _ & Hbody) | (code & message & _ & ->)];
    [|now split; [left|]].
  unfold receive_sensor_data. rewrite Hbody.
  destruct (store_reading env data t h db) as [[r db1]|e] eqn:Hstore;
    [|now split; [left|]].
  destruct (store_reading_Ok _ _ _ _ _ _ _ Hstore)
    as (ts & d & fw & _ & _ & _ & Hcode & _ & Hreg & _).
  cbn [fst snd]. rewrite Hreg. split.
  - destruct (device_registry db !! d) as [row|] eqn:Hrow.
    + left. now rewrite map_size_insert_Some by (rewrite Hrow; eauto).
    + right. rewrite map_size_insert_None by easy.
      split; [reflexivity|]. split; [exact Hcode|].
      exists d. rewrite Hrow. split; [reflexivity|].
      rewrite lookup_insert_eq. eauto.
  - intros device_id Hsome.
    destruct (decide (d = device_id)) as [-> | Hne].
    + rewrite lookup_insert_eq. eauto.
    + now rewrite lookup_insert_ne.
Qed.

(** X15. The stores are append-only and the handlers keep to their own
    tables: a telemetry request only appends readings and leaves the
    firmware catalog and the upload folder as they are; an upload only
    appends releases and leaves the readings and the registry as they are; a
    configuration request leaves readings, catalog and folder as they
    are. *)
Theorem handlers_append_and_keep_to_their_tables db :
  (forall (env : IngestEnv) (data : gmap string json),
      let db1 := (receive_sensor_data env data db).2 in
      sensor_data db `prefix_of` sensor_data db1 /\
      firmware_versions db1 = firmware_versions db /\
      upload_folder db1 = upload_folder db) /\
  (forall (env : UploadEnv) (req : UploadRequest),
      let db1 := (upload_firmware env req db).2 in
      firmware_versions db `prefix_of` firmware_versions db1 /\
      sensor_data db1 = sensor_data db /\
      device_registry db1 = device_registry db) /\
  (forall (device_id : string) (method : Method) (auto_update : option bool),
      let db1 := (device_config device_id method auto_update db).2 in
      sensor_data db1 = sensor_data db /\
      firmware_versions db1 = firmware_versions db /\
      upload_folder db1 = upload_folder db).
Proof.
  split; [|split].
  - intros env data. cbv zeta.
    destruct (receive_sensor_data_cases env data db)
      as [(t & h & _ & _ & _ & _ & Hbody) | (code & message & _ & ->)];
      [|now split].
    unfold receive_sensor_data. rewrite Hbody.
    destruct (store_reading env data t h db) as [[r db1]|e] eqn:Hstore;
      [|now split].
    destruct (store_reading_Ok _ _ _ _ _ _ _ Hstore)
      as (ts & d & fw & _ & _ & _ & _ & Hdata & _ & Hcat & Hdir).
    cbn [snd]. rewrite Hdata. split; [now apply prefix_app_r | now split].
  - intros env req. cbv zeta.
    destruct (upload_firmware env req db) as [r db1] eqn:Hrun.
    destruct (decide (status_code r = 201)) as [Hcode | Hcode].
    + destruct (upload_success env req db r db1 Hrun Hcode)
        as (v & file & release & _ & _ & _ & Hcat & _ & _ & _ & Hdata & Hreg).
      cbn [snd]. rewrite Hcat. split; [now apply prefix_app_r | now split].
    + pose proof (upload_not_201_unchanged env req db) as Hsame.
      rewrite Hrun in Hsame. cbn in Hsame |- *. now rewrite Hsame.
  - intros device_id method auto_update. cbv zeta. unfold device_config.
    destruct (device_registry db !! device_id); [|now repeat split].
    destruct method; now repeat split.
Qed.

End Registry.

(** ** Telemetry queries: latest and history *)

Section Queries.

Context `{Platform} `{Interpreter}.

Implicit Types (db : Server) (r : SensorData) (rows : list SensorData).

#[local] Instance timestamp_desc_transitive : Transitive timestamp_desc.
Proof. intros x y z. unfold timestamp_desc. lia. Qed.

#[local] Instance timestamp_desc_total : Total timestamp_desc.
Proof. intros x y. unfold timestamp_desc. lia. Qed.

Lemma of_device_filter device_id rows :
  of_device device_id rows = filter (matches_device device_id) rows.
Proof.
  unfold of_device.
  destruct (falsy device_id) eqn:Hfalsy.
  - symmetry. induction rows as [|r rows IH]; [reflexivity|].
    rewrite filter_cons_True by now left. now rewrite IH.
  - destruct device_id as [s|]; [|discriminate]. cbn [default from_option id].
    apply list_filter_iff. intros r. unfold matches_device. split.
    + intros <-. now right.
    + intros [Hf | [= <-]]; [congruence | reflexivity].
Qed.

(** The head of a list sorted newest first is a most recent element. *)
Lemma head_sorted_newest rows latest :
  head (merge_sort timestamp_desc rows) = Some latest ->
  latest ∈ rows /\ forall r, r ∈ rows -> sd_timestamp r <= sd_timestamp latest.
Proof.
  intros Hhd.
  pose proof (StronglySorted_merge_sort timestamp_desc rows) as Hsorted.
  pose proof (merge_sort_Permutation timestamp_desc rows) as Hperm.
  destruct (merge_sort timestamp_desc rows) as [|f l]; [discriminate|].
  injection Hhd as ->. split; [rewrite <- Hperm; left|].
  intros r Hr. rewrite <- Hperm in Hr.
  apply elem_of_cons in Hr as [-> | Hr]; [lia|].
  apply StronglySorted_inv in Hsorted as [_ Hall].
  rewrite Forall_forall in Hall. exact (Hall r Hr).
Qed.

Lemma head_sorted_None rows :
  head (merge_sort timestamp_desc rows) = None -> rows = [].
Proof.
  rewrite head_None. intros Hnil.
  apply Permutation_nil_r. rewrite <- Hnil.
  symmetry. apply merge_sort_Permutation.
Qed.

(** With no matching reading the answer is 404. *)
Lemma latest_not_found (device_id : option string) db :
  (forall r, r ∈ sensor_data db -> ~ matches_device device_id r) ->
  get_latest_data device_id db = error_response 404 "No data available".
Proof.
  unfold get_latest_data. rewrite of_device_filter. intros Hnone.
  destruct (head _) as [latest|] eqn:Hhd; [|reflexivity].
  apply head_sorted_newest in Hhd as [Hin _].
  apply list_elem_of_filter in Hin as [Hm Hin]. now destruct (Hnone latest).
Qed.

(** With a matching reading the answer shows a most recent one. *)
Lemma latest_found (device_id : option string) db :
  (exists r, r ∈ sensor_data db /\ matches_device device_id r) ->
  exists latest,
    latest ∈ sensor_data db /\ matches_device device_id latest /\
    (forall r, r ∈ sensor_data db -> matches_device device_id r ->
               sd_timestamp r <= sd_timestamp latest) /\
    get_latest_data device_id db
    = jsonify [("status", JStr "success");
               ("data", SensorData_to_dict latest)].
Proof.
  unfold get_latest_data. rewrite of_device_filter. intros (r & Hr & Hm).
  destruct (head _) as [latest|] eqn:Hhd.
  - apply head_sorted_newest in Hhd as [Hin Hmax].
    apply list_elem_of_filter in Hin as [Hlm Hlin].
    exists latest. split; [easy|]. split; [easy|]. split; [|reflexivity].
    intros r' Hr' Hm'. apply Hmax. now apply list_elem_of_filter.
  - apply head_sorted_None in Hhd.
    assert (Hin : r ∈ filter (matches_device device_id) (sensor_data db))
      by now apply list_elem_of_filter.
    rewrite Hhd in Hin. now apply elem_of_nil in Hin.
Qed.

(** X16. The latest reading: when no reading matches the device filter
    the answer is 404; otherwise the answer is 200 with a stored reading that
    matches the filter and whose timestamp no matching reading exceeds.  An
    absent or empty [device_id] is no filter: every reading matches. *)
Theorem latest_is_a_most_recent_reading (device_id : option string) db :
  ((forall r, r ∈ sensor_data db -> ~ matches_device device_id r) ->
   get_latest_data device_id db = error_response 404 "No data available") /\
  ((exists r, r ∈ sensor_data db /\ matches_device device_id r) ->
   exists latest,
     latest ∈ sensor_data db /\ matches_device device_id latest /\
     (forall r, r ∈ sensor_data db -> matches_device device_id r ->
                sd_timestamp r <= sd_timestamp latest) /\
     get_latest_data device_id db
     = jsonify [("status", JStr "success");
                ("data", SensorData_to_dict latest)]) /\
  (falsy device_id = true -> forall r, matches_device device_id r).
Proof.
  split; [apply latest_not_found|]. split; [apply latest_found|].
  intros Hf r. now left.
Qed.

(** X17. Ingestion round trip: an accepted reading is stored as the row
    the 201 response shows, and when every stored reading of that device has
    an earlier timestamp, the latest reading of the device is that very
    row. *)
Theorem latest_after_ingest
    (env : IngestEnv) (data : gmap string json) db response db1 :
  receive_sensor_data env data db = (response, db1) ->
  status_code response = 201 ->
  exists row,
    sensor_data db1 = sensor_data db ++ [row] /\
    body response !! "data" = Some (SensorData_to_dict row) /\
    (sd_device_id row <> "" ->
     (forall old, old ∈ sensor_data db ->
                  sd_device_id old = sd_device_id row ->
                  sd_timestamp old < sd_timestamp row) ->
     get_latest_data (Some (sd_device_id row)) db1
     = jsonify [("status", JStr "success");
                ("data", SensorData_to_dict row)]).
Proof.
  intros Hrun Hcode.
  destruct (receive_sensor_data_cases env data db)
    as [(t & h & _ & _ & _ & _ & Hbody) | (code & message & Hc & Herr)].
  2: { rewrite Herr in Hrun. injection Hrun as <- _. cbn in Hcode.
       destruct Hc; subst; discriminate. }
  unfold receive_sensor_data in Hrun. rewrite Hbody in Hrun.
  unfold store_reading in Hrun.
  destruct (parse_timestamp env data) as [ts|]; [|now injection Hrun as <- _].
  cbn in Hrun.
  destruct (getitem data "device_id") as [v|]; [|now injection Hrun as <- _].
  cbn in Hrun.
  destruct (not_null (varchar v)) as [d|]; [|now injection Hrun as <- _].
  cbn in Hrun.
  destruct (varchar _) as [fw|]; [|now injection Hrun as <- _].
  cbn in Hrun. injection Hrun as <- <-.
  eexists. split; [reflexivity|]. split; [reflexivity|].
  cbn [sd_device_id sd_timestamp sensor_data]. intros Hd Hold.
  destruct (latest_found (Some d)
              {| sensor_data :=
                   sensor_data db ++
                   [{| sd_id := new_sensor_data_id env;
                       sd_device_id := d;
                       sd_temperature := t;
                       sd_humidity := h;
                       sd_firmware_version := fw;
                       sd_timestamp := ts;
                       sd_created_at := utcnow_insert env |}];
                 firmware_versions := firmware_versions db;
                 device_registry :=
                   <[d := touch env d fw (device_registry db !! d)]>
                     (device_registry db);
                 upload_folder := upload_folder db |})
    as (latest & Hin & Hm & Hmax & ->).
  { eexists. split; [apply elem_of_app; right; left|]. now right. }
  cbn [sensor_data] in Hin, Hmax.
  apply elem_of_app in Hin as [Hin | Hin].
  - destruct Hm as [Hf | [= Hm]].
    { cbn in Hf. apply bool_decide_eq_true in Hf. now destruct Hd. }
    specialize (Hold latest Hin (eq_sym Hm)).
    assert (Hle : ts <= sd_timestamp latest).
    { apply (Hmax {| sd_id := new_sensor_data_id env; sd_device_id := d;
                     sd_temperature := t; sd_humidity := h;
                     sd_firmware_version := fw; sd_timestamp := ts;
                     sd_created_at := utcnow_insert env |});
        [apply elem_of_app; right; left | now right]. }
    lia.
  - apply list_elem_of_singleton in Hin. now subst latest.
Qed.

(** With both date parameters absent, empty or parseable, the readings the
    history query sorts are the eligible ones. *)
Lemma history_filters device_id start_date end_date lo hi rows :
  parsed_bound start_date lo -> parsed_bound end_date hi ->
  match
    (if falsy start_date then Some (of_device device_id rows)
     else match fromisoformat (default "" start_date) with
          | Some start =>
              Some (filter (fun r => start <= sd_timestamp r)
                      (of_device device_id rows))
          | None => None
          end)
  with
  | None => inl (error_response 400 "Invalid start_date format")
  | Some query =>
      if falsy end_date then inr query
      else match fromisoformat (default "" end_date) with
           | Some end_ => inr (filter (fun r => sd_timestamp r <= end_) query)
           | None => inl (error_response 400 "Invalid end_date format")
           end
  end = inr (eligible device_id lo hi rows).
Proof.
  intros Hlo Hhi. rewrite of_device_filter. unfold eligible, within.
  destruct Hlo as [[-> ->] | (-> & [s ->] & ->)];
    destruct Hhi as [[-> ->] | (-> & [e ->] & ->)]; f_equal.
  - apply list_filter_iff. tauto.
  - rewrite list_filter_filter. apply list_filter_iff. tauto.
  - rewrite list_filter_filter. apply list_filter_iff. tauto.
  - rewrite !list_filter_filter. apply list_filter_iff. tauto.
Qed.

(** X18. The history: with dates that are absent, empty or parseable and a
    limit the engine accepts, the answer is 200 and lists, newest first, the
    most recent of the eligible readings (those that match the device filter
    and lie between the dates), as many as the limit allows: the readings
    listed followed by the eligible readings left out are the eligible
    readings sorted newest first. *)
Theorem history_lists_newest_eligible
    (device_id start_date end_date limit : option string) db
    (lo hi : option datetime) :
  parsed_bound start_date lo -> parsed_bound end_date hi ->
  0 <= limit_arg limit < 2 ^ 64 ->
  exists data rest,
    get_historical_data device_id start_date end_date limit db
    = jsonify [("status", JStr "success");
               ("count", JInt (Z.of_nat (length data)));
               ("data", JArr (SensorData_to_dict <$> data))] /\
    data ++ rest ≡ₚ eligible device_id lo hi (sensor_data db) /\
    StronglySorted timestamp_desc (data ++ rest) /\
    length data
    = Nat.min (Z.to_nat (limit_arg limit))
        (length (eligible device_id lo hi (sensor_data db))).
Proof.
  intros Hlo Hhi Hlimit.
  set (sorted := merge_sort timestamp_desc
                   (eligible device_id lo hi (sensor_data db))).
  exists (take (Z.to_nat (limit_arg limit)) sorted),
         (drop (Z.to_nat (limit_arg limit)) sorted).
  split; [|split; [|split]].
  - unfold get_historical_data, get_historical_data_body.
    rewrite (history_filters device_id start_date end_date lo hi) by easy.
    unfold limit_rows.
    replace (limit_arg limit <? 0) with false by (symmetry; apply Z.ltb_ge; lia).
    replace (2 ^ 64 <=? limit_arg limit) with false
      by (symmetry; apply Z.leb_gt; lia).
    reflexivity.
  - rewrite take_drop. apply merge_sort_Permutation.
  - rewrite take_drop. apply StronglySorted_merge_sort; apply _.
  - rewrite length_take. subst sorted.
    now rewrite (Permutation_length (merge_sort_Permutation timestamp_desc _)).
Qed.

(** X19. What the history refuses: a start date that does not parse is
    answered 400, whatever the other parameters; with a usable start date, an
    end date that does not parse is answered 400; with usable dates, a
    negative limit is answered 500; a limit that is not an integer counts as
    no limit given (the default of 100). *)
Theorem history_rejections
    (device_id start_date end_date limit : option string) db :
  (falsy start_date = false ->
   fromisoformat (default "" start_date) = None ->
   get_historical_data device_id start_date end_date limit db
   = error_response 400 "Invalid start_date format") /\
  (forall lo, parsed_bound start_date lo ->
     falsy end_date = false ->
     fromisoformat (default "" end_date) = None ->
     get_historical_data device_id start_date end_date limit db
     = error_response 400 "Invalid end_date format") /\
  (forall lo hi, parsed_bound start_date lo -> parsed_bound end_date hi ->
     limit_arg limit < 0 ->
     get_historical_data device_id start_date end_date limit db
     = error_response 500 "Internal server error") /\
  (forall s e, limit = Some s -> py_int s = Raise e ->
     get_historical_data device_id start_date end_date limit db
     = get_historical_data device_id start_date end_date None db).
Proof.
  split; [|split; [|split]].
  - intros Hf Hparse. unfold get_historical_data, get_historical_data_body.
    now rewrite Hf, Hparse.
  - intros lo Hlo Hf Hparse.
    unfold get_historical_data, get_historical_data_body.
    rewrite Hf, Hparse.
    destruct Hlo as [[-> ->] | (-> & [s ->] & ->)]; reflexivity.
  - intros lo hi Hlo Hhi Hneg.
    unfold get_historical_data, get_historical_data_body.
    rewrite (history_filters device_id start_date end_date lo hi) by easy.
    unfold limit_rows.
    replace (limit_arg limit <? 0) with true by (symmetry; apply Z.ltb_lt; lia).
    reflexivity.
  - intros s e -> Hint.
    unfold get_historical_data, get_historical_data_body, limit_arg.
    now rewrite Hint.
Qed.

End Queries.

(** ** Telemetry intake, further *)

Section IntakeMore.

Context `{Platform} `{Interpreter}.

Implicit Types (env : IngestEnv) (data : gmap string json) (db : Server).

(** What an accepted request stores. *)
Lemma receive_201 env data db response db1 :
  receive_sensor_data env data db = (response, db1) ->
  status_code response = 201 ->
  exists t h ts device_id fw,
    getitem data "temperature" ≫= py_float = Ok t /\
    getitem data "humidity" ≫= py_float = Ok h /\
    temperature_in_range t = true /\ humidity_in_range h = true /\
    parse_timestamp env data = Ok ts /\
    (v ← getitem data "device_id"; not_null (varchar v)) = Ok device_id /\
    varchar (default (JStr "unknown") (data !! "firmware_version")) = Ok fw /\
    sensor_data db1 =
      sensor_data db ++
      [{| sd_id := new_sensor_data_id env;
          sd_device_id := device_id;
          sd_temperature := t;
          sd_humidity := h;
          sd_firmware_version := fw;
          sd_timestamp := ts;
          sd_created_at := utcnow_insert env |}].
Proof.
  intros Hrun Hcode.
  destruct (receive_sensor_data_cases env data db)
    as [(t & h & Ht & Hh & Htr & Hhr & Hbody) | (code & message & Hc & Herr)].
  - unfold receive_sensor_data in Hrun. rewrite Hbody in Hrun.
    destruct (store_reading env data t h db) as [[r0 db0]|e] eqn:Hstore.
    + injection Hrun as -> ->.
      destruct (store_reading_Ok _ _ _ _ _ _ _ Hstore)
        as (ts & device_id & fw & Hts & Hid & Hfw & _ & Hdata & _).
      exists t, h, ts, device_id, fw. now repeat split.
    + injection Hrun as <- _. cbn in Hcode. discriminate.
  - rewrite Herr in Hrun. injection Hrun as <- _. cbn in Hcode.
    destruct Hc; subst; discriminate.
Qed.

(** X24. Only plausible readings are stored: if every stored reading has
    a temperature and a humidity that pass the range checks, so has every
    stored reading after any sequence of telemetry requests. *)
Theorem telemetry_stores_only_plausible_readings
    (reqs : list (IngestEnv * gmap string json)) db :
  Forall plausible (sensor_data db) ->
  Forall plausible (sensor_data (receive_all reqs db)).
Proof.
  revert db. induction reqs as [|[env data] reqs IH]; intros db Hall; [easy|].
  cbn [receive_all]. apply IH.
  destruct (receive_sensor_data env data db) as [response db1] eqn:Hrun.
  destruct (decide (status_code response = 201)) as [Hcode | Hcode].
  - destruct (receive_201 env data db response db1 Hrun Hcode)
      as (t & h & ts & d & fw & _ & _ & Ht & Hh & _ & _ & _ & Hdata).
    cbn [snd]. rewrite Hdata. apply Forall_app. split; [easy|].
    apply Forall_singleton. now split.
  - pose proof (receive_sensor_data_rejected_unchanged env data db) as Hsame.
    rewrite Hrun in Hsame. cbn [fst snd] in Hsame |- *. now rewrite Hsame.
Qed.

(** X25. An accepted reading is stored as sent: exactly one row is
    appended; its temperature and humidity are the floats of the values
    sent (the numbers themselves when they are sent as JSON floats), its
    device is the one sent, its firmware version is the one sent or
    "unknown" when none is, its timestamp is the parsed one or the server
    time, and [created_at] is the time of insertion. *)
Theorem accepted_reading_is_stored_as_sent env data db response db1 :
  receive_sensor_data env data db = (response, db1) ->
  status_code response = 201 ->
  exists row,
    sensor_data db1 = sensor_data db ++ [row] /\
    getitem data "temperature" ≫= py_float = Ok (sd_temperature row) /\
    getitem data "humidity" ≫= py_float = Ok (sd_humidity row) /\
    (forall t, data !! "temperature" = Some (JFloat t) -> sd_temperature row = t) /\
    (forall h, data !! "humidity" = Some (JFloat h) -> sd_humidity row = h) /\
    (forall d, data !! "device_id" = Some (JStr d) -> sd_device_id row = d) /\
    (data !! "firmware_version" = None ->
     sd_firmware_version row = Some "unknown") /\
    (forall v, data !! "firmware_version" = Some (JStr v) ->
               sd_firmware_version row = Some v) /\
    (data !! "timestamp" = None -> sd_timestamp row = utcnow_receipt env) /\
    (forall s t, data !! "timestamp" = Some (JStr s) ->
                 fromisoformat (Str.replace "Z" "+00:00" s) = Some t ->
                 sd_timestamp row = t) /\
    sd_created_at row = utcnow_insert env.
Proof.
  intros Hrun Hcode.
  destruct (receive_201 env data db response db1 Hrun Hcode)
    as (t & h & ts & d & fw & Ht & Hh & _ & _ & Hts & Hid & Hfw & Hdata).
  eexists. split; [exact Hdata|]. cbn.
  split; [exact Ht|]. split; [exact Hh|].
  unfold getitem in Ht, Hh, Hid. unfold parse_timestamp in Hts.
  split; [intros t' E; rewrite E in Ht; cbn in Ht; congruence|].
  split; [intros h' E; rewrite E in Hh; cbn in Hh; congruence|].
  split; [intros d' E; rewrite E in Hid; cbn in Hid; congruence|].
  split; [intros E; rewrite E in Hfw; cbn in Hfw; congruence|].
  split; [intros v E; rewrite E in Hfw; cbn in Hfw; congruence|].
  split; [intros E; rewrite E in Hts; congruence|].
  split; [|reflexivity].
  intros s t' E Hparse. rewrite E in Hts. cbn in Hts. rewrite Hparse in Hts.
  congruence.
Qed.

End IntakeMore.

(** ** The version comparator, further *)

Section ComparatorMore.

Context `{Interpreter}.

Implicit Types (a b c v : string) (p q : list Z).

Lemma split_nonempty sep v : Str.split sep v <> [].
Proof.
  induction v as [|ch r IH]; [easy|]. cbn.
  destruct (Ascii.eqb ch sep); [easy|]. now destruct (Str.split sep r).
Qed.

(** [(a + sep + b).split(sep) = a.split(sep) + b.split(sep)] *)
Lemma split_app sep a b :
  Str.split sep (a +:+ String sep b) = Str.split sep a ++ Str.split sep b.
Proof.
  induction a as [|ch r IH].
  - change ("" +:+ String sep b) with (String sep b). cbn [Str.split].
    now rewrite Ascii.eqb_refl.
  - change (String ch r +:+ String sep b) with (String ch (r +:+ String sep b)).
    cbn [Str.split]. rewrite IH.
    destruct (Ascii.eqb ch sep); [reflexivity|].
    pose proof (split_nonempty sep r) as Hne.
    now destruct (Str.split sep r).
Qed.

Lemma comprehension_app {A B} (f : A -> result B) l1 l2 r1 r2 :
  comprehension f l1 = Ok r1 -> comprehension f l2 = Ok r2 ->
  comprehension f (l1 ++ l2) = Ok (r1 ++ r2).
Proof.
  revert r1. induction l1 as [|x l1 IH]; intros r1; cbn.
  - now intros [= <-].
  - destruct (f x) as [y|]; [|discriminate]. cbn.
    destruct (comprehension f l1) as [ys|]; [|discriminate]. cbn.
    intros [= <-] H2. now rewrite (IH ys eq_refl H2).
Qed.

Lemma view_snoc_zero n p : view 0 n (p ++ [0]) = view 0 n p.
Proof.
  unfold view. apply map_ext. intros i.
  destruct (Nat.lt_ge_cases i (length p)) as [Hlt | Hge].
  - now rewrite app_nth1.
  - rewrite (nth_overflow p) by easy. rewrite app_nth2 by easy.
    destruct (i - length p)%nat as [|[|k]]; reflexivity.
Qed.

Lemma spec_compare_snoc_zero p :
  spec_compare p (p ++ [0]) = EQUAL /\ spec_compare (p ++ [0]) p = EQUAL.
Proof.
  rewrite (spec_compare_view (S (length p)) p (p ++ [0])),
    (spec_compare_view (S (length p)) (p ++ [0]) p)
    by (rewrite ?length_app; cbn; lia).
  now rewrite view_snoc_zero, lex_compare_refl.
Qed.

(** X20. A trailing ".0" does not change a version: for every version
    string [v] whose components are non-negative integers that the
    interpreter reads, [v + ".0"] is such a string too, and [v] and
    [v + ".0"] compare EQUAL, in both orders. *)
Theorem trailing_zero_component_is_insignificant v :
  valid_version v = true ->
  valid_version (v +:+ ".0") = true /\
  version_compare v (v +:+ ".0") = Ok EQUAL /\
  version_compare (v +:+ ".0") v = Ok EQUAL.
Proof.
  intros Hv.
  assert (Hsplit : Str.split "." (v +:+ ".0") = Str.split "." v ++ ["0"])
    by apply (split_app "." v "0").
  assert (Hv0 : valid_version (v +:+ ".0") = true).
  { unfold valid_version. rewrite Hsplit, forallb_app.
    unfold valid_version in Hv. now rewrite Hv. }
  assert (Hn : numbers (v +:+ ".0") = numbers v ++ [0]).
  { unfold numbers. now rewrite Hsplit, fmap_app. }
  split; [exact Hv0|].
  rewrite (version_compare_valid v (v +:+ ".0")),
    (version_compare_valid (v +:+ ".0") v) by easy.
  rewrite Hn. destruct (spec_compare_snoc_zero (numbers v)) as [-> ->].
  now split.
Qed.

Lemma lex_compare_Eq l1 l2 :
  length l1 = length l2 -> lex_compare l1 l2 = Eq -> l1 = l2.
Proof.
  revert l2. induction l1 as [|x l1 IH]; intros [|y l2] Hlen; try easy.
  cbn. destruct (Z.compare_spec x y) as [-> | |]; try easy.
  intros Heq. f_equal. apply IH; [now injection Hlen | easy].
Qed.

Lemma spec_compare_EQUAL_view n p q :
  (length p <= n)%nat -> (length q <= n)%nat ->
  spec_compare p q = EQUAL -> view 0 n p = view 0 n q.
Proof.
  intros Hp Hq. rewrite (spec_compare_view n p q) by easy. intros Heq.
  apply lex_compare_Eq; [now rewrite !length_view|].
  now apply (answer_of_inj _ Eq).
Qed.

Lemma spec_compare_EQUAL_congr p q r :
  spec_compare p q = EQUAL ->
  spec_compare p r = spec_compare q r /\ spec_compare r p = spec_compare r q.
Proof.
  intros Heq.
  set (n := Nat.max (length p) (Nat.max (length q) (length r))).
  pose proof (spec_compare_EQUAL_view n p q ltac:(lia) ltac:(lia) Heq) as Hview.
  rewrite (spec_compare_view n p r), (spec_compare_view n q r),
    (spec_compare_view n r p), (spec_compare_view n r q) by lia.
  now rewrite Hview.
Qed.

(** X21. Versions that compare EQUAL are interchangeable, and the answers
    are consistent: for version strings whose components are non-negative
    integers that the interpreter reads, if [a] and [b] compare EQUAL then
    they compare alike with every [c], on either side; EQUAL is symmetric;
    exactly one of GREATER, EQUAL, LESS is answered; and LESS is
    transitive. *)
Theorem equal_versions_are_interchangeable a b c :
  valid_version a = true -> valid_version b = true -> valid_version c = true ->
  (version_compare a b = Ok EQUAL ->
   version_compare b a = Ok EQUAL /\
   version_compare a c = version_compare b c /\
   version_compare c a = version_compare c b) /\
  (version_compare a b = Ok GREATER \/ version_compare a b = Ok EQUAL \/
   version_compare a b = Ok LESS) /\
  (version_compare a b = Ok LESS -> version_compare b c = Ok LESS ->
   version_compare a c = Ok LESS).
Proof.
  intros Va Vb Vc.
  rewrite (version_compare_valid a b), (version_compare_valid b a),
    (version_compare_valid a c), (version_compare_valid b c),
    (version_compare_valid c a), (version_compare_valid c b) by easy.
  set (pa := numbers a). set (pb := numbers b). set (pc := numbers c).
  split; [|split].
  - intros [= Heq]. destruct (spec_compare_EQUAL_congr pa pb pc Heq) as [-> ->].
    split; [|easy]. f_equal.
    destruct (spec_compare_EQUAL_congr pa pb pa Heq) as [<- _].
    apply spec_compare_refl.
  - unfold spec_compare.
    destruct (lex_compare _ _); cbn; [right; left | right; right | left];
      reflexivity.
  - intros [= H1] [= H2]. f_equal.
    apply spec_compare_antisym. apply spec_compare_antisym in H1, H2.
    now apply (spec_compare_trans pc pb pa).
Qed.

Lemma py_int_raises s e : py_int s = Raise e -> e = ValueError.
Proof.
  unfold py_int.
  destruct (if negb (Str.all_chars int_char s) then None
            else if Str.all_chars Str.is_ascii s then int_ascii s
                 else int_non_ascii s) as [n|];
    [discriminate | now intros [= <-]].
Qed.

(** A component that is empty, or that holds an ASCII character no integer
    has, is refused. *)
Lemma py_int_refuses s :
  s = "" \/ Str.all_chars int_char s = false -> py_int s = Raise ValueError.
Proof.
  intros [-> | Hs]; [reflexivity|]. unfold py_int. now rewrite Hs.
Qed.

Lemma comprehension_py_int_raises l :
  (exists s, s ∈ l /\ py_int s = Raise ValueError) <->
  comprehension py_int l = Raise ValueError.
Proof.
  induction l as [|x l IH]; cbn.
  - split; [intros (s & Hs & _); now apply elem_of_nil in Hs | discriminate].
  - destruct (py_int x) as [n|e] eqn:Hx; cbn.
    + destruct (comprehension py_int l) as [ns|e] eqn:Hl; cbn.
      * split; [|discriminate]. intros (s & Hs & Hraise).
        apply elem_of_cons in Hs as [-> | Hs]; [congruence|].
        assert (Hex : exists s, s ∈ l /\ py_int s = Raise ValueError) by eauto.
        apply IH in Hex. discriminate.
      * split.
        -- intros (s & Hs & Hraise).
           apply elem_of_cons in Hs as [-> | Hs]; [congruence|].
           apply IH. eauto.
        -- intros Heq. apply IH in Heq as (s & Hs & Hraise).
           exists s. split; [now right | easy].
    + rewrite (py_int_raises x e Hx). split; [reflexivity|].
      intros _. exists x. split; [left|]. now rewrite <- (py_int_raises x e Hx).
Qed.

Lemma version_parts_result v :
  (exists p, version_parts v = Ok p) \/ version_parts v = Raise ValueError.
Proof.
  unfold version_parts. induction (Str.split "." v) as [|x l IH]; cbn.
  - left. now eexists.
  - destruct (py_int x) as [n|e] eqn:Hx; cbn.
    + destruct IH as [(p & ->) | ->]; cbn; [left; now eexists | now right].
    + right. now rewrite (py_int_raises x e Hx).
Qed.

(** X22. The comparator raises [ValueError] and nothing else, and when
    it does not raise it answers 1, 0 or -1.  It raises whenever a component
    of either argument is empty or holds an ASCII character that is not a
    digit, a sign, an underscore or white space; so it does for the empty
    string and for every string that ends in a dot. *)
Theorem version_compare_raises_on_bad_component a b :
  (forall e, version_compare a b = Raise e -> e = ValueError) /\
  (forall n, version_compare a b = Ok n -> n = 1 \/ n = 0 \/ n = -1) /\
  (forall s, s ∈ Str.split "." a \/ s ∈ Str.split "." b ->
             s = "" \/ Str.all_chars int_char s = false ->
             version_compare a b = Raise ValueError) /\
  version_compare "" b = Raise ValueError /\
  version_compare (a +:+ ".") b = Raise ValueError.
Proof.
  assert (Hbad : forall a b s,
             s ∈ Str.split "." a \/ s ∈ Str.split "." b ->
             s = "" \/ Str.all_chars int_char s = false ->
             version_compare a b = Raise ValueError).
  { clear. intros a b s Hin Hs. apply py_int_refuses in Hs.
    unfold version_compare. destruct Hin as [Hin | Hin].
    - assert (Ha : version_parts a = Raise ValueError)
        by (apply comprehension_py_int_raises; eauto).
      now rewrite Ha.
    - assert (Hb : version_parts b = Raise ValueError)
        by (apply comprehension_py_int_raises; eauto).
      rewrite Hb. destruct (version_parts_result a) as [(p & ->) | ->];
        reflexivity. }
  split; [|split; [|split; [|split]]].
  - unfold version_compare. intros e.
    destruct (version_parts_result a) as [(pa & ->) | ->]; cbn;
      [|now intros [= <-]].
    destruct (version_parts_result b) as [(pb & ->) | ->]; cbn;
      [discriminate | now intros [= <-]].
  - intros n Hn. apply (version_compare_answer a b n Hn).
  - apply Hbad.
  - apply (Hbad "" b ""); [left; left | now left].
  - apply (Hbad (a +:+ ".") b ""); [|now left]. left.
    rewrite (split_app "." a ""). apply elem_of_app. right. left.
Qed.

End ComparatorMore.

(** ** The dashboard: comfort levels *)

Section ComfortBands.

Context `{Platform} `{Interpreter}.

Variable float_lt_int : float -> Z -> bool.

(** If [x < a] and [a <= b] then [x < b], as in IEEE arithmetic. *)
Hypothesis lt_mono :
  forall x a b, a <= b -> float_lt_int x a = true -> float_lt_int x b = true.

(** X23. The comfort level goes by bands: it is "Cold" exactly below 15
    degrees, whatever the humidity; "Ideal Comfort" exactly when the
    temperature is not below 20 and below 26 and the humidity is not below
    40 and below 60; and one of the three "Hot" levels exactly when the
    temperature is not below 30 (a temperature that is not a number compares
    below nothing, and is "Hot"). *)
Theorem comfort_level_bands (temperature humidity : float) :
  let level := get_comfort_level float_lt_int temperature humidity in
  (level = "Cold" <-> float_lt_int temperature 15 = true) /\
  (level = "Ideal Comfort" <->
   float_lt_int temperature 20 = false /\ float_lt_int temperature 26 = true /\
   float_lt_int humidity 40 = false /\ float_lt_int humidity 60 = true) /\
  (level = "Hot & Dry" \/ level = "Hot" \/ level = "Hot & Sticky" <->
   float_lt_int temperature 30 = false).
Proof.
  cbv zeta. unfold get_comfort_level.
  pose proof (lt_mono temperature 15 20 ltac:(lia)) as M1.
  pose proof (lt_mono temperature 20 26 ltac:(lia)) as M2.
  pose proof (lt_mono temperature 26 30 ltac:(lia)) as M3.
  pose proof (lt_mono humidity 40 60 ltac:(lia)) as M4.
  destruct (float_lt_int temperature 15);
    destruct (float_lt_int temperature 20);
    destruct (float_lt_int temperature 26);
    destruct (float_lt_int temperature 30);
    destruct (float_lt_int humidity 40);
    destruct (float_lt_int humidity 60);
    try (specialize (M1 eq_refl)); try (specialize (M2 eq_refl));
    try (specialize (M3 eq_refl)); try (specialize (M4 eq_refl));
    try discriminate;
    (split; [|split]); split; intros; intuition (try discriminate; auto).
Qed.

End ComfortBands.

(** ** The further properties at concrete inputs *)

Section Scenarios.

Import Example Scenario.

Lemma download_after_upload_witness :
  upload_firmware upload_env (upload "1.0.0" first_bytes) empty_server
  = (after_upload.1, after_upload.2) /\
  status_code after_upload.1 = 201 /\
  download_firmware "1.0.0" after_upload.2
  = Attachment "firmware_v1.0.0.bin" first_bytes.
Proof.
  split; [reflexivity|]. split; [reflexivity|].
  destruct (download_after_upload upload_env (upload "1.0.0" first_bytes)
              empty_server after_upload.1 after_upload.2 eq_refl eq_refl)
    as (v & file & Hv & Hfile & Hdown).
  injection Hv as <-. injection Hfile as <-. exact Hdown.
Defined.

Lemma colliding_upload_overwrites_binary_witness :
  let run1 := upload_firmware upload_env (upload "1.0 0" first_bytes)
                empty_server in
  let run2 := upload_firmware later_env (upload "1.0_0" other_bytes) run1.2 in
  status_code run1.1 = 201 /\ status_code run2.1 = 201 /\
  firmware_file_name "1.0 0" = firmware_file_name "1.0_0" /\
  download_firmware "1.0 0" run2.2
  = Attachment "firmware_v1.0_0.bin" other_bytes /\
  exists f, find_version "1.0 0" (firmware_versions run2.2) = Some f /\
            fw_checksum f = Some "0102".
Proof.
  intros run1 run2.
  split; [reflexivity|]. split; [reflexivity|]. split; [reflexivity|].
  apply (colliding_upload_overwrites_binary upload_env later_env
           (upload "1.0 0" first_bytes) (upload "1.0_0" other_bytes)
           empty_server run1.1 run1.2 run2.1 run2.2
           "1.0 0" "1.0_0"
           {| filename := "build.bin"; stream := first_bytes |}
           {| filename := "build.bin"; stream := other_bytes |});
    reflexivity.
Defined.

Lemma upload_keeps_files_intact_witness :
  stored_intact empty_server /\ stored_intact after_upload.2.
Proof.
  assert (Hempty : stored_intact empty_server).
  { intros f Hf. now apply elem_of_nil in Hf. }
  split; [exact Hempty|].
  apply (upload_keeps_files_intact upload_env (upload "1.0.0" first_bytes)
           empty_server Hempty).
  intros v f _ Hf. now apply elem_of_nil in Hf.
Defined.

Lemma upload_keeps_versions_unique_witness :
  NoDup (fw_version <$> firmware_versions after_upload.2) /\
  NoDup (fw_version <$>
         firmware_versions
           (upload_firmware later_env (upload "1.0.0" other_bytes)
              after_upload.2).2).
Proof.
  assert (Hfirst : NoDup (fw_version <$> firmware_versions after_upload.2)).
  { apply (upload_keeps_versions_unique upload_env
             (upload "1.0.0" first_bytes) empty_server). constructor. }
  split; [exact Hfirst|].
  apply (upload_keeps_versions_unique later_env (upload "1.0.0" other_bytes)
           after_upload.2 Hfirst).
Defined.

Lemma check_after_stable_upload_witness :
  status_code after_upload.1 = 201 /\
  wants_stable (upload "1.0.0" first_bytes) = true /\
  body (check_firmware_update (Some "ESP32_001") (Some "0.9")
          host_url after_upload.2) !! "checksum" = Some (JStr "0102") /\
  body (check_firmware_update (Some "ESP32_001") (Some "0.9")
          host_url after_upload.2) !! "new_version" = Some (JStr "1.0.0").
Proof.
  split; [reflexivity|]. split; [reflexivity|].
  destruct (check_after_stable_upload upload_env (upload "1.0.0" first_bytes)
              empty_server after_upload.1 after_upload.2
              "ESP32_001" "0.9" host_url eq_refl eq_refl eq_refl)
    as (v & file & Hv & Hfile & _ & Hadv).
  - intros f Hf. now apply elem_of_nil in Hf.
  - discriminate.
  - discriminate.
  - injection Hv as <-. injection Hfile as <-.
    destruct (Hadv eq_refl) as (Hnew & Hsum & _). split; [exact Hsum | exact Hnew].
Defined.

Lemma unstable_upload_is_not_offered_witness :
  wants_stable beta_upload = false /\
  status_code (upload_firmware later_env beta_upload db_2_0_0).1 = 201 /\
  check_firmware_update (Some "ESP32_001") (Some "1.5.0") host_url
    (upload_firmware later_env beta_upload db_2_0_0).2
  = check_firmware_update (Some "ESP32_001") (Some "1.5.0") host_url db_2_0_0.
Proof.
  split; [reflexivity|]. split; [reflexivity|].
  apply unstable_upload_is_not_offered. reflexivity.
Defined.

Lemma manager_upload_round_trip_witness :
  let run := upload_firmware upload_env
               (manager_upload_request manager_file "1.0.0" "notes" false)
               empty_server in
  status_code run.1 = 201 /\
  exists release,
    firmware_versions run.2 = [release] /\ fw_is_stable release = false /\
    fw_description release = Some "notes".
Proof.
  intros run. split; [reflexivity|].
  destruct (manager_upload_round_trip upload_env manager_file "1.0.0" "notes"
              false empty_server run.1 run.2 eq_refl eq_refl)
    as (release & Hcat & _ & Hstable & Hdesc & _).
  exists release. split; [exact Hcat|]. split; [exact Hstable | exact Hdesc].
Defined.

Lemma check_offers_only_newer_release_witness :
  is_Some (body (check_firmware_update (Some "ESP32_001") (Some "1.5.0")
                   host_url db_2_0_0) !! "firmware_url") /\
  body (check_firmware_update (Some "ESP32_001") (Some "1.5.0")
          host_url db_2_0_0) !! "update_available" = Some (JBool true).
Proof.
  assert (Hurl : is_Some (body (check_firmware_update (Some "ESP32_001")
                                  (Some "1.5.0") host_url db_2_0_0)
                          !! "firmware_url")) by (eexists; reflexivity).
  split; [exact Hurl|].
  apply (check_offers_only_newer_release (Some "ESP32_001") (Some "1.5.0")
           host_url db_2_0_0). now left.
Defined.

Lemma device_config_sets_then_gets_witness :
  device_registry (db_registered true) !! "ESP32_001"
  = Some (device_row "ESP32_001" true) /\
  device_registry
    (device_config "ESP32_001" POST (Some false) (db_registered true)).2
  !! "ESP32_001" = Some (device_row "ESP32_001" false).
Proof.
  split; [reflexivity|].
  apply (device_config_sets_then_gets "ESP32_001" false (db_registered true)
           (device_row "ESP32_001" true) eq_refl).
Defined.

Lemma telemetry_keeps_configured_flag_witness :
  device_registry (db_registered true) !! "ESP32_001"
  = Some (device_row "ESP32_001" true) /\
  exists row,
    device_registry
      (receive_all [(ingest_env, reading None);
                    (ingest_env, reading (Some (JInt 5)))]
         (device_config "ESP32_001" POST (Some false) (db_registered true)).2)
    !! "ESP32_001" = Some row /\
    dev_auto_update row = false.
Proof.
  split; [reflexivity|].
  destruct (telemetry_keeps_configured_flag
              [(ingest_env, reading None); (ingest_env, reading (Some (JInt 5)))]
              "ESP32_001" false (db_registered true)
              (device_row "ESP32_001" true) eq_refl)
    as (row & Hrow & Hflag & _).
  exists row. split; [exact Hrow | exact Hflag].
Defined.

Lemma latest_after_ingest_witness :
  let run := receive_sensor_data ingest_env (reading None) db_readings in
  status_code run.1 = 201 /\
  exists row,
    sensor_data run.2 = sensor_data db_readings ++ [row] /\
    sd_timestamp row = now /\
    get_latest_data (Some "ESP32_001") run.2
    = jsonify [("status", JStr "success"); ("data", SensorData_to_dict row)].
Proof.
  intros run. split; [reflexivity|].
  destruct (latest_after_ingest ingest_env (reading None) db_readings
              run.1 run.2 eq_refl eq_refl) as (row & Hdata & _ & Hlatest).
  exists row. split; [exact Hdata|].
  apply app_inj_tail in Hdata as [_ <-].
  split; [reflexivity|]. apply Hlatest; [discriminate|].
  intros old Hold _. cbn in Hold.
  repeat (apply elem_of_cons in Hold as [-> | Hold]; [cbn; unfold now; lia|]).
  now apply elem_of_nil in Hold.
Defined.

Lemma history_lists_newest_eligible_witness :
  parsed_bound (Some "2023-11-14T22:11:30") (Some (now - 110 * 1000000)) /\
  parsed_bound None None /\
  0 <= limit_arg (Some "1") < 2 ^ 64 /\
  exists data,
    get_historical_data (Some "ESP32_001") (Some "2023-11-14T22:11:30") None
      (Some "1") db_readings
    = jsonify [("status", JStr "success");
               ("count", JInt (Z.of_nat (length data)));
               ("data", JArr (SensorData_to_dict <$> data))] /\
    length data = 1%nat.
Proof.
  assert (Hlo : parsed_bound (Some "2023-11-14T22:11:30")
                  (Some (now - 110 * 1000000))).
  { right. split; [reflexivity|]. split; [eauto | reflexivity]. }
  assert (Hhi : parsed_bound None None) by (left; now split).
  assert (Hlimit : 0 <= limit_arg (Some "1") < 2 ^ 64)
    by (change (limit_arg (Some "1")) with 1; lia).
  split; [exact Hlo|]. split; [exact Hhi|]. split; [exact Hlimit|].
  destruct (history_lists_newest_eligible (Some "ESP32_001")
              (Some "2023-11-14T22:11:30") None (Some "1") db_readings
              _ _ Hlo Hhi Hlimit) as (data & rest & Hrun & _ & _ & Hlen).
  exists data. split; [exact Hrun | exact Hlen].
Defined.

Lemma trailing_zero_component_is_insignificant_witness :
  valid_version "1.2" = true /\ version_compare "1.2" "1.2.0" = Ok EQUAL.
Proof.
  split; [reflexivity|].
  apply (trailing_zero_component_is_insignificant "1.2" eq_refl).
Defined.

Lemma equal_versions_are_interchangeable_witness :
  valid_version "1.2" = true /\ valid_version "1.2.0" = true /\
  valid_version "1.10" = true /\
  version_compare "1.2" "1.10" = version_compare "1.2.0" "1.10".
Proof.
  do 3 (split; [reflexivity|]).
  destruct (equal_versions_are_interchangeable "1.2" "1.2.0" "1.10"
              eq_refl eq_refl eq_refl) as (Heq & _).
  destruct (Heq eq_refl) as (_ & Hsame & _). exact Hsame.
Defined.

Lemma lt_int_mono (x : Q) (a b : Z) :
  a <= b -> lt_int x a = true -> lt_int x b = true.
Proof.
  unfold lt_int. intros Hab Ha.
  apply negb_true_iff in Ha. apply negb_true_iff.
  destruct (Qle_bool (inject_Z b) x) eqn:Hb; [|reflexivity].
  apply Qle_bool_iff in Hb.
  assert (Hle : (inject_Z a <= x)%Q).
  { apply Qle_trans with (inject_Z b); [|exact Hb].
    rewrite <- Zle_Qle. exact Hab. }
  apply Qle_bool_iff in Hle. congruence.
Qed.

Lemma comfort_level_bands_witness :
  (forall x a b, a <= b -> lt_int x a = true -> lt_int x b = true) /\
  get_comfort_level (H := Ref.platform) lt_int (47 # 2)%Q 41%Q = "Ideal Comfort".
Proof.
  split; [exact lt_int_mono|].
  destruct (comfort_level_bands (H := Ref.platform) lt_int lt_int_mono
              (47 # 2)%Q 41%Q) as (_ & Hideal & _).
  apply Hideal. repeat split.
Defined.

Lemma telemetry_stores_only_plausible_readings_witness :
  Forall plausible (sensor_data empty_server) /\
  Forall plausible
    (sensor_data
       (receive_all
          [(ingest_env, reading None);
           (ingest_env, reading_body "ESP32_001" (JInt 150) (JInt 41) None)]
          empty_server)) /\
  length (sensor_data
            (receive_all
               [(ingest_env, reading None);
                (ingest_env, reading_body "ESP32_001" (JInt 150) (JInt 41) None)]
               empty_server)) = 1%nat.
Proof.
  assert (Hempty : Forall plausible (sensor_data empty_server)) by constructor.
  split; [exact Hempty|]. split; [|reflexivity].
  apply (telemetry_stores_only_plausible_readings _ empty_server Hempty).
Defined.

Lemma accepted_reading_is_stored_as_sent_witness :
  let run := receive_sensor_data ingest_env
               (reading (Some (JStr "2023-11-14T22:00:00Z"))) empty_server in
  status_code run.1 = 201 /\
  exists row,
    sensor_data run.2 = [row] /\
    sd_temperature row = (47 # 2)%Q /\ sd_device_id row = "ESP32_001" /\
    sd_firmware_version row = Some "unknown" /\
    sd_timestamp row = now - 800 * 1000000.
Proof.
  intros run. split; [reflexivity|].
  destruct (accepted_reading_is_stored_as_sent ingest_env
              (reading (Some (JStr "2023-11-14T22:00:00Z"))) empty_server
              run.1 run.2 eq_refl eq_refl)
    as (row & Hdata & _ & _ & Ht & _ & Hd & Hfw & _ & _ & Hts & _).
  exists row. split; [exact Hdata|].
  split; [apply Ht; reflexivity|]. split; [apply Hd; reflexivity|].
  split; [apply Hfw; reflexivity|].
  apply (Hts "2023-11-14T22:00:00Z"); reflexivity.
Defined.

End Scenarios.
